(** * car-scan: the OBD-II / ELM327 protocol codec

    A shallow embedding of the C library under [obd/src] (hex_utils.c,
    elm327.c, pid.c, sensor.c, dtc.c, vin.c) and the properties of it that
    the specification states.

    Conventions of the embedding.
    - A C string ([const char *]) is the list of its characters before the
      terminating NUL, so a test for the NUL at [p] reads as a test for the empty list.
    - A [char] is an [ascii]; comparisons on it go through its code
      ([char_code]).  Every literal the code compares against is below 128,
      so the signedness of [char] does not matter.
    - [uint8_t] and [int] values are [Z]; a narrowing cast to [uint8_t] is
      written [Z.land _ 255].
    - [size_t] capacities, lengths and indices are [nat].
    - Pointer arguments are taken to be non-NULL; the size arguments that
      travel with them are modelled and checked as in the code.
    - An output buffer is returned as the characters (or bytes) written to
      it. *)

From Stdlib Require Import ZArith List Ascii String Bool Lia Arith FunInd.
From Stdlib Require Import Floats.SpecFloat.
Import ListNotations.

Local Open Scope Z_scope.

(** ** obd_types.h *)

Inductive obd_result_t : Type :=
| OBD_OK
| OBD_ERROR_INVALID_ARG
| OBD_ERROR_BUFFER_TOO_SMALL
| OBD_ERROR_INVALID_HEX
| OBD_ERROR_NO_DATA
| OBD_ERROR_ELM_ERROR
| OBD_ERROR_PARSE_FAILED
| OBD_ERROR_UNKNOWN_PID.

Inductive obd_elm_response_type_t : Type :=
| OBD_ELM_RESPONSE_DATA
| OBD_ELM_RESPONSE_OK
| OBD_ELM_RESPONSE_NO_DATA
| OBD_ELM_RESPONSE_ERROR
| OBD_ELM_RESPONSE_PROMPT
| OBD_ELM_RESPONSE_UNKNOWN.

Definition OBD_MAX_DATA_BYTES : nat := 7.
Definition OBD_VIN_LENGTH : nat := 17.
Definition OBD_DTC_CODE_LENGTH : nat := 6.
Definition OBD_MAX_DTCS : nat := 32.
Definition OBD_MAX_RESPONSE_LEN : nat := 256.

Record obd_pid_response_t : Type := mk_pid_response {
  mode : Z;
  pid : Z;
  data : list Z;      (* data[0 .. data_len-1] *)
  data_len : nat
}.

Inductive obd_dtc_category_t : Type :=
| OBD_DTC_POWERTRAIN
| OBD_DTC_CHASSIS
| OBD_DTC_BODY
| OBD_DTC_NETWORK.

Record obd_dtc_t : Type := mk_dtc {
  category : obd_dtc_category_t;
  code : Z;
  formatted : list ascii   (* the five characters before the NUL *)
}.

(** ** C strings *)

Definition cstring : Type := list ascii.

Definition cstr (s : string) : cstring := list_ascii_of_string s.

Definition char_code (c : ascii) : Z := Z.of_N (N_of_ascii c).

Definition char_of_code (z : Z) : ascii := ascii_of_N (Z.to_N z).

Definition CR : ascii := ascii_of_nat 13.
Definition LF : ascii := ascii_of_nat 10.
Definition TAB : ascii := ascii_of_nat 9.
Definition VT : ascii := ascii_of_nat 11.
Definition FF : ascii := ascii_of_nat 12.
Definition SP : ascii := " "%char.

(** A byte is a [Z] in [0, 256). *)
Definition is_byte (b : Z) : Prop := 0 <= b < 256.

(** ** hex_utils.c *)

Module HexUtils.

(** [hex_char_to_nibble]: the value of a hex digit, -1 for any other
    character. *)
Definition hex_char_to_nibble (c : ascii) : Z :=
  let k := char_code c in
  if (char_code "0" <=? k) && (k <=? char_code "9") then k - char_code "0"
  else if (char_code "A" <=? k) && (k <=? char_code "F") then k - char_code "A" + 10
  else if (char_code "a" <=? k) && (k <=? char_code "f") then k - char_code "a" + 10
  else -1.

Definition is_whitespace (c : ascii) : bool :=
  Ascii.eqb c SP || Ascii.eqb c TAB || Ascii.eqb c CR || Ascii.eqb c LF.

(** The [while] loop of [obd_hex_to_bytes], entered with [o] bytes already
    written.  The list returned holds the bytes written from index [o] on. *)
Fixpoint hex_to_bytes_loop (hex : cstring) (out_size o : nat)
  : obd_result_t * list Z :=
  match hex with
  | [] => (OBD_OK, [])
  | c :: rest =>
      if is_whitespace c then hex_to_bytes_loop rest out_size o
      else
        let high := hex_char_to_nibble c in
        if high <? 0 then (OBD_ERROR_INVALID_HEX, [])
        else
          match rest with
          | [] => (OBD_ERROR_INVALID_HEX, [])
          | c2 :: rest2 =>
              let low := hex_char_to_nibble c2 in
              if low <? 0 then (OBD_ERROR_INVALID_HEX, [])
              else if (out_size <=? o)%nat then (OBD_ERROR_BUFFER_TOO_SMALL, [])
              else
                let b := Z.land (Z.lor (Z.shiftl high 4) low) 255 in
                let '(r, bs) := hex_to_bytes_loop rest2 out_size (S o) in
                (r, b :: bs)
          end
  end.

(** [obd_hex_to_bytes]: the result code and the bytes written to [out];
    [*out_len] is their number when the result is [OBD_OK]. *)
Definition obd_hex_to_bytes (hex : cstring) (out_size : nat)
  : obd_result_t * list Z :=
  hex_to_bytes_loop hex out_size 0.

Definition hex_chars : cstring := cstr "0123456789ABCDEF".

Definition hex_digit (i : Z) : ascii := nth (Z.to_nat i) hex_chars "000"%char.

(** The [for] loop of [obd_bytes_to_hex]: two digits per byte and a space
    after every byte but the last ([i < len - 1]). *)
Fixpoint bytes_to_hex_loop (bytes : list Z) : cstring :=
  match bytes with
  | [] => []
  | b :: rest =>
      hex_digit (Z.land (Z.shiftr b 4) 15) :: hex_digit (Z.land b 15) ::
      match rest with
      | [] => []
      | _ :: _ => SP :: bytes_to_hex_loop rest
      end
  end.

(** [obd_bytes_to_hex]: [len] is the length of [bytes].  The second
    component is the string written to [out]; [None] when [out] is left
    untouched. *)
Definition obd_bytes_to_hex (bytes : list Z) (out_size : nat)
  : obd_result_t * option cstring :=
  let len := List.length bytes in
  if (len =? 0)%nat then
    (OBD_OK, if (0 <? out_size)%nat then Some [] else None)
  else
    let needed := (len * 3)%nat in
    if (out_size <? needed)%nat then (OBD_ERROR_BUFFER_TOO_SMALL, None)
    else (OBD_OK, Some (bytes_to_hex_loop bytes)).

(** [obd_strip_whitespace]: the string left in the buffer. *)
Fixpoint obd_strip_whitespace (str : cstring) : cstring :=
  match str with
  | [] => []
  | c :: rest =>
      if is_whitespace c then obd_strip_whitespace rest
      else c :: obd_strip_whitespace rest
  end.

End HexUtils.

Import HexUtils.

(** ** elm327.c *)

Module Elm327.

(** [strncmp] of libc: the difference of the first differing characters
    among the first [n], 0 when there is none; the end of a string counts
    as the character 0. *)
Fixpoint strncmp (s1 s2 : cstring) (n : nat) : Z :=
  match n with
  | O => 0
  | S n' =>
      match s1, s2 with
      | [], [] => 0
      | [], c2 :: _ => 0 - char_code c2
      | c1 :: _, [] => char_code c1
      | c1 :: r1, c2 :: r2 =>
          if Ascii.eqb c1 c2 then strncmp r1 r2 n'
          else char_code c1 - char_code c2
      end
  end.

(** The loop that moves [p] past leading spaces, tabs, CR and LF. *)
Fixpoint skip_leading_ws (p : cstring) : cstring :=
  match p with
  | [] => []
  | c :: rest =>
      if Ascii.eqb c SP || Ascii.eqb c TAB || Ascii.eqb c CR || Ascii.eqb c LF
      then skip_leading_ws rest
      else p
  end.

Definition obd_elm327_classify_response (response : cstring)
  : obd_elm_response_type_t :=
  let p := skip_leading_ws response in
  match p with
  | [] => OBD_ELM_RESPONSE_UNKNOWN
  | c :: _ =>
      if Ascii.eqb c ">" then OBD_ELM_RESPONSE_PROMPT
      else if strncmp p (cstr "OK") 2 =? 0 then OBD_ELM_RESPONSE_OK
      else if strncmp p (cstr "NO DATA") 7 =? 0 then OBD_ELM_RESPONSE_NO_DATA
      else if Ascii.eqb c "?" then OBD_ELM_RESPONSE_ERROR
      else if (strncmp p (cstr "ERROR") 5 =? 0)
              || (strncmp p (cstr "UNABLE TO CONNECT") 17 =? 0)
              || (strncmp p (cstr "BUS INIT") 8 =? 0)
              || (strncmp p (cstr "CAN ERROR") 9 =? 0)
              || (strncmp p (cstr "STOPPED") 7 =? 0)
           then OBD_ELM_RESPONSE_ERROR
      else if strncmp p (cstr "ELM") 3 =? 0 then OBD_ELM_RESPONSE_OK
      else if 0 <=? hex_char_to_nibble c then OBD_ELM_RESPONSE_DATA
      else OBD_ELM_RESPONSE_UNKNOWN
  end.

(** The loop that moves [p] past line separators (CR, LF). *)
Fixpoint skip_eol (p : cstring) : cstring :=
  match p with
  | [] => []
  | c :: rest =>
      if Ascii.eqb c CR || Ascii.eqb c LF then skip_eol rest else p
  end.

(** The loop that moves [p] to the end of the line: the NUL, a CR, a LF or
    a prompt character.  Returns the characters passed over (the line) and
    what is left at [p]. *)
Fixpoint scan_line (p : cstring) : cstring * cstring :=
  match p with
  | [] => ([], [])
  | c :: rest =>
      if Ascii.eqb c CR || Ascii.eqb c LF || Ascii.eqb c ">" then ([], p)
      else let '(l, q) := scan_line rest in (c :: l, q)
  end.

(** The loop that moves [lp] past the leading spaces and tabs of the line
    [line_start .. p). *)
Fixpoint skip_blanks (lp : cstring) : cstring :=
  match lp with
  | [] => []
  | c :: rest =>
      if Ascii.eqb c SP || Ascii.eqb c TAB then skip_blanks rest else lp
  end.

(** The local state of [obd_elm327_clean_response]: [out[0 .. out_pos)] and
    [found_data]. *)
Record clean_state : Type := mk_clean_state {
  out : cstring;
  found_data : bool
}.

Definition out_pos (st : clean_state) : nat := List.length (out st).

(** What the body of the outer loop does with the line [line_start .. p):
    [inl] is a [return], [inr] the state the loop goes on with. *)
Definition clean_line (line : cstring) (out_size : nat) (st : clean_state)
  : (obd_result_t * cstring) + clean_state :=
  let lp := skip_blanks line in
  match lp with
  | [] => inr st
  | c0 :: tl =>
      let line_buf := firstn (OBD_MAX_RESPONSE_LEN - 1) lp in
      match obd_elm327_classify_response line_buf with
      | OBD_ELM_RESPONSE_DATA =>
          let hi := hex_char_to_nibble c0 in
          let lo := match tl with
                    | c1 :: _ => hex_char_to_nibble c1
                    | [] => -1
                    end in
          if (hi <? 0) || (lo <? 0) then inr st
          else
            let first_byte := Z.lor (Z.shiftl hi 4) lo in
            if first_byte <? 0x40 then inr st
            else
              let line_len := List.length lp in
              let out1 :=
                if found_data st && (out_pos st <? out_size - 1)%nat
                then out st ++ [CR] else out st in
              if (out_size <=? List.length out1 + line_len)%nat
              then inl (OBD_ERROR_BUFFER_TOO_SMALL, out1)
              else inr (mk_clean_state (out1 ++ lp) true)
      | _ => inr st
      end
  end.

(** The outer [while] loop.  Every iteration that does not
    leave the loop consumes at least one character, so [S (length p)]
    rounds of [fuel] are enough; [None] is the fuel running out. *)
Fixpoint clean_loop (fuel : nat) (p : cstring) (out_size : nat)
  (st : clean_state) : option ((obd_result_t * cstring) + clean_state) :=
  match fuel with
  | O => None
  | S fuel' =>
      match p with
      | [] => Some (inr st)
      | _ :: _ =>
          match skip_eol p with
          | [] => Some (inr st)
          | (c :: _) as p1 =>
              if Ascii.eqb c ">" then Some (inr st)
              else
                let '(line, p2) := scan_line p1 in
                match clean_line line out_size st with
                | inl r => Some (inl r)
                | inr st' => clean_loop fuel' p2 out_size st'
                end
          end
      end
  end.

Fixpoint is_prefix (needle s : cstring) : bool :=
  match needle, s with
  | [], _ => true
  | _ :: _, [] => false
  | a :: n', b :: s' => Ascii.eqb a b && is_prefix n' s'
  end.

(** [strstr (hay, needle) != NULL] *)
Fixpoint strstr (hay needle : cstring) : bool :=
  is_prefix needle hay ||
  match hay with
  | [] => false
  | _ :: rest => strstr rest needle
  end.

(** The final loop that cuts trailing spaces and tabs off [out]. *)
Definition trim_trailing (s : cstring) : cstring := rev (skip_blanks (rev s)).

(** [obd_elm327_clean_response]: the result code and the characters
    written to [out]. *)
Definition obd_elm327_clean_response (raw : cstring) (out_size : nat)
  : option (obd_result_t * cstring) :=
  if (out_size =? 0)%nat then Some (OBD_ERROR_INVALID_ARG, [])
  else
    match clean_loop (S (List.length raw)) raw out_size (mk_clean_state [] false) with
    | None => None
    | Some (inl r) => Some r
    | Some (inr st) =>
        if negb (found_data st) then
          if strstr raw (cstr "NO DATA") then Some (OBD_ERROR_NO_DATA, [])
          else if strstr raw (cstr "?") || strstr raw (cstr "ERROR")
               then Some (OBD_ERROR_ELM_ERROR, [])
          else Some (OBD_ERROR_PARSE_FAILED, [])
        else Some (OBD_OK, trim_trailing (out st))
    end.

(** The AT command builders: pointers to string literals. *)
Definition obd_elm327_cmd_reset : cstring := cstr "ATZ" ++ [CR].
Definition obd_elm327_cmd_echo_off : cstring := cstr "ATE0" ++ [CR].
Definition obd_elm327_cmd_linefeed_off : cstring := cstr "ATL0" ++ [CR].
Definition obd_elm327_cmd_protocol_auto : cstring := cstr "ATSP0" ++ [CR].
Definition obd_elm327_cmd_headers_on : cstring := cstr "ATH1" ++ [CR].
Definition obd_elm327_cmd_headers_off : cstring := cstr "ATH0" ++ [CR].

End Elm327.

(** ** pid.c *)

Module Pid.

(** [obd_pid_parse_response]: the result code and the struct written to
    [out], [None] when [out] is not written.  [data] is the whole array,
    zeroed by the [memset] beyond [data_len]. *)
Definition obd_pid_parse_response (response : cstring)
  : obd_result_t * option obd_pid_response_t :=
  let '(r, bytes) := obd_hex_to_bytes response (2 + OBD_MAX_DATA_BYTES) in
  match r with
  | OBD_OK =>
      let byte_count := List.length bytes in
      if (byte_count <? 2)%nat then (OBD_ERROR_PARSE_FAILED, None)
      else
        let data_len0 := (byte_count - 2)%nat in
        let data_len1 :=
          if (OBD_MAX_DATA_BYTES <? data_len0)%nat then OBD_MAX_DATA_BYTES
          else data_len0 in
        (OBD_OK,
         Some (mk_pid_response (nth 0 bytes 0) (nth 1 bytes 0)
                 (firstn data_len1 (skipn 2 bytes)
                  ++ repeat 0 (OBD_MAX_DATA_BYTES - data_len1))
                 data_len1))
  | _ => (r, None)
  end.

(** What [printf] writes for a [uint8_t] argument under the conversion
    [%02X]: its two upper-case hex digits. *)
Definition fmt_02X (v : Z) : cstring :=
  [hex_digit (Z.land (Z.shiftr v 4) 15); hex_digit (Z.land v 15)].

(** [obd_pid_build_request]: the result code and the string written to
    [out], [None] when [out] is not written.  [n] is what [snprintf]
    returns, the length of the formatted text. *)
Definition obd_pid_build_request (mode pid : Z) (out_size : nat)
  : obd_result_t * option cstring :=
  if (out_size =? 0)%nat then (OBD_ERROR_INVALID_ARG, None)
  else if (out_size <? 6)%nat then (OBD_ERROR_BUFFER_TOO_SMALL, None)
  else
    let text := fmt_02X mode ++ fmt_02X pid ++ [CR] in
    let n := List.length text in
    if (out_size <=? n)%nat
    then (OBD_ERROR_BUFFER_TOO_SMALL, Some (firstn (out_size - 1) text))
    else (OBD_OK, Some text).

End Pid.

(** ** sensor.c *)

Module Sensor.

(** C [float] is IEEE-754 binary32: 24 bits of mantissa, exponent bound 128. *)
Definition float : Type := spec_float.
Definition f_of_int (z : Z) : float := binary_normalize 24 128 z 0 false.
Definition fmul : float -> float -> float := SFmul 24 128.
Definition fdiv : float -> float -> float := SFdiv 24 128.
Definition fadd : float -> float -> float := SFadd 24 128.
Definition fsub : float -> float -> float := SFsub 24 128.

(** [data[i]] *)
Definition at_ (data : list Z) (i : nat) : Z := nth i data 0.

Definition formula_percent (data : list Z) (data_len : nat) : float :=
  fdiv (fmul (f_of_int (at_ data 0)) (f_of_int 100)) (f_of_int 255).

Definition formula_temp_offset40 (data : list Z) (data_len : nat) : float :=
  fsub (f_of_int (at_ data 0)) (f_of_int 40).

Definition formula_rpm (data : list Z) (data_len : nat) : float :=
  fdiv (fadd (fmul (f_of_int (at_ data 0)) (f_of_int 256)) (f_of_int (at_ data 1)))
       (f_of_int 4).

Definition formula_direct (data : list Z) (data_len : nat) : float :=
  f_of_int (at_ data 0).

Definition formula_timing_advance (data : list Z) (data_len : nat) : float :=
  fsub (fdiv (f_of_int (at_ data 0)) (f_of_int 2)) (f_of_int 64).

Definition formula_maf (data : list Z) (data_len : nat) : float :=
  fdiv (fadd (fmul (f_of_int (at_ data 0)) (f_of_int 256)) (f_of_int (at_ data 1)))
       (f_of_int 100).

Definition formula_fuel_pressure (data : list Z) (data_len : nat) : float :=
  fmul (f_of_int (at_ data 0)) (f_of_int 3).

Definition formula_o2_voltage (data : list Z) (data_len : nat) : float :=
  fdiv (f_of_int (at_ data 0)) (f_of_int 200).

Definition formula_runtime (data : list Z) (data_len : nat) : float :=
  fadd (fmul (f_of_int (at_ data 0)) (f_of_int 256)) (f_of_int (at_ data 1)).

Definition formula_dtc_count (data : list Z) (data_len : nat) : float :=
  f_of_int (Z.land (at_ data 0) 0x7F).

Definition formula_fuel_trim (data : list Z) (data_len : nat) : float :=
  fdiv (fmul (fsub (f_of_int (at_ data 0)) (f_of_int 128)) (f_of_int 100))
       (f_of_int 128).

Record sensor_entry_t : Type := mk_entry {
  e_pid : Z;
  e_name : cstring;
  e_unit : cstring;
  byte_count : nat;
  formula : list Z -> nat -> float
}.

Definition sensor_table : list sensor_entry_t :=
  [ mk_entry 0x01 (cstr "DTC Count")                (cstr "")     4 formula_dtc_count;
    mk_entry 0x04 (cstr "Engine Load")              (cstr "%")    1 formula_percent;
    mk_entry 0x05 (cstr "Coolant Temperature")      (cstr "C")    1 formula_temp_offset40;
    mk_entry 0x06 (cstr "Short Term Fuel Trim B1")  (cstr "%")    1 formula_fuel_trim;
    mk_entry 0x07 (cstr "Long Term Fuel Trim B1")   (cstr "%")    1 formula_fuel_trim;
    mk_entry 0x0A (cstr "Fuel Pressure")            (cstr "kPa")  1 formula_fuel_pressure;
    mk_entry 0x0B (cstr "Intake Manifold Pressure") (cstr "kPa")  1 formula_direct;
    mk_entry 0x0C (cstr "Engine RPM")               (cstr "rpm")  2 formula_rpm;
    mk_entry 0x0D (cstr "Vehicle Speed")            (cstr "km/h") 1 formula_direct;
    mk_entry 0x0E (cstr "Timing Advance")           (cstr "deg")  1 formula_timing_advance;
    mk_entry 0x0F (cstr "Intake Air Temperature")   (cstr "C")    1 formula_temp_offset40;
    mk_entry 0x10 (cstr "MAF Air Flow Rate")        (cstr "g/s")  2 formula_maf;
    mk_entry 0x11 (cstr "Throttle Position")        (cstr "%")    1 formula_percent;
    mk_entry 0x14 (cstr "O2 Sensor 1 Voltage")      (cstr "V")    1 formula_o2_voltage;
    mk_entry 0x1F (cstr "Run Time Since Start")     (cstr "sec")  2 formula_runtime ].

(** The linear search of [find_sensor_entry] over a table; [None] is NULL. *)
Fixpoint find_in (table : list sensor_entry_t) (p : Z) : option sensor_entry_t :=
  match table with
  | [] => None
  | e :: rest => if e_pid e =? p then Some e else find_in rest p
  end.

Definition find_sensor_entry (p : Z) : option sensor_entry_t :=
  find_in sensor_table p.

Record obd_sensor_value_t : Type := mk_sensor_value {
  sv_pid : Z;
  sv_value : float;
  sv_name : cstring;   (* char name[32] *)
  sv_unit : cstring    (* char unit[8] *)
}.

(** [strncpy (dst, src, n)] followed by [dst[n] = 0], read back as a string. *)
Definition strncpy_term (src : cstring) (n : nat) : cstring := firstn n src.

(** [obd_sensor_decode]: the result code and the struct written to [out],
    [None] when [out] is not written. *)
Definition obd_sensor_decode (response : obd_pid_response_t)
  : obd_result_t * option obd_sensor_value_t :=
  match find_sensor_entry (pid response) with
  | None => (OBD_ERROR_UNKNOWN_PID, None)
  | Some entry =>
      if (data_len response <? byte_count entry)%nat
      then (OBD_ERROR_PARSE_FAILED, None)
      else
        (OBD_OK,
         Some (mk_sensor_value (pid response)
                 (formula entry (data response) (data_len response))
                 (strncpy_term (e_name entry) (32 - 1))
                 (strncpy_term (e_unit entry) (8 - 1))))
  end.

(** [obd_sensor_get_name]: the result code and the string written to
    [name], [None] when [name] is not written. *)
Definition obd_sensor_get_name (p : Z) (name_size : nat)
  : obd_result_t * option cstring :=
  if (name_size =? 0)%nat then (OBD_ERROR_INVALID_ARG, None)
  else
    match find_sensor_entry p with
    | None => (OBD_ERROR_UNKNOWN_PID, None)
    | Some entry => (OBD_OK, Some (strncpy_term (e_name entry) (name_size - 1)))
    end.

End Sensor.

(** ** dtc.c *)

Module Dtc.

Definition dtc_category_chars : cstring := cstr "PCBU".

(** The cast of the two category bits to [obd_dtc_category_t]. *)
Definition category_of_bits (cat_bits : Z) : obd_dtc_category_t :=
  if cat_bits =? 0 then OBD_DTC_POWERTRAIN
  else if cat_bits =? 1 then OBD_DTC_CHASSIS
  else if cat_bits =? 2 then OBD_DTC_BODY
  else OBD_DTC_NETWORK.

Definition parse_single_dtc (byte1 byte2 : Z) : obd_dtc_t :=
  let cat_bits := Z.land (Z.shiftr byte1 6) 0x03 in
  let d2 := Z.land (Z.shiftr byte1 4) 0x03 in
  let d3 := Z.land byte1 0x0F in
  let d4 := Z.land (Z.shiftr byte2 4) 0x0F in
  let d5 := Z.land byte2 0x0F in
  mk_dtc (category_of_bits cat_bits)
    (Z.lor (Z.lor (Z.lor (Z.shiftl d2 12) (Z.shiftl d3 8)) (Z.shiftl d4 4)) d5)
    [ nth (Z.to_nat cat_bits) dtc_category_chars "000"%char;
      char_of_code (char_code "0" + d2);
      hex_digit d3;
      hex_digit d4;
      hex_digit d5 ].

(** The [while (i + 1 < byte_count && out->count < OBD_MAX_DTCS)] loop;
    [rest] is [bytes[i ..]] and [count] is [out->count].  Returns the
    entries stored from index [count] on. *)
Fixpoint dtc_loop (rest : list Z) (count : nat) : list obd_dtc_t :=
  match rest with
  | b1 :: b2 :: rest' =>
      if (count <? OBD_MAX_DTCS)%nat then
        if (b1 =? 0) && (b2 =? 0) then dtc_loop rest' count
        else parse_single_dtc b1 b2 :: dtc_loop rest' (S count)
      else []
  | _ => []
  end.

(** [obd_dtc_parse_response]: the result code and [out->dtcs[0 .. count)].
    [out] is zeroed before anything else, so the list is empty on errors. *)
Definition obd_dtc_parse_response (response : cstring)
  : obd_result_t * list obd_dtc_t :=
  let '(r, bytes) := obd_hex_to_bytes response 64 in
  match r with
  | OBD_OK =>
      match bytes with
      | [] => (OBD_ERROR_PARSE_FAILED, [])
      | b0 :: rest =>
          if negb (b0 =? 0x43) then (OBD_ERROR_PARSE_FAILED, [])
          else (OBD_OK, dtc_loop rest 0)
      end
  | _ => (r, [])
  end.

(** [obd_dtc_build_request]: the result code and the string written to
    [out], [None] when [out] is not written. *)
Definition obd_dtc_build_request (out_size : nat) : obd_result_t * option cstring :=
  if (out_size =? 0)%nat then (OBD_ERROR_INVALID_ARG, None)
  else if (out_size <? 4)%nat then (OBD_ERROR_BUFFER_TOO_SMALL, None)
  else (OBD_OK, Some ["0"%char; "3"%char; CR]).

(** [obd_dtc_format]: the result code and the string copied to [out]
    (the [OBD_DTC_CODE_LENGTH] bytes of [formatted], terminator included),
    [None] when [out] is not written. *)
Definition obd_dtc_format (dtc : obd_dtc_t) (out_size : nat)
  : obd_result_t * option cstring :=
  if (out_size =? 0)%nat then (OBD_ERROR_INVALID_ARG, None)
  else if (out_size <? OBD_DTC_CODE_LENGTH)%nat then (OBD_ERROR_BUFFER_TOO_SMALL, None)
  else (OBD_OK, Some (formatted dtc)).

End Dtc.

(** ** vin.c *)

Module Vin.

(** The loop that moves [p] past line separators (CR, LF). *)
Fixpoint skip_eol (p : cstring) : cstring :=
  match p with
  | [] => []
  | c :: rest =>
      if Ascii.eqb c CR || Ascii.eqb c LF then skip_eol rest else p
  end.

(** The loop that moves [p] to the end of the line (the NUL, a CR or a LF):
    the line and what is left at [p]. *)
Fixpoint scan_line (p : cstring) : cstring * cstring :=
  match p with
  | [] => ([], [])
  | c :: rest =>
      if Ascii.eqb c CR || Ascii.eqb c LF then ([], p)
      else let '(l, q) := scan_line rest in (c :: l, q)
  end.

(** The [for (j = data_start; ...)] loop: [bytes] is [line_bytes[j ..]],
    [vin] is [vin[0 .. vin_pos)]. *)
Fixpoint append_data (bytes : list Z) (vin : cstring) : cstring :=
  match bytes with
  | [] => vin
  | b :: rest =>
      if (List.length vin <? OBD_VIN_LENGTH)%nat then
        if b =? 0 then append_data rest vin
        else append_data rest (vin ++ [char_of_code b])
      else vin
  end.

(** What one iteration of the outer loop does with the line
    [line_start .. p). *)
Definition vin_line (line : cstring) (vin : cstring) : cstring :=
  let line_hex := firstn (OBD_MAX_RESPONSE_LEN - 1) line in
  let '(r, line_bytes) := obd_hex_to_bytes line_hex 16 in
  match r with
  | OBD_OK =>
      if (List.length line_bytes <? 4)%nat
         || negb (nth 0 line_bytes 0 =? 0x49)
         || negb (nth 1 line_bytes 0 =? 0x02)
      then vin
      else append_data (skipn 3 line_bytes) vin
  | _ => vin
  end.

(** The outer [while] loop.  An iteration that does not leave the loop
    consumes at least one character; [None] is the fuel running out. *)
Fixpoint vin_loop (fuel : nat) (p : cstring) (vin : cstring) : option cstring :=
  match fuel with
  | O => None
  | S fuel' =>
      match p with
      | [] => Some vin
      | _ :: _ =>
          if (List.length vin <? OBD_VIN_LENGTH)%nat then
            match skip_eol p with
            | [] => Some vin
            | (_ :: _) as p1 =>
                let '(line, p2) := scan_line p1 in
                vin_loop fuel' p2 (vin_line line vin)
            end
          else Some vin
      end
  end.

(** [obd_vin_parse_response]: the result code and the string left in
    [vin] (empty when the call returns before writing to it). *)
Definition obd_vin_parse_response (response : cstring) (vin_size : nat)
  : option (obd_result_t * cstring) :=
  if (vin_size =? 0)%nat then Some (OBD_ERROR_INVALID_ARG, [])
  else if (vin_size <? OBD_VIN_LENGTH + 1)%nat then Some (OBD_ERROR_BUFFER_TOO_SMALL, [])
  else
    match vin_loop (S (List.length response)) response [] with
    | None => None
    | Some vin =>
        if negb (List.length vin =? OBD_VIN_LENGTH)%nat
        then Some (OBD_ERROR_PARSE_FAILED, vin)
        else Some (OBD_OK, vin)
    end.

(** [obd_vin_build_request]: the result code and the string written to
    [out], [None] when [out] is not written. *)
Definition obd_vin_build_request (out_size : nat) : obd_result_t * option cstring :=
  if (out_size =? 0)%nat then (OBD_ERROR_INVALID_ARG, None)
  else if (out_size <? 6)%nat then (OBD_ERROR_BUFFER_TOO_SMALL, None)
  else (OBD_OK, Some ["0"%char; "9"%char; "0"%char; "2"%char; CR]).

End Vin.

(** * The specification's wording

    Definitions that follow the words of the specification, to be compared
    with the code above. *)

Import Elm327 Pid Sensor Dtc.

(** The classifier as the specification words it, to be compared with
    [obd_elm327_classify_response].  The set of characters trimmed in front
    of the line is a parameter: the specification says "whitespace/control
    characters", the loop of the code tests four characters. *)
Module ClassifySpec.

(** The claim as written: whitespace and control characters, that is the
    characters C's [isspace] and [iscntrl] accept, codes 1 to 32 and 127. *)
Definition whitespace_or_control (c : ascii) : bool :=
  ((1 <=? char_code c) && (char_code c <=? 32)) || (char_code c =? 127).

(** The amended claim: space, tab, CR and LF, and nothing else. *)
Definition space_tab_cr_lf (c : ascii) : bool :=
  existsb (Ascii.eqb c) [SP; TAB; CR; LF].

Fixpoint trim_leading (trimmed : ascii -> bool) (line : cstring) : cstring :=
  match line with
  | [] => []
  | c :: rest => if trimmed c then trim_leading trimmed rest else line
  end.

Definition has_prefix (token : string) (s : cstring) : bool :=
  is_prefix (cstr token) s.

Definition is_hex_digit (c : ascii) : bool :=
  existsb (Ascii.eqb c) (cstr "0123456789ABCDEFabcdef").

Definition starts_with_char (c : ascii) (s : cstring) : bool :=
  match s with
  | [] => false
  | c0 :: _ => Ascii.eqb c0 c
  end.

Definition classify_with (trimmed : ascii -> bool) (line : cstring)
  : obd_elm_response_type_t :=
  let s := trim_leading trimmed line in
  match s with
  | [] => OBD_ELM_RESPONSE_UNKNOWN
  | c :: _ =>
      if starts_with_char ">" s then OBD_ELM_RESPONSE_PROMPT
      else if has_prefix "OK" s || has_prefix "ELM" s then OBD_ELM_RESPONSE_OK
      else if has_prefix "NO DATA" s then OBD_ELM_RESPONSE_NO_DATA
      else if starts_with_char "?" s
              || existsb (fun token => has_prefix token s)
                   ["ERROR"; "UNABLE TO CONNECT"; "BUS INIT"; "CAN ERROR"; "STOPPED"]%string
           then OBD_ELM_RESPONSE_ERROR
      else if is_hex_digit c then OBD_ELM_RESPONSE_DATA
      else OBD_ELM_RESPONSE_UNKNOWN
  end.

(** The claim as written. *)
Definition classify_as_claimed : cstring -> obd_elm_response_type_t :=
  classify_with whitespace_or_control.

(** The amended claim. *)
Definition classify : cstring -> obd_elm_response_type_t :=
  classify_with space_tab_cr_lf.

End ClassifySpec.

(** The decoding of one trouble code as the specification words it.  The
    second digit is a parameter: the specification takes it from "the low
    2 bits of byte1", the layout comment of dtc.c from bits 13-12 of the
    16-bit word, which are bits 5-4 of byte1. *)
Module DtcSpec.

Definition category_of_top_bits (byte1 : Z) : obd_dtc_category_t :=
  match byte1 / 64 with
  | 0 => OBD_DTC_POWERTRAIN
  | 1 => OBD_DTC_CHASSIS
  | 2 => OBD_DTC_BODY
  | _ => OBD_DTC_NETWORK
  end.

Definition category_letter (c : obd_dtc_category_t) : ascii :=
  match c with
  | OBD_DTC_POWERTRAIN => "P"
  | OBD_DTC_CHASSIS => "C"
  | OBD_DTC_BODY => "B"
  | OBD_DTC_NETWORK => "U"
  end.

Definition decimal_digit (d : Z) : ascii := nth (Z.to_nat d) (cstr "0123456789") "?"%char.

Definition hex_digit_upper (d : Z) : ascii :=
  nth (Z.to_nat d) (cstr "0123456789ABCDEF") "?"%char.

Definition low_nibble (b : Z) : Z := b mod 16.
Definition high_nibble (b : Z) : Z := b / 16.

Definition decode_with (digit2 : Z) (byte1 byte2 : Z) : obd_dtc_t :=
  let digit3 := low_nibble byte1 in
  let digit4 := high_nibble byte2 in
  let digit5 := low_nibble byte2 in
  mk_dtc (category_of_top_bits byte1)
    (digit2 * 4096 + digit3 * 256 + digit4 * 16 + digit5)
    [ category_letter (category_of_top_bits byte1);
      decimal_digit digit2;
      hex_digit_upper digit3;
      hex_digit_upper digit4;
      hex_digit_upper digit5 ].

(** The claim as written: digit 2 is the low 2 bits of byte1. *)
Definition decode_as_claimed (byte1 byte2 : Z) : obd_dtc_t :=
  decode_with (byte1 mod 4) byte1 byte2.

(** Digit 2 from bits 5-4 of byte1, the low 2 bits of its high nibble. *)
Definition decode (byte1 byte2 : Z) : obd_dtc_t :=
  decode_with (high_nibble byte1 mod 4) byte1 byte2.

(** The bytes after the header, two by two; an odd last byte is left out. *)
Fixpoint byte_pairs (bytes : list Z) : list (Z * Z) :=
  match bytes with
  | b1 :: b2 :: rest => (b1, b2) :: byte_pairs rest
  | _ => []
  end.

Definition is_padding (p : Z * Z) : bool := (fst p =? 0) && (snd p =? 0).

(** The entries a Mode-03 payload with body [rest] yields: one per pair
    that is not padding, in order. *)
Definition entries (rest : list Z) : list obd_dtc_t :=
  map (fun p => parse_single_dtc (fst p) (snd p))
      (filter (fun p => negb (is_padding p)) (byte_pairs rest)).

End DtcSpec.

(** The response cleaner as the specification words it. *)
Module CleanSpec.

Definition is_eol (c : ascii) : bool := Ascii.eqb c CR || Ascii.eqb c LF.
Definition is_prompt (c : ascii) : bool := Ascii.eqb c ">".

Definition cons_nonempty (l : cstring) (ls : list cstring) : list cstring :=
  match l with
  | [] => ls
  | _ :: _ => l :: ls
  end.

(** The transcript split on CR/LF, up to the first prompt: the line being
    read at the head of the text and the lines after it. *)
Fixpoint lines_from (p : cstring) : cstring * list cstring :=
  match p with
  | [] => ([], [])
  | c :: rest =>
      if is_prompt c then ([], [])
      else
        let '(cur, ls) := lines_from rest in
        if is_eol c then ([], cons_nonempty cur ls) else (c :: cur, ls)
  end.

(** The non-empty lines of a transcript, in order. *)
Definition lines (raw : cstring) : list cstring :=
  let '(cur, ls) := lines_from raw in cons_nonempty cur ls.

(** The byte that the first two characters of a line spell in hex. *)
Definition first_byte (l : cstring) : option Z :=
  match l with
  | c0 :: c1 :: _ =>
      if (0 <=? hex_char_to_nibble c0) && (0 <=? hex_char_to_nibble c1)
      then Some (16 * hex_char_to_nibble c0 + hex_char_to_nibble c1)
      else None
  | _ => None
  end.

(** The claim as written: an echo is a first byte without the 0x40 bit. *)
Definition echo_as_claimed (b : Z) : bool := negb (Z.testbit b 6).

(** The comparison of the code: an echo is a first byte below 0x40. *)
Definition echo_below_0x40 (b : Z) : bool := b <? 0x40.

(** What a line contributes: itself, without its leading spaces and tabs,
    when it is classified Data and its first byte is not an echo. *)
Definition payload (echo : Z -> bool) (line : cstring) : option cstring :=
  let l := skip_blanks line in
  match obd_elm327_classify_response l with
  | OBD_ELM_RESPONSE_DATA =>
      match first_byte l with
      | Some b => if echo b then None else Some l
      | None => None
      end
  | _ => None
  end.

Fixpoint kept (echo : Z -> bool) (ls : list cstring) : list cstring :=
  match ls with
  | [] => []
  | l :: rest =>
      match payload echo l with
      | Some k => k :: kept echo rest
      | None => kept echo rest
      end
  end.

(** The surviving lines of a transcript, in order. *)
Definition surviving (echo : Z -> bool) (raw : cstring) : list cstring :=
  kept echo (lines raw).

(** Lines joined by single CRs. *)
Fixpoint join_cr (ls : list cstring) : cstring :=
  match ls with
  | [] => []
  | l :: rest =>
      match rest with
      | [] => l
      | _ :: _ => l ++ CR :: join_cr rest
      end
  end.

(** The error reported when nothing survives. *)
Definition no_payload_error (raw : cstring) : obd_result_t :=
  if strstr raw (cstr "NO DATA") then OBD_ERROR_NO_DATA
  else if strstr raw (cstr "?") || strstr raw (cstr "ERROR") then OBD_ERROR_ELM_ERROR
  else OBD_ERROR_PARSE_FAILED.

End CleanSpec.

(** A line without CR or LF. *)
Definition no_eol (l : cstring) : Prop :=
  Forall (fun c => CleanSpec.is_eol c = false) l.

(** What the loop body appends for a surviving line [k]. *)
Definition append_payload (k : cstring) (out_size : nat) (st : clean_state)
  : (obd_result_t * cstring) + clean_state :=
  let out1 :=
    if found_data st && (out_pos st <? out_size - 1)%nat
    then out st ++ [CR] else out st in
  if (out_size <=? List.length out1 + List.length k)%nat
  then inl (OBD_ERROR_BUFFER_TOO_SMALL, out1)
  else inr (mk_clean_state (out1 ++ k) true).

(** The state of the loop once the payloads [ks] have been appended. *)
Definition state_of (ks : list cstring) : clean_state :=
  mk_clean_state (CleanSpec.join_cr ks)
    (match ks with [] => false | _ :: _ => true end).

(** The outer loop of the cleaner seen as a pass over a list of lines. *)
Fixpoint process_lines (ls : list cstring) (out_size : nat) (st : clean_state)
  : (obd_result_t * cstring) + clean_state :=
  match ls with
  | [] => inr st
  | l :: rest =>
      match clean_line l out_size st with
      | inl r => inl r
      | inr st' => process_lines rest out_size st'
      end
  end.

(** The VIN reassembly as the specification words it.  The decoding of a
    line comes twice: as the claim is written ("hex-decodes each line"),
    and as amended, through the line copy of 255 characters and the frame
    buffer of 16 bytes. *)
Module VinSpec.

Definition is_eol (c : ascii) : bool := Ascii.eqb c CR || Ascii.eqb c LF.

(** The transcript split on CR/LF: the line being read at the head of the
    text and the lines after it. *)
Fixpoint lines_from (p : cstring) : cstring * list cstring :=
  match p with
  | [] => ([], [])
  | c :: rest =>
      let '(cur, ls) := lines_from rest in
      if is_eol c then ([], CleanSpec.cons_nonempty cur ls) else (c :: cur, ls)
  end.

(** The non-empty lines of a transcript, in order. *)
Definition lines (response : cstring) : list cstring :=
  let '(cur, ls) := lines_from response in CleanSpec.cons_nonempty cur ls.

(** The claim as written: the bytes the whole line decodes to, however
    many they are. *)
Definition decode_line_as_claimed (line : cstring) : option (list Z) :=
  match obd_hex_to_bytes line (List.length line) with
  | (OBD_OK, bytes) => Some bytes
  | _ => None
  end.

(** The amended claim: the bytes the first 255 characters of the line
    decode to, when they are at most 16. *)
Definition decode_line (line : cstring) : option (list Z) :=
  match obd_hex_to_bytes (firstn (OBD_MAX_RESPONSE_LEN - 1) line) 16 with
  | (OBD_OK, bytes) => Some bytes
  | _ => None
  end.

(** A frame qualifies when it has at least 4 bytes and starts 0x49 0x02. *)
Definition qualifies (bytes : list Z) : bool :=
  (4 <=? List.length bytes)%nat
  && (nth 0 bytes 0 =? 0x49) && (nth 1 bytes 0 =? 0x02).

(** The data bytes of a line: those after the sequence number (index 2)
    of a qualifying frame, none for any other line. *)
Definition frame_data (line : cstring) : list Z :=
  match decode_line line with
  | Some bytes => if qualifies bytes then skipn 3 bytes else []
  | None => []
  end.

(** The characters a line contributes: its non-zero data bytes. *)
Definition frame_chars (line : cstring) : cstring :=
  map char_of_code (filter (fun b => negb (b =? 0)) (frame_data line)).

(** The characters accumulated over a transcript, up to 17. *)
Definition accumulated (response : cstring) : cstring :=
  firstn OBD_VIN_LENGTH (List.concat (map frame_chars (lines response))).

(** The text of one frame with header 49 02, sequence number [seq] and
    the given data bytes, as the adapter prints it. *)
Definition frame_text (seq : Z) (data : list Z) : cstring :=
  bytes_to_hex_loop (0x49 :: 0x02 :: seq :: data).

(** The claim as written: the characters a line contributes, those
    accumulated over a transcript, and the outcome of the call. *)
Definition frame_chars_as_claimed (line : cstring) : cstring :=
  match decode_line_as_claimed line with
  | Some bytes =>
      if qualifies bytes
      then map char_of_code (filter (fun b => negb (b =? 0)) (skipn 3 bytes))
      else []
  | None => []
  end.

Definition accumulated_as_claimed (response : cstring) : cstring :=
  firstn OBD_VIN_LENGTH (List.concat (map frame_chars_as_claimed (lines response))).

Definition parse_as_claimed (response : cstring) : obd_result_t * cstring :=
  let vin := accumulated_as_claimed response in
  (if (List.length vin =? OBD_VIN_LENGTH)%nat then OBD_OK else OBD_ERROR_PARSE_FAILED,
   vin).

End VinSpec.

(** * Auxiliary definitions used by the proofs *)

(** Induction along the decoder's loop. *)
Functional Scheme hex_to_bytes_loop_ind := Induction for hex_to_bytes_loop Sort Prop.

(** The pids of the sensor table. *)
Definition table_pids : list Z := map e_pid sensor_table.

Definition all_bytes : list Z := map Z.of_nat (seq 0 256).

Definition category_eqb (a b : obd_dtc_category_t) : bool :=
  match a, b with
  | OBD_DTC_POWERTRAIN, OBD_DTC_POWERTRAIN
  | OBD_DTC_CHASSIS, OBD_DTC_CHASSIS
  | OBD_DTC_BODY, OBD_DTC_BODY
  | OBD_DTC_NETWORK, OBD_DTC_NETWORK => true
  | _, _ => false
  end.

Fixpoint cstring_eqb (s t : cstring) : bool :=
  match s, t with
  | [], [] => true
  | a :: s', b :: t' => Ascii.eqb a b && cstring_eqb s' t'
  | _, _ => false
  end.

Definition dtc_eqb (d e : obd_dtc_t) : bool :=
  category_eqb (category d) (category e)
  && (code d =? code e)
  && cstring_eqb (formatted d) (formatted e).


Definition test_raw_rpm_response : cstring :=
  cstr "010C" ++ [CR] ++ cstr "41 0C 1A F8" ++ [CR; CR] ++ cstr ">".

Definition test_raw_no_data_response : cstring :=
  cstr "0100" ++ [CR] ++ cstr "NO DATA" ++ [CR; CR] ++ cstr ">".

(** The canonical five-frame VIN transcript of the test suite. *)
Definition test_vin_multiline : cstring :=
  cstr "49 02 01 57 42 41 33" ++ [CR] ++
  cstr "49 02 02 42 35 46 4B" ++ [CR] ++
  cstr "49 02 03 37 46 4E 31" ++ [CR] ++
  cstr "49 02 04 32 33 34 35" ++ [CR] ++
  cstr "49 02 05 36 00 00 00".


(** A line of 257 characters: a frame, blanks up to the 255th character,
    and two characters that are not hex digits. *)
Definition test_vin_long_line : cstring :=
  cstr "49 02 01 57" ++ repeat SP 244 ++ cstr "ZZ".

(** A line of 17 bytes: header, sequence number and 14 data bytes. *)
Definition test_vin_wide_line : cstring :=
  cstr "49 02 01 57 42 41 33 42 35 46 4B 37 46 4E 31 32 33".



(** * Definitions used by the further properties *)

(** ASCII lower-casing of a character. *)
Definition to_lower (c : ascii) : ascii :=
  let k := char_code c in
  if (char_code "A" <=? k) && (k <=? char_code "Z") then char_of_code (k + 32) else c.

(** A line as the cleaner sees one: no CR, LF or prompt character in it. *)
Definition plain_line (l : cstring) : bool :=
  forallb (fun c => negb (CleanSpec.is_eol c || CleanSpec.is_prompt c)) l.

(** The command strings the library builds for the adapter.  A PID request
    is for a request mode, which is below 0x40. *)
Inductive built_request : cstring -> Prop :=
| built_reset : built_request obd_elm327_cmd_reset
| built_echo_off : built_request obd_elm327_cmd_echo_off
| built_linefeed_off : built_request obd_elm327_cmd_linefeed_off
| built_protocol_auto : built_request obd_elm327_cmd_protocol_auto
| built_headers_on : built_request obd_elm327_cmd_headers_on
| built_headers_off : built_request obd_elm327_cmd_headers_off
| built_pid (mode pid : Z) (out_size : nat) (text : cstring) :
    is_byte mode -> mode < 0x40 -> is_byte pid ->
    obd_pid_build_request mode pid out_size = (OBD_OK, Some text) ->
    built_request text
| built_dtc (out_size : nat) (text : cstring) :
    obd_dtc_build_request out_size = (OBD_OK, Some text) -> built_request text
| built_vin (out_size : nat) (text : cstring) :
    Vin.obd_vin_build_request out_size = (OBD_OK, Some text) -> built_request text.

(** The number a finite float stands for, as a fraction [M / 2 ^ k] with
    [k] non-negative; [None] for an infinity or a NaN. *)
Definition float_scaled (f : float) : option (Z * Z) :=
  match f with
  | S754_zero _ => Some (0, 0)
  | S754_finite s m e =>
      let M := if s then Z.neg m else Z.pos m in
      if 0 <=? e then Some (M * 2 ^ e, 0) else Some (M, - e)
  | _ => None
  end.

(** [f] is exactly the fraction [n / d] ([d] positive). *)
Definition float_is (f : float) (n d : Z) : bool :=
  match float_scaled f with
  | Some (M, k) => M * d =? n * 2 ^ k
  | None => false
  end.

(** [f] is within [|n / d| / 2 ^ p] of the fraction [n / d] ([d] positive). *)
Definition float_near (f : float) (n d p : Z) : bool :=
  match float_scaled f with
  | Some (M, k) => Z.abs (M * d - n * 2 ^ k) * 2 ^ p <=? Z.abs n * 2 ^ k
  | None => false
  end.

(** The 16-bit word a trouble-code text spells: the category letter gives
    the top 2 bits, the four digits the rest. *)
Definition dtc_word_of_text (text : cstring) : option Z :=
  match text with
  | [l; d2; d3; d4; d5] =>
      let cat :=
        if Ascii.eqb l "P" then Some 0
        else if Ascii.eqb l "C" then Some 1
        else if Ascii.eqb l "B" then Some 2
        else if Ascii.eqb l "U" then Some 3
        else None in
      match cat with
      | Some c =>
          Some (c * 16384 + hex_char_to_nibble d2 * 4096 + hex_char_to_nibble d3 * 256
                + hex_char_to_nibble d4 * 16 + hex_char_to_nibble d5)
      | None => None
      end
  | _ => None
  end.

(** The number of a category, as the enum has it. *)
Definition category_number (c : obd_dtc_category_t) : Z :=
  match c with
  | OBD_DTC_POWERTRAIN => 0
  | OBD_DTC_CHASSIS => 1
  | OBD_DTC_BODY => 2
  | OBD_DTC_NETWORK => 3
  end.

(** The printed frames of a VIN reply, one per (sequence number, data)
    pair. *)
Definition frame_texts (frames : list (Z * list Z)) : list cstring :=
  map (fun f => VinSpec.frame_text (fst f) (snd f)) frames.

(** The characters that a sequence of data bytes stands for: the bytes
    that are not zero. *)
Definition vin_chars_of (bytes : list Z) : cstring :=
  map char_of_code (filter (fun b => negb (b =? 0)) bytes).

(** A frame the 16-byte line buffer can hold: bytes, at most 13 of data. *)
Definition frame_ok (f : Z * list Z) : Prop :=
  is_byte (fst f) /\ Forall is_byte (snd f) /\ (List.length (snd f) <= 13)%nat.

(** A reply frame: bytes, the first of them 0x40 or more. *)
Definition reply_ok (bytes : list Z) : Prop :=
  Forall is_byte bytes /\ exists b rest, bytes = b :: rest /\ 0x40 <= b.

(** The printed frames of a reply, one per line. *)
Definition reply_texts (replies : list (list Z)) : list cstring :=
  map bytes_to_hex_loop replies.

(** The five frames of the canonical VIN transcript of the test suite. *)
Definition test_vin_frames : list (Z * list Z) :=
  [ (0x01, [0x57; 0x42; 0x41; 0x33]);
    (0x02, [0x42; 0x35; 0x46; 0x4B]);
    (0x03, [0x37; 0x46; 0x4E; 0x31]);
    (0x04, [0x32; 0x33; 0x34; 0x35]);
    (0x05, [0x36; 0x00; 0x00; 0x00]) ].

(** A line as the cleaner emits one: plain, and its own payload. *)
Definition payload_line (k : cstring) : Prop :=
  plain_line k = true /\
  CleanSpec.payload CleanSpec.echo_below_0x40 k = Some k.

(** Space or tab. *)
Definition is_blank (c : ascii) : bool := Ascii.eqb c SP || Ascii.eqb c TAB.

(** * Sanity checks against the repository's tests *)

Example hex_to_bytes_rpm :
  obd_hex_to_bytes (cstr "41 0C 1A F8") 16 = (OBD_OK, [0x41; 0x0C; 0x1A; 0xF8]).
Proof. reflexivity. Qed.

Example hex_to_bytes_odd :
  fst (obd_hex_to_bytes (cstr "41 0") 16) = OBD_ERROR_INVALID_HEX.
Proof. reflexivity. Qed.

Example bytes_to_hex_rpm :
  obd_bytes_to_hex [0x41; 0x0C; 0x1A; 0xF8] 12 = (OBD_OK, Some (cstr "41 0C 1A F8")).
Proof. reflexivity. Qed.

Example clean_rpm :
  obd_elm327_clean_response (cstr "010C" ++ [CR] ++ cstr "41 0C 1A F8" ++ [CR; CR] ++ cstr ">") 256
  = Some (OBD_OK, cstr "41 0C 1A F8").
Proof. vm_compute. reflexivity. Qed.

Example vin_canonical :
  Vin.obd_vin_parse_response test_vin_multiline 18
  = Some (OBD_OK, cstr "WBA3B5FK7FN123456").
Proof. vm_compute. reflexivity. Qed.

Example sensor_rpm :
  match obd_pid_parse_response (cstr "41 0C 1A F8") with
  | (OBD_OK, Some resp) =>
      match obd_sensor_decode resp with
      | (OBD_OK, Some v) =>
          sv_value v = f_of_int 1726 /\ sv_name v = cstr "Engine RPM" /\ sv_unit v = cstr "rpm"
      | _ => False
      end
  | _ => False
  end.
Proof. vm_compute. auto. Qed.

Example sensor_speed :
  match obd_pid_parse_response (cstr "41 0D 3C") with
  | (OBD_OK, Some resp) =>
      match obd_sensor_decode resp with
      | (OBD_OK, Some v) => sv_value v = f_of_int 60 /\ sv_unit v = cstr "km/h"
      | _ => False
      end
  | _ => False
  end.
Proof. vm_compute. auto. Qed.

Example dtc_mixed :
  map formatted (snd (obd_dtc_parse_response (cstr "43 01 03 41 04 80 00")))
  = [cstr "P0103"; cstr "C0104"; cstr "B0000"].
Proof. vm_compute. reflexivity. Qed.

(** * Properties *)

(** ** Bytes and characters *)

Lemma in_all_bytes (b : Z) : is_byte b -> In b all_bytes.
Proof.
  intros [Hlo Hhi]. unfold all_bytes.
  apply in_map_iff. exists (Z.to_nat b). split; [lia|].
  apply in_seq. lia.
Qed.

(** A property of bytes decided by a boolean test holds of every byte as
    soon as the test passes on the 256 of them. *)
Lemma byte_cases (P : Z -> bool) :
  forallb P all_bytes = true -> forall b, is_byte b -> P b = true.
Proof.
  intros Hall b Hb.
  rewrite forallb_forall in Hall. apply Hall, in_all_bytes, Hb.
Qed.

Lemma char_code_inj (a b : ascii) : char_code a = char_code b -> a = b.
Proof.
  unfold char_code. intros H.
  apply N2Z.inj in H.
  rewrite <- (ascii_N_embedding a), <- (ascii_N_embedding b). now rewrite H.
Qed.

Lemma char_code_range (a : ascii) : is_byte (char_code a).
Proof.
  unfold is_byte, char_code. pose proof (N_ascii_bounded a). lia.
Qed.

Lemma nibble_range (c : ascii) : -1 <= hex_char_to_nibble c < 16.
Proof.
  unfold hex_char_to_nibble.
  change (char_code "0") with 48. change (char_code "9") with 57.
  change (char_code "A") with 65. change (char_code "F") with 70.
  change (char_code "a") with 97. change (char_code "f") with 102.
  generalize (char_code c). intros k.
  repeat match goal with
         | |- context [if ?b then _ else _] => destruct b eqn:?
         end; lia.
Qed.

(** ** The hex codec (hex_utils.c) *)

Section HexCodec.

Lemma nibble_of_hex_digit (i : Z) :
  0 <= i < 16 -> hex_char_to_nibble (hex_digit i) = i.
Proof.
  intros Hi.
  assert (Hc : In i (map Z.of_nat (seq 0 16))).
  { apply in_map_iff. exists (Z.to_nat i). split; [lia|]. apply in_seq. lia. }
  simpl in Hc.
  repeat (destruct Hc as [<- | Hc]; [reflexivity|]). contradiction.
Qed.

Lemma hex_digit_not_whitespace (i : Z) :
  0 <= i < 16 -> is_whitespace (hex_digit i) = false.
Proof.
  intros Hi.
  assert (Hc : In i (map Z.of_nat (seq 0 16))).
  { apply in_map_iff. exists (Z.to_nat i). split; [lia|]. apply in_seq. lia. }
  simpl in Hc.
  repeat (destruct Hc as [<- | Hc]; [reflexivity|]). contradiction.
Qed.

Lemma high_nibble_range (b : Z) : is_byte b -> 0 <= Z.land (Z.shiftr b 4) 15 < 16.
Proof.
  intros _. change 15 with (Z.ones 4). rewrite Z.land_ones by lia.
  apply Z.mod_pos_bound. lia.
Qed.

Lemma low_nibble_range (b : Z) : 0 <= Z.land b 15 < 16.
Proof.
  change 15 with (Z.ones 4). rewrite Z.land_ones by lia.
  apply Z.mod_pos_bound. lia.
Qed.

(** Splitting a byte into its nibbles and recombining them as the decoder
    does gives the byte back. *)
Lemma nibbles_recombine (b : Z) :
  is_byte b ->
  Z.land (Z.lor (Z.shiftl (Z.land (Z.shiftr b 4) 15) 4) (Z.land b 15)) 255 = b.
Proof.
  intros Hb. apply Z.eqb_eq.
  apply (byte_cases
           (fun b => Z.land (Z.lor (Z.shiftl (Z.land (Z.shiftr b 4) 15) 4)
                                   (Z.land b 15)) 255 =? b)); [|exact Hb].
  vm_compute. reflexivity.
Qed.

(** The decoder undoes the encoder's loop whatever the write index, as long
    as the bytes fit behind it. *)
Lemma decode_encode_loop (bytes : list Z) :
  Forall is_byte bytes ->
  forall out_size o,
    (o + List.length bytes <= out_size)%nat ->
    hex_to_bytes_loop (bytes_to_hex_loop bytes) out_size o = (OBD_OK, bytes).
Proof.
  induction 1 as [|b rest Hb Hrest IH]; intros out_size o Hfit.
  - reflexivity.
  - cbn [bytes_to_hex_loop hex_to_bytes_loop].
    pose proof (high_nibble_range b Hb) as Hhi.
    pose proof (low_nibble_range b) as Hlo.
    rewrite (hex_digit_not_whitespace _ Hhi).
    rewrite (nibble_of_hex_digit _ Hhi), (nibble_of_hex_digit _ Hlo).
    destruct (Z.ltb_spec (Z.land (Z.shiftr b 4) 15) 0); [lia|].
    destruct (Z.ltb_spec (Z.land b 15) 0); [lia|].
    cbn [List.length] in Hfit.
    destruct (Nat.leb_spec out_size o); [lia|].
    rewrite (nibbles_recombine b Hb).
    destruct rest as [|b' rest'].
    + reflexivity.
    + change (hex_to_bytes_loop (SP :: bytes_to_hex_loop (b' :: rest')) out_size (S o))
        with (hex_to_bytes_loop (bytes_to_hex_loop (b' :: rest')) out_size (S o)).
      rewrite IH; [reflexivity|]. cbn [List.length] in *. lia.
Qed.

End HexCodec.

(** C4.  For every byte sequence [B] whose encoding fits the text buffer
    ([3 * len] characters, and room for the terminator when [B] is empty)
    and which fits the byte buffer of the decoder, [obd_bytes_to_hex]
    succeeds and [obd_hex_to_bytes] on its output returns [OBD_OK] and
    exactly [B]. *)
Theorem hex_codec_round_trip (B : list Z) (hex_size out_size : nat) :
  Forall is_byte B ->
  (Nat.max 1 (3 * List.length B) <= hex_size)%nat ->
  (List.length B <= out_size)%nat ->
  exists hex,
    obd_bytes_to_hex B hex_size = (OBD_OK, Some hex) /\
    obd_hex_to_bytes hex out_size = (OBD_OK, B).
Proof.
  intros HB Hhex Hout.
  exists (bytes_to_hex_loop B). split.
  - unfold obd_bytes_to_hex.
    destruct B as [|b rest].
    + cbn. destruct hex_size; [cbn in Hhex; lia | reflexivity].
    + cbn [List.length Nat.eqb].
      destruct (Nat.ltb_spec hex_size (S (List.length rest) * 3)); [cbn [List.length] in Hhex; lia|].
      reflexivity.
  - unfold obd_hex_to_bytes. apply decode_encode_loop; [exact HB | lia].
Qed.

Lemma hex_codec_round_trip_witness :
  Forall is_byte [0x41; 0x0C; 0x1A; 0xF8] /\
  (Nat.max 1 (3 * List.length [0x41; 0x0C; 0x1A; 0xF8]) <= 12)%nat /\
  (List.length [0x41; 0x0C; 0x1A; 0xF8] <= 4)%nat /\
  exists hex,
    obd_bytes_to_hex [0x41; 0x0C; 0x1A; 0xF8] 12 = (OBD_OK, Some hex) /\
    obd_hex_to_bytes hex 4 = (OBD_OK, [0x41; 0x0C; 0x1A; 0xF8]).
Proof.
  assert (H1 : Forall is_byte [0x41; 0x0C; 0x1A; 0xF8])
    by (repeat constructor; unfold is_byte; lia).
  assert (H2 : (Nat.max 1 (3 * List.length [0x41; 0x0C; 0x1A; 0xF8]) <= 12)%nat)
    by (simpl; lia).
  assert (H3 : (List.length [0x41; 0x0C; 0x1A; 0xF8] <= 4)%nat) by (simpl; lia).
  repeat split; try assumption.
  exact (hex_codec_round_trip _ 12%nat 4%nat H1 H2 H3).
Defined.

(** ** The response classifier (elm327.c) *)

Section StrncmpLiterals.

(** [strncmp] against a literal over the literal's length is a prefix test. *)
Lemma strncmp_is_prefix (lit : cstring) :
  Forall (fun c => char_code c <> 0) lit ->
  forall p, (strncmp p lit (List.length lit) =? 0) = is_prefix lit p.
Proof.
  induction 1 as [|c lit Hc Hlit IH]; intros p.
  - destruct p; reflexivity.
  - cbv beta in Hc.
    destruct p as [|a p]; cbn [List.length strncmp is_prefix].
    + apply Z.eqb_neq. lia.
    + rewrite (Ascii.eqb_sym a c).
      destruct (Ascii.eqb_spec c a) as [->|Hne]; cbn [andb].
      * apply IH.
      * apply Z.eqb_neq. intros Hz.
        apply Hne. apply char_code_inj. lia.
Qed.

Lemma strncmp_literal (tok : string) (n : nat) (p : cstring) :
  forallb (fun c => negb (char_code c =? 0)) (cstr tok) = true ->
  n = List.length (cstr tok) ->
  (strncmp p (cstr tok) n =? 0) = is_prefix (cstr tok) p.
Proof.
  intros Hnz ->. apply strncmp_is_prefix.
  apply Forall_forall. intros c Hc.
  rewrite forallb_forall in Hnz. specialize (Hnz c Hc).
  apply negb_true_iff, Z.eqb_neq in Hnz. exact Hnz.
Qed.

Lemma skip_leading_ws_trim (line : cstring) :
  skip_leading_ws line = ClassifySpec.trim_leading ClassifySpec.space_tab_cr_lf line.
Proof.
  induction line as [|c rest IH]; [reflexivity|].
  cbn [skip_leading_ws ClassifySpec.trim_leading].
  unfold ClassifySpec.space_tab_cr_lf at 1. cbn [existsb].
  rewrite orb_false_r, !orb_assoc, IH. reflexivity.
Qed.

Lemma nibble_is_hex_digit (c : ascii) :
  (0 <=? hex_char_to_nibble c) = ClassifySpec.is_hex_digit c.
Proof.
  destruct c as [[] [] [] [] [] [] [] []]; vm_compute; reflexivity.
Qed.

Lemma is_prefix_cons_inv (a : ascii) (lit p : cstring) :
  is_prefix (a :: lit) p = true -> exists q, p = a :: q /\ is_prefix lit q = true.
Proof.
  destruct p as [|b q]; cbn; [discriminate|].
  intros H. apply andb_true_iff in H as [Hab Hq].
  apply Ascii.eqb_eq in Hab. subst b. eauto.
Qed.

End StrncmpLiterals.

Ltac strncmp_to_prefix :=
  repeat match goal with
         | |- context [strncmp ?p (cstr ?tok) ?n =? 0] =>
             rewrite (strncmp_literal tok n p eq_refl eq_refl)
         end.

(** The code and the wording of the classifier, with space, tab, CR and LF
    trimmed, agree on every line: the tokens exclude one another, so the
    place of the banner test among them does not matter. *)
Lemma classify_refines (line : cstring) :
  obd_elm327_classify_response line = ClassifySpec.classify line.
Proof.
  unfold obd_elm327_classify_response, ClassifySpec.classify,
    ClassifySpec.classify_with.
  rewrite skip_leading_ws_trim.
  destruct (ClassifySpec.trim_leading ClassifySpec.space_tab_cr_lf line)
    as [|c s] eqn:Hs; [reflexivity|].
  unfold ClassifySpec.has_prefix, ClassifySpec.starts_with_char.
  cbn [existsb].
  strncmp_to_prefix.
  rewrite nibble_is_hex_digit, orb_false_r.
  destruct (Ascii.eqb c ">"); [reflexivity|].
  destruct (is_prefix (cstr "OK") (c :: s)); [reflexivity|].
  cbn [orb].
  destruct (is_prefix (cstr "ELM") (c :: s)) eqn:Helm.
  - apply is_prefix_cons_inv in Helm as (q & Hq & Helm).
    injection Hq as -> ->.
    apply is_prefix_cons_inv in Helm as (q' & -> & _).
    reflexivity.
  - destruct (is_prefix (cstr "NO DATA") (c :: s)); [reflexivity|].
    destruct (Ascii.eqb c "?"); [reflexivity|].
    cbn [orb].
    rewrite !orb_assoc. reflexivity.
Qed.

(** C5, as written, fails: the claim has every leading whitespace or
    control character trimmed, the code trims space, tab, CR and LF only.
    A vertical tab in front of [OK] is a whitespace character that the code
    does not skip, so the line is Unknown where the claim has Ok; the same
    holds for a form feed in front of data. *)
Lemma classify_response_keeps_vertical_tab :
  ClassifySpec.whitespace_or_control VT = true /\
  ClassifySpec.classify_as_claimed (VT :: cstr "OK") = OBD_ELM_RESPONSE_OK /\
  obd_elm327_classify_response (VT :: cstr "OK") = OBD_ELM_RESPONSE_UNKNOWN /\
  ClassifySpec.whitespace_or_control FF = true /\
  ClassifySpec.classify_as_claimed (FF :: cstr "41 0C") = OBD_ELM_RESPONSE_DATA /\
  obd_elm327_classify_response (FF :: cstr "41 0C") = OBD_ELM_RESPONSE_UNKNOWN /\
  obd_elm327_classify_response (VT :: cstr "OK")
  <> ClassifySpec.classify_as_claimed (VT :: cstr "OK").
Proof. repeat split; try reflexivity. discriminate. Qed.

(** C5, amended.  [obd_elm327_classify_response] computes, on every line,
    the classification described, with leading spaces, tabs, CRs and LFs
    trimmed and no other character: an empty remainder is Unknown; a
    leading [>] is Prompt; the prefixes OK and ELM give Ok; NO DATA gives
    NoData; a leading [?] or one of the five error tokens gives Error;
    otherwise a leading hex digit gives Data and anything else Unknown.
    The tokens win over the hex-digit fallback: [" OK"] and ["OK"] are both
    Ok, and the banner ["ELM327 v1.5"], which starts with the hex digit E,
    is Ok. *)
Theorem classify_response_matches_spec :
  (forall line, obd_elm327_classify_response line = ClassifySpec.classify line) /\
  obd_elm327_classify_response (cstr " OK") = OBD_ELM_RESPONSE_OK /\
  obd_elm327_classify_response (cstr "OK") = OBD_ELM_RESPONSE_OK /\
  obd_elm327_classify_response (cstr "ELM327 v1.5") = OBD_ELM_RESPONSE_OK /\
  ClassifySpec.is_hex_digit "E" = true.
Proof.
  split; [exact classify_refines|].
  repeat split; reflexivity.
Qed.

(** ** More on the hex decoder *)

(** The decoder never writes past the capacity it is given. *)
Lemma hex_to_bytes_loop_bound (hex : cstring) (out_size o : nat) :
  (o <= out_size)%nat ->
  (o + List.length (snd (hex_to_bytes_loop hex out_size o)) <= out_size)%nat.
Proof.
  functional induction (hex_to_bytes_loop hex out_size o);
    intros Ho; cbn [snd List.length]; try lia; auto.
  match goal with
  | Hrec : hex_to_bytes_loop _ _ _ = _, Hroom : (_ <=? _)%nat = false |- _ =>
      rewrite Hrec in IHp; cbn [snd] in IHp; apply Nat.leb_gt in Hroom
  end.
  specialize (IHp ltac:(lia)). lia.
Qed.

Lemma obd_hex_to_bytes_bound (hex : cstring) (out_size : nat) (r : obd_result_t)
  (bytes : list Z) :
  obd_hex_to_bytes hex out_size = (r, bytes) -> (List.length bytes <= out_size)%nat.
Proof.
  intros H. pose proof (hex_to_bytes_loop_bound hex out_size 0 ltac:(lia)) as Hb.
  unfold obd_hex_to_bytes in H. rewrite H in Hb. exact Hb.
Qed.

(** Every byte the decoder writes is a byte. *)
Lemma hex_to_bytes_loop_bytes (hex : cstring) (out_size o : nat) :
  Forall is_byte (snd (hex_to_bytes_loop hex out_size o)).
Proof.
  functional induction (hex_to_bytes_loop hex out_size o); cbn [snd]; auto.
  match goal with
  | Hrec : hex_to_bytes_loop _ _ _ = _ |- _ => rewrite Hrec in IHp; cbn [snd] in IHp
  end.
  constructor; [|exact IHp].
  unfold is_byte. change 255 with (Z.ones 8). rewrite Z.land_ones by lia.
  apply Z.mod_pos_bound. lia.
Qed.

(** A successful decoding does not depend on the capacity: with room for
    the same bytes the outcome is the same, and with less room the decoder
    reports [OBD_ERROR_BUFFER_TOO_SMALL]. *)
Lemma hex_to_bytes_loop_capacity (hex : cstring) (out_size o : nat) :
  forall bytes,
    hex_to_bytes_loop hex out_size o = (OBD_OK, bytes) ->
    forall out_size' o',
      (o' <= out_size')%nat ->
      if (o' + List.length bytes <=? out_size')%nat
      then hex_to_bytes_loop hex out_size' o' = (OBD_OK, bytes)
      else fst (hex_to_bytes_loop hex out_size' o') = OBD_ERROR_BUFFER_TOO_SMALL.
Proof.
  functional induction (hex_to_bytes_loop hex out_size o);
    intros bytes Hdec out_size' o' Ho'; try discriminate.
  - injection Hdec as <-. cbn [List.length].
    destruct (Nat.leb_spec (o' + 0) out_size'); [reflexivity | lia].
  - cbn [hex_to_bytes_loop].
    match goal with Hws : is_whitespace _ = true |- _ => rewrite Hws end.
    apply IHp; assumption.
  - injection Hdec as -> <-.
    cbn [hex_to_bytes_loop].
    repeat match goal with
           | Hc : is_whitespace _ = false |- _ => rewrite Hc; clear Hc
           | Hn : (hex_char_to_nibble _ <? 0) = false |- _ => rewrite Hn; clear Hn
           end.
    cbn [List.length].
    destruct (Nat.leb_spec out_size' o') as [Hfull|Hroom].
    + destruct (Nat.leb_spec (o' + S (List.length bs)) out_size'); [lia | reflexivity].
    + match goal with
      | Hrec : hex_to_bytes_loop _ _ _ = _ |- _ =>
          specialize (IHp bs Hrec out_size' (S o') ltac:(lia))
      end.
      replace (o' + S (List.length bs))%nat with (S o' + List.length bs)%nat by lia.
      destruct (S o' + List.length bs <=? out_size')%nat.
      * rewrite IHp. reflexivity.
      * destruct (hex_to_bytes_loop rest2 out_size' (S o')) as [r' bs'].
        cbn [fst] in *. exact IHp.
Qed.

(** ** Trouble codes (dtc.c) *)

Section TroubleCodes.

Lemma cstring_eqb_eq (s t : cstring) : cstring_eqb s t = true -> s = t.
Proof.
  revert t. induction s as [|a s IH]; intros [|b t]; cbn; try discriminate; auto.
  intros H. apply andb_true_iff in H as [Hab Hst].
  apply Ascii.eqb_eq in Hab. f_equal; auto.
Qed.

Lemma dtc_eqb_eq (d e : obd_dtc_t) : dtc_eqb d e = true -> d = e.
Proof.
  destruct d as [c1 k1 f1], e as [c2 k2 f2]. unfold dtc_eqb. cbn.
  intros H. apply andb_true_iff in H as [H Hf]. apply andb_true_iff in H as [Hc Hk].
  apply Z.eqb_eq in Hk. apply cstring_eqb_eq in Hf.
  destruct c1, c2; try discriminate; subst; reflexivity.
Qed.

(** [parse_single_dtc] agrees with the digit-by-digit description, digit 2
    being bits 5-4 of byte1, and its code is the low 14 bits of the 16-bit
    word; checked on all 65536 pairs of bytes. *)
Lemma parse_single_dtc_all_pairs :
  forallb
    (fun b1 =>
       forallb
         (fun b2 =>
            dtc_eqb (parse_single_dtc b1 b2) (DtcSpec.decode b1 b2)
            && (code (parse_single_dtc b1 b2) =? (b1 * 256 + b2) mod 2 ^ 14))
         all_bytes)
    all_bytes = true.
Proof. vm_compute. reflexivity. Qed.

Lemma parse_single_dtc_decode (b1 b2 : Z) :
  is_byte b1 -> is_byte b2 ->
  parse_single_dtc b1 b2 = DtcSpec.decode b1 b2 /\
  code (parse_single_dtc b1 b2) = (b1 * 256 + b2) mod 2 ^ 14.
Proof.
  intros H1 H2.
  pose proof (byte_cases _ parse_single_dtc_all_pairs b1 H1) as H.
  cbv beta in H.
  pose proof (byte_cases _ H b2 H2) as H'. cbv beta in H'.
  apply andb_true_iff in H' as [Heq Hcode].
  split; [apply dtc_eqb_eq, Heq | apply Z.eqb_eq, Hcode].
Qed.

(** Induction two bytes at a time. *)
Lemma pair_induction (P : list Z -> Prop) :
  P [] -> (forall b, P [b]) ->
  (forall b1 b2 rest, P rest -> P (b1 :: b2 :: rest)) ->
  forall l, P l.
Proof.
  intros Hnil Hone Hstep l.
  enough (P l /\ forall b, P (b :: l)) by tauto.
  induction l as [|a l [IH1 IH2]]; split; auto.
Qed.

Lemma byte_pairs_length (bytes : list Z) :
  (2 * List.length (DtcSpec.byte_pairs bytes) <= List.length bytes)%nat.
Proof.
  induction bytes using pair_induction; cbn [DtcSpec.byte_pairs List.length]; lia.
Qed.

(** While the list has room for every pair that is left, the loop stores
    exactly the non-padding pairs, in order. *)
Lemma dtc_loop_entries (rest : list Z) :
  forall count,
    (count + List.length (DtcSpec.byte_pairs rest) <= OBD_MAX_DTCS)%nat ->
    dtc_loop rest count = DtcSpec.entries rest.
Proof.
  induction rest as [| b | b1 b2 rest IH] using pair_induction; intros count Hroom;
    try reflexivity.
  cbn [DtcSpec.byte_pairs List.length] in Hroom.
  cbn [dtc_loop].
  destruct (Nat.ltb_spec count OBD_MAX_DTCS); [|lia].
  unfold DtcSpec.entries. cbn [DtcSpec.byte_pairs filter].
  unfold DtcSpec.is_padding at 1. cbn [fst snd].
  destruct ((b1 =? 0) && (b2 =? 0)); cbn [negb map fst snd].
  - apply IH. lia.
  - f_equal. apply IH. lia.
Qed.

End TroubleCodes.

(** C2 (as amended).  For every pair of bytes, [parse_single_dtc] gives the
    category named by the top 2 bits of byte1 (0 Powertrain, 1 Chassis,
    2 Body, 3 Network); the code is the remaining 14 bits of the pair, made
    of digit 2 = bits 5-4 of byte1 (the low 2 bits of its high nibble),
    digit 3 = the low nibble of byte1, digit 4 = the high nibble of byte2
    and digit 5 = the low nibble of byte2; and the formatted string is the
    category letter, digit 2 in decimal and digits 3, 4, 5 in upper-case
    hex. *)
Theorem parse_single_dtc_layout (byte1 byte2 : Z) :
  is_byte byte1 -> is_byte byte2 -> ~ (byte1 = 0 /\ byte2 = 0) ->
  let digit2 := (byte1 / 16) mod 4 in
  let digit3 := byte1 mod 16 in
  let digit4 := byte2 / 16 in
  let digit5 := byte2 mod 16 in
  let dtc := parse_single_dtc byte1 byte2 in
  category dtc = DtcSpec.category_of_top_bits byte1 /\
  code dtc = (byte1 * 256 + byte2) mod 2 ^ 14 /\
  code dtc = digit2 * 4096 + digit3 * 256 + digit4 * 16 + digit5 /\
  formatted dtc =
    [ DtcSpec.category_letter (category dtc);
      DtcSpec.decimal_digit digit2;
      DtcSpec.hex_digit_upper digit3;
      DtcSpec.hex_digit_upper digit4;
      DtcSpec.hex_digit_upper digit5 ].
Proof.
  intros H1 H2 _. cbv zeta.
  destruct (parse_single_dtc_decode byte1 byte2 H1 H2) as [Heq Hcode].
  rewrite Hcode. rewrite Heq in *. clear Heq.
  unfold DtcSpec.decode, DtcSpec.decode_with, DtcSpec.high_nibble, DtcSpec.low_nibble in *.
  cbn [category code formatted] in *.
  repeat split; auto.
Qed.

Lemma parse_single_dtc_layout_witness :
  is_byte 0xC1 /\ is_byte 0x23 /\ ~ (0xC1 = 0 /\ 0x23 = 0) /\
  category (parse_single_dtc 0xC1 0x23) = OBD_DTC_NETWORK /\
  code (parse_single_dtc 0xC1 0x23) = 0x0123 /\
  formatted (parse_single_dtc 0xC1 0x23) = cstr "U0123".
Proof.
  assert (H1 : is_byte 0xC1) by (unfold is_byte; lia).
  assert (H2 : is_byte 0x23) by (unfold is_byte; lia).
  assert (H3 : ~ (0xC1 = 0 /\ 0x23 = 0)) by lia.
  pose proof (parse_single_dtc_layout 0xC1 0x23 H1 H2 H3) as (Hcat & _ & Hcode & Hfmt).
  cbv zeta in Hfmt.
  split; [exact H1|]. split; [exact H2|]. split; [exact H3|].
  split; [exact Hcat|]. split; [rewrite Hcode; reflexivity|].
  rewrite Hfmt, Hcat. reflexivity.
Defined.

(** C2, as written, fails: with digit 2 read from the low 2 bits of byte1
    the pair 01 03 would format as P1103, while the code gives P0103 (the
    specification's own example). *)
Lemma parse_single_dtc_digit2_not_low_bits :
  formatted (parse_single_dtc 0x01 0x03) = cstr "P0103" /\
  formatted (DtcSpec.decode_as_claimed 0x01 0x03) = cstr "P1103" /\
  code (parse_single_dtc 0x01 0x03) = 0x0103 /\
  code (DtcSpec.decode_as_claimed 0x01 0x03) = 0x1103 /\
  parse_single_dtc 0x01 0x03 <> DtcSpec.decode_as_claimed 0x01 0x03.
Proof.
  repeat split; try reflexivity.
  intros H. apply (f_equal code) in H. vm_compute in H. discriminate.
Qed.

(** C7.  When the payload decodes, [obd_dtc_parse_response] fails with
    ParseFailed unless the first byte is 0x43; otherwise it succeeds and
    stores one entry per pair of the remaining bytes that is not the
    padding pair 00 00, in order, padding pairs being neither stored nor
    counted.  "43 01 03 01 04 00 00" gives exactly P0103 then P0104, and
    "43 C1 23 00 00 00 00" gives the single entry U0123, of category
    Network. *)
Theorem dtc_parse_response_pairs (response : cstring) (bytes : list Z) :
  obd_hex_to_bytes response 64 = (OBD_OK, bytes) ->
  (forall rest, bytes = 0x43 :: rest ->
     obd_dtc_parse_response response = (OBD_OK, DtcSpec.entries rest)) /\
  (nth_error bytes 0 <> Some 0x43 ->
     obd_dtc_parse_response response = (OBD_ERROR_PARSE_FAILED, [])) /\
  (let '(r, dtcs) := obd_dtc_parse_response (cstr "43 01 03 01 04 00 00") in
   r = OBD_OK /\ map formatted dtcs = [cstr "P0103"; cstr "P0104"]) /\
  (let '(r, dtcs) := obd_dtc_parse_response (cstr "43 C1 23 00 00 00 00") in
   r = OBD_OK /\ map formatted dtcs = [cstr "U0123"] /\
   map category dtcs = [OBD_DTC_NETWORK]).
Proof.
  intros Hdec.
  pose proof (obd_hex_to_bytes_bound _ _ _ _ Hdec) as Hlen.
  unfold obd_dtc_parse_response. rewrite Hdec.
  split; [|split; [|split]].
  - intros rest ->. cbn [negb Z.eqb Pos.eqb].
    change (0x43 =? 0x43) with true. cbn [negb].
    rewrite (dtc_loop_entries rest 0); [reflexivity|].
    pose proof (byte_pairs_length rest). cbn [List.length] in Hlen.
    unfold OBD_MAX_DTCS. lia.
  - intros Hfirst. destruct bytes as [|b0 rest]; [reflexivity|].
    destruct (Z.eqb_spec b0 0x43) as [->|Hne]; [now elim Hfirst|reflexivity].
  - vm_compute. auto.
  - vm_compute. auto.
Qed.

Lemma dtc_parse_response_pairs_witness :
  obd_hex_to_bytes (cstr "43 01 03 01 04 00 00") 64
    = (OBD_OK, [0x43; 0x01; 0x03; 0x01; 0x04; 0x00; 0x00]) /\
  obd_dtc_parse_response (cstr "43 01 03 01 04 00 00")
    = (OBD_OK, DtcSpec.entries [0x01; 0x03; 0x01; 0x04; 0x00; 0x00]) /\
  List.length (DtcSpec.entries [0x01; 0x03; 0x01; 0x04; 0x00; 0x00]) = 2%nat.
Proof.
  assert (Hdec : obd_hex_to_bytes (cstr "43 01 03 01 04 00 00") 64
                 = (OBD_OK, [0x43; 0x01; 0x03; 0x01; 0x04; 0x00; 0x00]))
    by reflexivity.
  split; [exact Hdec|]. split; [|reflexivity].
  exact (proj1 (dtc_parse_response_pairs _ _ Hdec) _ eq_refl).
Defined.

(** ** PID responses (pid.c) *)

(** What [obd_pid_parse_response] does with a payload that decodes (in a
    buffer of any size) to at least 2 bytes: up to 9 bytes it succeeds and
    keeps every byte after the first two; from 10 bytes on the 9-byte
    scratch buffer overflows in the decoder and the call fails, so the clamp
    of [data_len] to [OBD_MAX_DATA_BYTES] is never taken. *)
Lemma pid_parse_response_by_length (response : cstring) (cap : nat) (bytes : list Z) :
  obd_hex_to_bytes response cap = (OBD_OK, bytes) ->
  (2 <= List.length bytes)%nat ->
  obd_pid_parse_response response =
    if (List.length bytes <=? 2 + OBD_MAX_DATA_BYTES)%nat
    then (OBD_OK,
          Some (mk_pid_response (nth 0 bytes 0) (nth 1 bytes 0)
                  (skipn 2 bytes ++ repeat 0 (OBD_MAX_DATA_BYTES - (List.length bytes - 2)))
                  (List.length bytes - 2)))
    else (OBD_ERROR_BUFFER_TOO_SMALL, None).
Proof.
  intros Hdec Hlen.
  pose proof (hex_to_bytes_loop_capacity _ _ _ _ Hdec (2 + OBD_MAX_DATA_BYTES)%nat 0%nat
                ltac:(lia)) as Hcap.
  change (0 + List.length bytes)%nat with (List.length bytes) in Hcap.
  fold (obd_hex_to_bytes response (2 + OBD_MAX_DATA_BYTES)) in Hcap.
  unfold obd_pid_parse_response.
  destruct (List.length bytes <=? 2 + OBD_MAX_DATA_BYTES)%nat eqn:Hfit.
  - rewrite Hcap. apply Nat.leb_le in Hfit.
    destruct (Nat.ltb_spec (List.length bytes) 2); [lia|].
    unfold OBD_MAX_DATA_BYTES in *.
    destruct (Nat.ltb_spec 7 (List.length bytes - 2)); [lia|].
    rewrite firstn_all2; [reflexivity|].
    rewrite length_skipn. lia.
  - destruct (obd_hex_to_bytes response (2 + OBD_MAX_DATA_BYTES)) as [r bs].
    cbn [fst] in Hcap. subst r. reflexivity.
Qed.

(** C1 (the code departs from it).  A payload of 10 bytes is well-formed
    hex and decodes to mode, pid and 8 data bytes; the claim has the parse
    succeed with the data cut to 7 bytes, but [obd_pid_parse_response]
    returns [OBD_ERROR_BUFFER_TOO_SMALL] and writes no response. *)
Theorem pid_parse_response_long_payload_fails :
  obd_hex_to_bytes (cstr "41 0C 01 02 03 04 05 06 07 08") 16
    = (OBD_OK, [0x41; 0x0C; 1; 2; 3; 4; 5; 6; 7; 8]) /\
  obd_pid_parse_response (cstr "41 0C 01 02 03 04 05 06 07 08")
    = (OBD_ERROR_BUFFER_TOO_SMALL, None).
Proof. split; reflexivity. Qed.

(** ** The sensor table (sensor.c) *)

Section SensorTable.

Lemma find_in_absent (table : list sensor_entry_t) (p : Z) :
  ~ In p (map e_pid table) -> find_in table p = None.
Proof.
  induction table as [|e rest IH]; intros Habs; [reflexivity|].
  cbn [find_in]. cbn [map In] in Habs.
  destruct (Z.eqb_spec (e_pid e) p) as [Heq|_]; [tauto|].
  apply IH. tauto.
Qed.

Lemma find_in_present (table : list sensor_entry_t) (e : sensor_entry_t) :
  NoDup (map e_pid table) -> In e table -> find_in table (e_pid e) = Some e.
Proof.
  induction table as [|e0 rest IH]; intros Hnd Hin; [contradiction|].
  cbn [find_in]. cbn [map] in Hnd. inversion Hnd as [|? ? Hnotin Hnd']; subst.
  destruct Hin as [->|Hin].
  - rewrite Z.eqb_refl. reflexivity.
  - destruct (Z.eqb_spec (e_pid e0) (e_pid e)) as [Heq|_].
    + exfalso. apply Hnotin. rewrite Heq. apply in_map, Hin.
    + apply IH; assumption.
Qed.

Lemma sensor_table_pids_distinct : NoDup table_pids.
Proof.
  unfold table_pids. cbn.
  repeat (constructor; [cbn; intros H; repeat (destruct H as [H|H]; [discriminate H|]); exact H|]).
  constructor.
Qed.

End SensorTable.

(** C8.  For a pid that is not in the sensor table, [obd_sensor_decode]
    and [obd_sensor_get_name] (given a buffer of at least one character)
    return UnknownPid and write nothing; for an entry of the table,
    [obd_sensor_decode] returns ParseFailed, and writes nothing, when the
    response carries fewer data bytes than the entry's byte count. *)
Theorem sensor_unknown_pid_and_short_data :
  (forall response,
     ~ In (pid response) table_pids ->
     obd_sensor_decode response = (OBD_ERROR_UNKNOWN_PID, None)) /\
  (forall p name_size,
     ~ In p table_pids -> (0 < name_size)%nat ->
     obd_sensor_get_name p name_size = (OBD_ERROR_UNKNOWN_PID, None)) /\
  (forall response entry,
     In entry sensor_table -> e_pid entry = pid response ->
     (data_len response < byte_count entry)%nat ->
     obd_sensor_decode response = (OBD_ERROR_PARSE_FAILED, None)).
Proof.
  split; [|split].
  - intros response Habs. unfold obd_sensor_decode, find_sensor_entry.
    rewrite (find_in_absent _ _ Habs). reflexivity.
  - intros p name_size Habs Hsize. unfold obd_sensor_get_name, find_sensor_entry.
    destruct name_size; [lia|]. cbn [Nat.eqb].
    rewrite (find_in_absent _ _ Habs). reflexivity.
  - intros response entry Hin Hpid Hshort.
    unfold obd_sensor_decode, find_sensor_entry.
    rewrite <- Hpid, (find_in_present _ _ sensor_table_pids_distinct Hin).
    destruct (Nat.ltb_spec (data_len response) (byte_count entry)); [reflexivity|lia].
Qed.

Lemma sensor_unknown_pid_and_short_data_witness :
  obd_sensor_decode (mk_pid_response 0x41 0x02 [0; 0; 0; 0; 0; 0; 0] 0)
    = (OBD_ERROR_UNKNOWN_PID, None) /\
  obd_sensor_get_name 0xFF 32 = (OBD_ERROR_UNKNOWN_PID, None) /\
  obd_sensor_decode (mk_pid_response 0x41 0x0C [0x1A; 0; 0; 0; 0; 0; 0] 1)
    = (OBD_ERROR_PARSE_FAILED, None).
Proof.
  destruct sensor_unknown_pid_and_short_data as (Hdecode & Hname & Hshort).
  split; [|split].
  - apply Hdecode. cbn. intros H.
    repeat (destruct H as [H|H]; [discriminate H|]). exact H.
  - apply Hname; [|lia]. cbn. intros H.
    repeat (destruct H as [H|H]; [discriminate H|]). exact H.
  - apply (Hshort _ (mk_entry 0x0C (cstr "Engine RPM") (cstr "rpm") 2 formula_rpm)).
    + cbn. tauto.
    + reflexivity.
    + cbn. lia.
Defined.

(** ** The response cleaner (elm327.c) *)

Section CleanerLines.

Import CleanSpec.

Lemma lines_skip_eol (p : cstring) : lines (skip_eol p) = lines p.
Proof.
  induction p as [|c rest IH]; [reflexivity|].
  cbn [skip_eol]. fold (is_eol c).
  destruct (is_eol c) eqn:Heol; [|reflexivity].
  rewrite IH. unfold lines at 2. cbn [lines_from].
  assert (Hp : is_prompt c = false).
  { unfold is_eol, is_prompt in *.
    destruct (Ascii.eqb_spec c ">") as [->|]; [discriminate Heol | reflexivity]. }
  rewrite Hp, Heol. unfold lines.
  destruct (lines_from rest) as [cur ls]. destruct cur; reflexivity.
Qed.

Lemma skip_eol_length (p : cstring) : (List.length (skip_eol p) <= List.length p)%nat.
Proof.
  induction p as [|c rest IH]; cbn [skip_eol List.length]; [lia|].
  destruct (Ascii.eqb c CR || Ascii.eqb c LF); cbn [List.length]; lia.
Qed.

Lemma skip_eol_head (p : cstring) (c : ascii) (r : cstring) :
  skip_eol p = c :: r -> is_eol c = false.
Proof.
  induction p as [|a rest IH]; cbn [skip_eol]; [discriminate|].
  fold (is_eol a). destruct (is_eol a) eqn:Ha; [exact IH|].
  intros H. injection H as -> _. exact Ha.
Qed.

(** Reading one line: what [scan_line] passes over is the first line of
    the text, free of separators, and what it leaves is shorter. *)
Lemma scan_line_lines_from (p : cstring) :
  forall line p2,
    scan_line p = (line, p2) ->
    lines_from p = (line, lines p2) /\ no_eol line /\
    (List.length line + List.length p2 = List.length p)%nat.
Proof.
  induction p as [|c rest IH]; intros line p2 Hscan.
  - cbn in Hscan. injection Hscan as <- <-. repeat split. constructor.
  - cbn [scan_line] in Hscan. cbn [lines_from].
    change (Ascii.eqb c CR || Ascii.eqb c LF || Ascii.eqb c ">")
      with (is_eol c || is_prompt c) in Hscan.
    destruct (is_prompt c) eqn:Hp.
    + rewrite orb_true_r in Hscan. injection Hscan as <- <-.
      unfold lines. cbn [lines_from]. rewrite Hp. repeat split. constructor.
    + rewrite orb_false_r in Hscan.
      destruct (is_eol c) eqn:He.
      * injection Hscan as <- <-.
        unfold lines at 1. cbn [lines_from]. rewrite Hp, He.
        destruct (lines_from rest) as [cur ls].
        split; [|split; [constructor | reflexivity]].
        f_equal. destruct cur; reflexivity.
      * destruct (scan_line rest) as [l q] eqn:Hrest.
        injection Hscan as <- <-.
        destruct (IH l q eq_refl) as (Hlf & Hne & Hlen).
        rewrite Hlf. repeat split.
        -- constructor; assumption.
        -- cbn [List.length]. lia.
Qed.

(** The loop visits the lines of the text one after the other. *)
Lemma clean_loop_process_lines (out_size fuel : nat) :
  forall p st,
    (List.length p < fuel)%nat ->
    clean_loop fuel p out_size st = Some (process_lines (lines p) out_size st).
Proof.
  induction fuel as [|fuel IH]; intros p st Hfuel; [lia|].
  cbn [clean_loop].
  destruct p as [|c0 p0]; [reflexivity|].
  rewrite <- (lines_skip_eol (c0 :: p0)).
  pose proof (skip_eol_length (c0 :: p0)) as Hlen.
  destruct (skip_eol (c0 :: p0)) as [|c r] eqn:Hskip; [reflexivity|].
  pose proof (skip_eol_head _ _ _ Hskip) as Hc.
  fold (is_prompt c).
  destruct (is_prompt c) eqn:Hp.
  - unfold lines. cbn [lines_from]. rewrite Hp. reflexivity.
  - destruct (scan_line (c :: r)) as [line p2] eqn:Hscan.
    destruct (scan_line_lines_from _ _ _ Hscan) as (Hlf & _ & Hsum).
    assert (Hline : exists l', line = c :: l').
    { cbn [scan_line] in Hscan.
      change (Ascii.eqb c CR || Ascii.eqb c LF || Ascii.eqb c ">")
        with (is_eol c || is_prompt c) in Hscan.
      rewrite Hc, Hp in Hscan. cbn [orb] in Hscan.
      destruct (scan_line r) as [l q]. injection Hscan as <- _. eauto. }
    destruct Hline as [l' ->].
    unfold lines at 1. rewrite Hlf. cbn [cons_nonempty process_lines].
    destruct (clean_line (c :: l') out_size st) as [res|st']; [reflexivity|].
    apply IH. cbn [List.length] in *. lia.
Qed.

Lemma lines_from_no_eol (p : cstring) :
  no_eol (fst (lines_from p)) /\ Forall no_eol (snd (lines_from p)).
Proof.
  induction p as [|c rest [IHc IHl]]; cbn [lines_from].
  - split; constructor.
  - destruct (is_prompt c); [split; constructor|].
    destruct (lines_from rest) as [cur ls]. cbn [fst snd] in *.
    destruct (is_eol c) eqn:He; cbn [fst snd].
    + split; [constructor|]. destruct cur; cbn [cons_nonempty]; auto.
    + split; [constructor; assumption | assumption].
Qed.

Lemma lines_no_eol (raw : cstring) : Forall no_eol (lines raw).
Proof.
  unfold lines. pose proof (lines_from_no_eol raw) as [Hc Hl].
  destruct (lines_from raw) as [cur ls]. cbn [fst snd] in *.
  destruct cur; cbn [cons_nonempty]; auto.
Qed.

End CleanerLines.

Section CleanerLine.

Import CleanSpec.

Lemma is_prefix_firstn (lit : cstring) :
  forall n l, (List.length lit <= n)%nat ->
              is_prefix lit (firstn n l) = is_prefix lit l.
Proof.
  induction lit as [|a lit IH]; intros n l Hn.
  - destruct (firstn n l), l; reflexivity.
  - cbn [List.length] in Hn. destruct n as [|n]; [lia|].
    destruct l as [|b l]; [reflexivity|].
    cbn [firstn is_prefix]. rewrite IH by lia. reflexivity.
Qed.

Lemma skip_leading_ws_fixed (c : ascii) (tl : cstring) :
  is_whitespace c = false -> skip_leading_ws (c :: tl) = c :: tl.
Proof.
  unfold is_whitespace. intros H. cbn [skip_leading_ws]. rewrite H. reflexivity.
Qed.

(** Cutting a line to the 255 characters of [line_buf] does not change its
    classification: no token is longer than 17 characters. *)
Lemma classify_line_buf (c : ascii) (tl : cstring) :
  is_whitespace c = false ->
  obd_elm327_classify_response (firstn (OBD_MAX_RESPONSE_LEN - 1) (c :: tl))
  = obd_elm327_classify_response (c :: tl).
Proof.
  intros Hc.
  change (OBD_MAX_RESPONSE_LEN - 1)%nat with (S 254).
  unfold obd_elm327_classify_response.
  change (firstn (S 254) (c :: tl)) with (c :: firstn 254 tl).
  rewrite !(skip_leading_ws_fixed _ _ Hc).
  strncmp_to_prefix.
  change (c :: firstn 254 tl) with (firstn (S 254) (c :: tl)).
  rewrite !is_prefix_firstn by (cbn; lia).
  reflexivity.
Qed.

Lemma skip_blanks_head (l : cstring) (c : ascii) (tl : cstring) :
  skip_blanks l = c :: tl -> Ascii.eqb c SP || Ascii.eqb c TAB = false.
Proof.
  induction l as [|a l IH]; cbn [skip_blanks]; [discriminate|].
  destruct (Ascii.eqb a SP || Ascii.eqb a TAB) eqn:Ha; [exact IH|].
  intros H. injection H as -> _. exact Ha.
Qed.

Lemma skip_blanks_no_eol (l : cstring) : no_eol l -> no_eol (skip_blanks l).
Proof.
  induction 1 as [|a l Ha Hl IH]; cbn [skip_blanks]; [constructor|].
  destruct (Ascii.eqb a SP || Ascii.eqb a TAB); [exact IH|].
  constructor; assumption.
Qed.

Lemma trimmed_head_not_whitespace (line : cstring) (c : ascii) (tl : cstring) :
  no_eol line -> skip_blanks line = c :: tl -> is_whitespace c = false.
Proof.
  intros Hline Hskip.
  pose proof (skip_blanks_head _ _ _ Hskip) as Hblank.
  pose proof (skip_blanks_no_eol _ Hline) as Hne. rewrite Hskip in Hne.
  inversion Hne as [|? ? Hc _]; subst. unfold is_eol in Hc.
  unfold is_whitespace.
  apply orb_false_iff in Hblank as [-> ->].
  apply orb_false_iff in Hc as [-> ->]. reflexivity.
Qed.

(** The byte of two hex digits, as the code combines them. *)
Lemma nibbles_to_byte (hi lo : Z) :
  0 <= hi < 16 -> 0 <= lo < 16 -> Z.lor (Z.shiftl hi 4) lo = 16 * hi + lo.
Proof.
  intros Hhi Hlo.
  rewrite Z.shiftl_mul_pow2 by lia. change (2 ^ 4) with 16.
  rewrite <- Z.lxor_lor.
  - rewrite <- Z.add_nocarry_lxor; [lia|].
    apply Z.bits_inj'. intros n Hn. rewrite Z.land_spec, Z.bits_0.
    destruct (Z.ltb_spec n 4).
    + replace (hi * 16) with (hi * 2 ^ 4) by lia.
      rewrite Z.mul_pow2_bits_low by lia. reflexivity.
    + rewrite (Z.bits_above_log2 lo n); [apply andb_false_r | lia |].
      destruct (Z.eq_dec lo 0) as [->|]; [cbn; lia|].
      apply Z.log2_lt_pow2; [lia|].
      apply Z.lt_le_trans with (2 ^ 4); [lia|].
      apply Z.pow_le_mono_r; lia.
  - apply Z.bits_inj'. intros n Hn. rewrite Z.land_spec, Z.bits_0.
    destruct (Z.ltb_spec n 4).
    + replace (hi * 16) with (hi * 2 ^ 4) by lia.
      rewrite Z.mul_pow2_bits_low by lia. reflexivity.
    + rewrite (Z.bits_above_log2 lo n); [apply andb_false_r | lia |].
      destruct (Z.eq_dec lo 0) as [->|]; [cbn; lia|].
      apply Z.log2_lt_pow2; [lia|].
      apply Z.lt_le_trans with (2 ^ 4); [lia|].
      apply Z.pow_le_mono_r; lia.
Qed.

(** The loop body drops the lines without payload and appends the payload
    of the others; the payload is defined with the code's comparison. *)
Lemma clean_line_payload (line : cstring) (out_size : nat) (st : clean_state) :
  no_eol line ->
  clean_line line out_size st =
    match payload echo_below_0x40 line with
    | None => inr st
    | Some k => append_payload k out_size st
    end.
Proof.
  intros Hline. unfold clean_line, payload.
  destruct (skip_blanks line) as [|c0 tl] eqn:Hskip; [reflexivity|].
  pose proof (trimmed_head_not_whitespace _ _ _ Hline Hskip) as Hc0.
  rewrite (classify_line_buf c0 tl Hc0).
  destruct (obd_elm327_classify_response (c0 :: tl)); try reflexivity.
  unfold first_byte.
  pose proof (nibble_range c0) as R0.
  destruct tl as [|c1 tl'].
  - replace (hex_char_to_nibble c0 <? 0) with (hex_char_to_nibble c0 <? 0) by reflexivity.
    destruct (hex_char_to_nibble c0 <? 0); reflexivity.
  - pose proof (nibble_range c1) as R1.
    destruct (Z.ltb_spec (hex_char_to_nibble c0) 0) as [H0|H0];
      destruct (Z.leb_spec 0 (hex_char_to_nibble c0)) as [H0'|H0']; try lia;
      cbn [orb andb]; [reflexivity|].
    destruct (Z.ltb_spec (hex_char_to_nibble c1) 0) as [H1|H1];
      destruct (Z.leb_spec 0 (hex_char_to_nibble c1)) as [H1'|H1']; try lia;
      [reflexivity|].
    rewrite nibbles_to_byte by lia.
    unfold echo_below_0x40.
    destruct (16 * hex_char_to_nibble c0 + hex_char_to_nibble c1 <? 64); reflexivity.
Qed.

Lemma payload_length (echo : Z -> bool) (line k : cstring) :
  payload echo line = Some k -> (2 <= List.length k)%nat.
Proof.
  unfold payload.
  destruct (obd_elm327_classify_response (skip_blanks line)); try discriminate.
  unfold first_byte.
  destruct (skip_blanks line) as [|c0 [|c1 tl]]; try discriminate.
  destruct ((0 <=? hex_char_to_nibble c0) && (0 <=? hex_char_to_nibble c1));
    [|discriminate].
  destruct (echo _); [discriminate|].
  intros H. injection H as <-. cbn [List.length]. lia.
Qed.

End CleanerLine.

Section CleanerBuffer.

Import CleanSpec.

Lemma join_cr_snoc (ks : list cstring) (k : cstring) :
  join_cr (ks ++ [k]) =
    match ks with
    | [] => k
    | _ :: _ => join_cr ks ++ CR :: k
    end.
Proof.
  induction ks as [|a ks IH]; [reflexivity|].
  change ((a :: ks) ++ [k]) with (a :: (ks ++ [k])).
  cbn [join_cr]. rewrite IH.
  destruct ks as [|b ks]; [reflexivity|].
  cbn [app]. rewrite <- app_assoc. reflexivity.
Qed.

Lemma join_cr_length_mono (ks more : list cstring) :
  (List.length (join_cr ks) <= List.length (join_cr (ks ++ more)))%nat.
Proof.
  induction more as [|x more IH] using rev_ind.
  - rewrite app_nil_r. lia.
  - rewrite app_assoc, join_cr_snoc.
    destruct (ks ++ more) as [|a l] eqn:Hkm.
    + apply app_eq_nil in Hkm as [-> _]. cbn. lia.
    + rewrite length_app in *. cbn [List.length]. lia.
Qed.

(** Appending a payload to the buffer: it fits exactly when the joined
    text with it stays below the capacity. *)
Lemma append_payload_state (ks : list cstring) (k : cstring) (out_size : nat) :
  (List.length (join_cr ks) < out_size)%nat ->
  (1 <= List.length k)%nat ->
  ((List.length (join_cr (ks ++ [k])) < out_size)%nat ->
   append_payload k out_size (state_of ks) = inr (state_of (ks ++ [k]))) /\
  ((out_size <= List.length (join_cr (ks ++ [k])))%nat ->
   exists partial,
     append_payload k out_size (state_of ks) = inl (OBD_ERROR_BUFFER_TOO_SMALL, partial)).
Proof.
  intros Hinv Hk.
  unfold append_payload, state_of, out_pos. cbn [out found_data].
  rewrite !join_cr_snoc.
  destruct ks as [|a ks'].
  - cbn [andb join_cr List.length app Nat.add].
    destruct (Nat.leb_spec out_size (List.length k)); split; intros; try lia; eauto.
  - set (j := join_cr (a :: ks')) in *.
    cbn [andb app]. rewrite !length_app. cbn [List.length].
    destruct (Nat.ltb_spec (List.length j) (out_size - 1)).
    + rewrite length_app. cbn [List.length].
      destruct (Nat.leb_spec out_size (List.length j + 1 + List.length k));
        split; intros; try lia; eauto.
      rewrite <- app_assoc. reflexivity.
    + destruct (Nat.leb_spec out_size (List.length j + List.length k));
        split; intros; try lia; eauto.
Qed.

(** The pass over the lines ends with the surviving lines joined by CRs
    in the buffer, or overflows when the joined text does not fit. *)
Lemma process_lines_state (out_size : nat) (ls : list cstring) :
  Forall no_eol ls ->
  forall ks,
    (List.length (join_cr ks) < out_size)%nat ->
    ((List.length (join_cr (ks ++ kept echo_below_0x40 ls)) < out_size)%nat ->
     process_lines ls out_size (state_of ks)
     = inr (state_of (ks ++ kept echo_below_0x40 ls))) /\
    ((out_size <= List.length (join_cr (ks ++ kept echo_below_0x40 ls)))%nat ->
     exists partial,
       process_lines ls out_size (state_of ks)
       = inl (OBD_ERROR_BUFFER_TOO_SMALL, partial)).
Proof.
  induction 1 as [|l rest Hl Hrest IH]; intros ks Hinv.
  - cbn [kept process_lines]. rewrite app_nil_r. split; intros; [reflexivity | lia].
  - cbn [kept process_lines]. rewrite (clean_line_payload _ _ _ Hl).
    destruct (payload echo_below_0x40 l) as [k|] eqn:Hpay; [|apply IH, Hinv].
    pose proof (payload_length _ _ _ Hpay) as Hk.
    destruct (append_payload_state ks k out_size Hinv ltac:(lia)) as [Hfit Hover].
    replace (ks ++ k :: kept echo_below_0x40 rest)
      with ((ks ++ [k]) ++ kept echo_below_0x40 rest)
      by (rewrite <- app_assoc; reflexivity).
    pose proof (join_cr_length_mono (ks ++ [k]) (kept echo_below_0x40 rest)) as Hmono.
    destruct (Nat.lt_ge_cases (List.length (join_cr (ks ++ [k]))) out_size) as [Hlt|Hge].
    + rewrite (Hfit Hlt). apply IH, Hlt.
    + destruct (Hover Hge) as [partial ->].
      split; intros; [lia | eauto].
Qed.

(** The whole cleaner in terms of the surviving lines. *)
Lemma clean_response_surviving (raw : cstring) (out_size : nat) :
  (0 < out_size)%nat ->
  let ks := surviving echo_below_0x40 raw in
  (ks = [] ->
   obd_elm327_clean_response raw out_size = Some (no_payload_error raw, [])) /\
  (ks <> [] -> (List.length (join_cr ks) < out_size)%nat ->
   obd_elm327_clean_response raw out_size = Some (OBD_OK, trim_trailing (join_cr ks))) /\
  (ks <> [] -> (out_size <= List.length (join_cr ks))%nat ->
   exists partial,
     obd_elm327_clean_response raw out_size
     = Some (OBD_ERROR_BUFFER_TOO_SMALL, partial)).
Proof.
  intros Hsize ks. unfold obd_elm327_clean_response.
  destruct out_size as [|n]; [lia|]. cbn [Nat.eqb].
  rewrite clean_loop_process_lines by lia.
  change (mk_clean_state [] false) with (state_of []).
  destruct (process_lines_state (S n) (lines raw) (lines_no_eol raw) [] ltac:(cbn; lia))
    as [Hfit Hover].
  cbn [app] in Hfit, Hover. fold (surviving echo_below_0x40 raw) in Hfit, Hover.
  fold ks in Hfit, Hover.
  split; [|split].
  - intros Hnil. rewrite Hfit by (rewrite Hnil; cbn; lia).
    rewrite Hnil. cbn [state_of found_data negb]. unfold no_payload_error.
    destruct (strstr raw (cstr "NO DATA")); [reflexivity|].
    destruct (strstr raw (cstr "?") || strstr raw (cstr "ERROR")); reflexivity.
  - intros Hne Hlt. rewrite (Hfit Hlt).
    destruct ks; [contradiction|]. reflexivity.
  - intros Hne Hge. destruct (Hover Hge) as [partial ->]. eauto.
Qed.

End CleanerBuffer.

(** C3 (as amended).  In [obd_elm327_clean_response], a line classified
    Data whose first two characters spell a byte below 0x40 is dropped as an
    echo and adds nothing to the payload, and a Data line whose first byte
    is 0x40 or more is kept: the payload is exactly these lines, without
    their leading blanks, in transcript order and joined by single CRs (its
    trailing blanks cut), whenever it fits the buffer; when it does not, the
    call fails with BufferTooSmall. *)
Theorem clean_response_drops_echo_lines (raw : cstring) (out_size : nat) :
  (0 < out_size)%nat ->
  let survives := CleanSpec.payload CleanSpec.echo_below_0x40 in
  let ks := CleanSpec.surviving CleanSpec.echo_below_0x40 raw in
  (forall line b,
     obd_elm327_classify_response (skip_blanks line) = OBD_ELM_RESPONSE_DATA ->
     CleanSpec.first_byte (skip_blanks line) = Some b ->
     (b < 0x40 -> survives line = None) /\
     (0x40 <= b -> survives line = Some (skip_blanks line))) /\
  (ks <> [] -> (List.length (CleanSpec.join_cr ks) < out_size)%nat ->
   obd_elm327_clean_response raw out_size
   = Some (OBD_OK, trim_trailing (CleanSpec.join_cr ks))) /\
  (ks <> [] -> (out_size <= List.length (CleanSpec.join_cr ks))%nat ->
   exists partial,
     obd_elm327_clean_response raw out_size
     = Some (OBD_ERROR_BUFFER_TOO_SMALL, partial)).
Proof.
  intros Hsize survives ks.
  destruct (clean_response_surviving raw out_size Hsize) as (_ & Hok & Hover).
  split; [|split; assumption].
  intros line b Hdata Hbyte. unfold survives, CleanSpec.payload.
  rewrite Hdata, Hbyte. unfold CleanSpec.echo_below_0x40.
  split; intros Hb.
  - destruct (Z.ltb_spec b 64); [reflexivity | lia].
  - destruct (Z.ltb_spec b 64); [lia | reflexivity].
Qed.

Lemma clean_response_drops_echo_lines_witness :
  (0 < 256)%nat /\
  CleanSpec.surviving CleanSpec.echo_below_0x40 test_raw_rpm_response
    = [cstr "41 0C 1A F8"] /\
  CleanSpec.payload CleanSpec.echo_below_0x40 (cstr "010C") = None /\
  obd_elm327_clean_response test_raw_rpm_response 256
    = Some (OBD_OK, cstr "41 0C 1A F8").
Proof.
  assert (Hsize : (0 < 256)%nat) by lia.
  destruct (clean_response_drops_echo_lines test_raw_rpm_response 256 Hsize)
    as (Hline & Hok & _).
  split; [exact Hsize|]. split; [reflexivity|]. split.
  - apply (proj1 (Hline (cstr "010C") 0x01 eq_refl eq_refl)). lia.
  - rewrite Hok; [reflexivity | discriminate | cbn; lia].
Defined.

(** C3, as written, fails: the line "81 0C" is classified Data and its
    first byte 0x81 has the 0x40 bit clear, so the claim has it dropped as
    an echo; the code keeps it, since 0x81 is not below 0x40. *)
Lemma clean_response_keeps_line_without_0x40_bit :
  obd_elm327_classify_response (cstr "81 0C") = OBD_ELM_RESPONSE_DATA /\
  CleanSpec.first_byte (cstr "81 0C") = Some 0x81 /\
  Z.land 0x81 0x40 = 0 /\
  CleanSpec.surviving CleanSpec.echo_as_claimed (cstr "81 0C") = [] /\
  obd_elm327_clean_response (cstr "81 0C") 256 = Some (OBD_OK, cstr "81 0C").
Proof. repeat split; vm_compute; reflexivity. Qed.

(** C9.  When no line survives the cleaning, [obd_elm327_clean_response]
    leaves an empty string in the buffer and returns NoData if the raw text
    contains NO DATA, else ElmError if it contains a question mark or
    ERROR, else ParseFailed; NO DATA wins over the error tokens, and the
    transcript of the test suite that only holds NO DATA gives NoData. *)
Theorem clean_response_without_payload (raw : cstring) (out_size : nat) :
  (0 < out_size)%nat ->
  CleanSpec.surviving CleanSpec.echo_below_0x40 raw = [] ->
  obd_elm327_clean_response raw out_size
  = Some (if strstr raw (cstr "NO DATA") then OBD_ERROR_NO_DATA
          else if strstr raw (cstr "?") || strstr raw (cstr "ERROR")
               then OBD_ERROR_ELM_ERROR
          else OBD_ERROR_PARSE_FAILED,
          []).
Proof.
  intros Hsize Hnone.
  destruct (clean_response_surviving raw out_size Hsize) as (Hnil & _).
  rewrite (Hnil Hnone). unfold CleanSpec.no_payload_error.
  destruct (strstr raw (cstr "NO DATA")); [reflexivity|].
  destruct (strstr raw (cstr "?") || strstr raw (cstr "ERROR")); reflexivity.
Qed.

Lemma clean_response_without_payload_witness :
  (0 < 256)%nat /\
  CleanSpec.surviving CleanSpec.echo_below_0x40 test_raw_no_data_response = [] /\
  obd_elm327_clean_response test_raw_no_data_response 256
    = Some (OBD_ERROR_NO_DATA, []).
Proof.
  assert (Hsize : (0 < 256)%nat) by lia.
  assert (Hnone : CleanSpec.surviving CleanSpec.echo_below_0x40
                    test_raw_no_data_response = []) by reflexivity.
  split; [exact Hsize|]. split; [exact Hnone|].
  rewrite (clean_response_without_payload _ _ Hsize Hnone). reflexivity.
Defined.

(** ** VIN reassembly (vin.c) *)

Section VinLines.

Import VinSpec.

Lemma vin_lines_skip_eol (p : cstring) : lines (Vin.skip_eol p) = lines p.
Proof.
  induction p as [|c rest IH]; [reflexivity|].
  cbn [Vin.skip_eol]. fold (is_eol c).
  destruct (is_eol c) eqn:Heol; [|reflexivity].
  rewrite IH. unfold lines at 2. cbn [lines_from]. rewrite Heol.
  unfold lines. destruct (lines_from rest) as [cur ls]. destruct cur; reflexivity.
Qed.

Lemma vin_skip_eol_length (p : cstring) :
  (List.length (Vin.skip_eol p) <= List.length p)%nat.
Proof.
  induction p as [|c rest IH]; cbn [Vin.skip_eol List.length]; [lia|].
  destruct (Ascii.eqb c CR || Ascii.eqb c LF); cbn [List.length]; lia.
Qed.

Lemma vin_skip_eol_head (p : cstring) (c : ascii) (r : cstring) :
  Vin.skip_eol p = c :: r -> is_eol c = false.
Proof.
  induction p as [|a rest IH]; cbn [Vin.skip_eol]; [discriminate|].
  fold (is_eol a). destruct (is_eol a) eqn:Ha; [exact IH|].
  intros H. injection H as -> _. exact Ha.
Qed.

Lemma vin_scan_line_lines_from (p : cstring) :
  forall line p2,
    Vin.scan_line p = (line, p2) ->
    lines_from p = (line, lines p2) /\
    (List.length line + List.length p2 = List.length p)%nat.
Proof.
  induction p as [|c rest IH]; intros line p2 Hscan.
  - cbn in Hscan. injection Hscan as <- <-. split; reflexivity.
  - cbn [Vin.scan_line] in Hscan. cbn [lines_from]. fold (is_eol c) in Hscan.
    destruct (is_eol c) eqn:He.
    + injection Hscan as <- <-.
      unfold lines at 1. cbn [lines_from]. rewrite He.
      destruct (lines_from rest) as [cur ls].
      split; [|reflexivity]. f_equal. destruct cur; reflexivity.
    + destruct (Vin.scan_line rest) as [l q] eqn:Hrest.
      injection Hscan as <- <-.
      destruct (IH l q eq_refl) as (Hlf & Hlen).
      rewrite Hlf. split; [reflexivity|]. cbn [List.length]. lia.
Qed.

Lemma firstn_firstn_app {A : Type} (n : nat) (a b : list A) :
  firstn n (firstn n a ++ b) = firstn n (a ++ b).
Proof.
  rewrite !firstn_app, firstn_firstn, Nat.min_id, length_firstn.
  destruct (Nat.le_gt_cases (List.length a) n) as [Hle|Hgt].
  - rewrite Nat.min_r by lia. reflexivity.
  - rewrite Nat.min_l by lia.
    replace (n - n)%nat with 0%nat by lia.
    replace (n - List.length a)%nat with 0%nat by lia. reflexivity.
Qed.

(** The inner loop appends the non-zero bytes, as characters, while there
    is room for them. *)
Lemma append_data_filter (bytes : list Z) :
  forall vin,
    (List.length vin <= OBD_VIN_LENGTH)%nat ->
    Vin.append_data bytes vin
    = firstn OBD_VIN_LENGTH
        (vin ++ map char_of_code (filter (fun b => negb (b =? 0)) bytes)).
Proof.
  induction bytes as [|b rest IH]; intros vin Hlen.
  - cbn [Vin.append_data filter map]. rewrite app_nil_r, firstn_all2; auto.
  - cbn [Vin.append_data filter].
    destruct (Nat.ltb_spec (List.length vin) OBD_VIN_LENGTH) as [Hlt|Hge].
    + destruct (b =? 0); cbn [negb map].
      * apply IH, Hlen.
      * rewrite IH by (rewrite length_app; cbn [List.length]; lia).
        rewrite <- app_assoc. reflexivity.
    + rewrite firstn_app.
      replace (OBD_VIN_LENGTH - List.length vin)%nat with 0%nat by lia.
      rewrite firstn_all2 by lia. cbn [firstn]. rewrite app_nil_r. reflexivity.
Qed.

(** One line adds its frame characters. *)
Lemma vin_line_frame_chars (line vin : cstring) :
  (List.length vin <= OBD_VIN_LENGTH)%nat ->
  Vin.vin_line line vin = firstn OBD_VIN_LENGTH (vin ++ frame_chars line).
Proof.
  intros Hlen. unfold Vin.vin_line, frame_chars, frame_data, decode_line, qualifies.
  assert (Hsame : forall A (l : list A), (List.length l <= OBD_VIN_LENGTH)%nat ->
                                          l = firstn OBD_VIN_LENGTH (l ++ [])).
  { intros A l Hl. rewrite app_nil_r, firstn_all2; auto. }
  destruct (obd_hex_to_bytes (firstn (OBD_MAX_RESPONSE_LEN - 1) line) 16) as [r bytes].
  destruct r; try (cbn [map filter]; apply Hsame, Hlen).
  destruct (Nat.ltb_spec (List.length bytes) 4) as [Hshort|Hlong];
    destruct (Nat.leb_spec 4 (List.length bytes)); try lia; cbn [orb andb].
  - cbn [map filter]. apply Hsame, Hlen.
  - destruct (nth 0 bytes 0 =? 73); cbn [negb orb andb];
      [|cbn [map filter]; apply Hsame, Hlen].
    destruct (nth 1 bytes 0 =? 2); cbn [negb orb andb];
      [|cbn [map filter]; apply Hsame, Hlen].
    apply append_data_filter, Hlen.
Qed.

(** The outer loop accumulates the frame characters of the lines, in
    order, up to 17 characters. *)
Lemma vin_loop_accumulates (fuel : nat) :
  forall p vin,
    (List.length p < fuel)%nat ->
    (List.length vin <= OBD_VIN_LENGTH)%nat ->
    Vin.vin_loop fuel p vin
    = Some (firstn OBD_VIN_LENGTH (vin ++ List.concat (map frame_chars (lines p)))).
Proof.
  induction fuel as [|fuel IH]; intros p vin Hfuel Hlen; [lia|].
  cbn [Vin.vin_loop].
  destruct p as [|c0 p0].
  { unfold lines. cbn [lines_from CleanSpec.cons_nonempty map List.concat].
    rewrite app_nil_r, firstn_all2; auto. }
  destruct (Nat.ltb_spec (List.length vin) OBD_VIN_LENGTH) as [Hlt|Hge].
  2:{ rewrite firstn_app.
      replace (OBD_VIN_LENGTH - List.length vin)%nat with 0%nat by lia.
      rewrite firstn_all2 by lia. cbn [firstn]. rewrite app_nil_r. reflexivity. }
  rewrite <- (vin_lines_skip_eol (c0 :: p0)).
  pose proof (vin_skip_eol_length (c0 :: p0)) as Hskiplen.
  destruct (Vin.skip_eol (c0 :: p0)) as [|c r] eqn:Hskip.
  { unfold lines. cbn [lines_from CleanSpec.cons_nonempty map List.concat].
    rewrite app_nil_r, firstn_all2; auto. }
  pose proof (vin_skip_eol_head _ _ _ Hskip) as Hc.
  destruct (Vin.scan_line (c :: r)) as [line p2] eqn:Hscan.
  destruct (vin_scan_line_lines_from _ _ _ Hscan) as (Hlf & Hsum).
  assert (Hline : exists l', line = c :: l').
  { cbn [Vin.scan_line] in Hscan. fold (is_eol c) in Hscan. rewrite Hc in Hscan.
    destruct (Vin.scan_line r) as [l q]. injection Hscan as <- _. eauto. }
  destruct Hline as [l' ->].
  rewrite IH.
  - unfold lines at 2. rewrite Hlf. cbn [CleanSpec.cons_nonempty map List.concat].
    rewrite vin_line_frame_chars by exact Hlen.
    rewrite firstn_firstn_app, <- app_assoc. reflexivity.
  - cbn [List.length] in *. lia.
  - rewrite vin_line_frame_chars by exact Hlen. rewrite length_firstn. lia.
Qed.

(** The call as a whole. *)
Lemma vin_parse_response_accumulated (response : cstring) (vin_size : nat) :
  (OBD_VIN_LENGTH + 1 <= vin_size)%nat ->
  Vin.obd_vin_parse_response response vin_size
  = Some (if (List.length (accumulated response) =? OBD_VIN_LENGTH)%nat
          then OBD_OK else OBD_ERROR_PARSE_FAILED,
          accumulated response).
Proof.
  intros Hsize. unfold Vin.obd_vin_parse_response.
  destruct (Nat.eqb_spec vin_size 0); [unfold OBD_VIN_LENGTH in *; lia|].
  destruct (Nat.ltb_spec vin_size (OBD_VIN_LENGTH + 1)); [lia|].
  rewrite vin_loop_accumulates by (cbn [List.length]; lia).
  cbn [app]. fold (accumulated response).
  destruct (List.length (accumulated response) =? OBD_VIN_LENGTH)%nat; reflexivity.
Qed.

End VinLines.

Section VinFrames.

Import VinSpec.

Lemma decode_line_bytes (line : cstring) (bytes : list Z) :
  decode_line line = Some bytes ->
  Forall is_byte bytes /\ (List.length bytes <= 16)%nat.
Proof.
  unfold decode_line.
  destruct (obd_hex_to_bytes (firstn (OBD_MAX_RESPONSE_LEN - 1) line) 16)
    as [r bs] eqn:Hdec.
  destruct r; try discriminate. intros H. injection H as <-.
  split.
  - pose proof (hex_to_bytes_loop_bytes (firstn (OBD_MAX_RESPONSE_LEN - 1) line) 16 0) as Hb.
    unfold obd_hex_to_bytes in Hdec. rewrite Hdec in Hb. exact Hb.
  - exact (obd_hex_to_bytes_bound _ _ _ _ Hdec).
Qed.

Lemma frame_data_bytes (line : cstring) :
  Forall is_byte (frame_data line) /\ (List.length (frame_data line) <= 13)%nat.
Proof.
  unfold frame_data.
  destruct (decode_line line) as [bytes|] eqn:Hdec; [|split; [constructor | cbn; lia]].
  destruct (decode_line_bytes _ _ Hdec) as [Hb Hlen].
  destruct (qualifies bytes); [|split; [constructor | cbn; lia]].
  split.
  - rewrite <- (firstn_skipn 3 bytes) in Hb. apply Forall_app in Hb. tauto.
  - rewrite length_skipn. lia.
Qed.

Lemma frame_chars_length (line : cstring) : (List.length (frame_chars line) <= 13)%nat.
Proof.
  unfold frame_chars. rewrite length_map.
  pose proof (filter_length_le (fun b => negb (b =? 0)) (frame_data line)).
  pose proof (frame_data_bytes line). lia.
Qed.




(** A text without CR or LF is one line, or none when it is empty. *)
Lemma lines_from_single (line : cstring) :
  no_eol line -> lines_from line = (line, []).
Proof.
  induction 1 as [|c l Hc Hl IH]; [reflexivity|].
  cbn [lines_from]. rewrite IH.
  change (is_eol c) with (CleanSpec.is_eol c). rewrite Hc. reflexivity.
Qed.

Lemma lines_single (line : cstring) :
  no_eol line -> lines line = CleanSpec.cons_nonempty line [].
Proof.
  intros H. unfold lines. rewrite (lines_from_single _ H). reflexivity.
Qed.

Lemma cons_nonempty_app (cur : cstring) (ls more : list cstring) :
  CleanSpec.cons_nonempty cur (ls ++ more) = CleanSpec.cons_nonempty cur ls ++ more.
Proof. destruct cur; reflexivity. Qed.

Lemma lines_from_app_cr (a b : cstring) :
  lines_from (a ++ CR :: b) = (fst (lines_from a), snd (lines_from a) ++ lines b).
Proof.
  induction a as [|c a IH].
  - cbn [app lines_from fst snd]. change (is_eol CR) with true. cbn iota.
    unfold lines. destruct (lines_from b) as [cur ls]. reflexivity.
  - cbn [app lines_from]. rewrite IH.
    destruct (lines_from a) as [cur ls]. cbn [fst snd].
    destruct (is_eol c); cbn [fst snd]; [|reflexivity].
    rewrite cons_nonempty_app. reflexivity.
Qed.

Lemma lines_app_cr (a b : cstring) : lines (a ++ CR :: b) = lines a ++ lines b.
Proof.
  unfold lines at 1 2. rewrite lines_from_app_cr.
  destruct (lines_from a) as [cur ls]. cbn [fst snd].
  apply cons_nonempty_app.
Qed.

(** The lines of a transcript around a frame that stands on its own line. *)
Lemma lines_around (before line after : cstring) :
  no_eol line -> line <> [] ->
  lines (before ++ CR :: line ++ CR :: after) = lines before ++ line :: lines after.
Proof.
  intros Hne Hnonempty.
  rewrite lines_app_cr, lines_app_cr, (lines_single _ Hne).
  destruct line; [contradiction | reflexivity].
Qed.

Lemma hex_digit_not_eol (i : Z) : 0 <= i < 16 -> CleanSpec.is_eol (hex_digit i) = false.
Proof.
  intros Hi. pose proof (hex_digit_not_whitespace i Hi) as Hws.
  unfold is_whitespace in Hws. unfold CleanSpec.is_eol.
  destruct (Ascii.eqb (hex_digit i) SP), (Ascii.eqb (hex_digit i) TAB);
    cbn [orb] in Hws; try discriminate; exact Hws.
Qed.

Lemma bytes_to_hex_loop_no_eol (bytes : list Z) :
  Forall is_byte bytes -> no_eol (bytes_to_hex_loop bytes).
Proof.
  induction 1 as [|b rest Hb Hrest IH]; [constructor|].
  cbn [bytes_to_hex_loop].
  constructor; [apply hex_digit_not_eol, high_nibble_range, Hb|].
  constructor; [apply hex_digit_not_eol, low_nibble_range|].
  destruct rest; [constructor|].
  constructor; [reflexivity | exact IH].
Qed.

Lemma bytes_to_hex_loop_length (bytes : list Z) :
  (List.length (bytes_to_hex_loop bytes) <= 3 * List.length bytes)%nat.
Proof.
  induction bytes as [|b rest IH]; [cbn; lia|].
  cbn [bytes_to_hex_loop List.length].
  destruct rest; cbn [List.length] in *; lia.
Qed.

(** The line copy and the frame buffer are large enough for a printed
    frame of up to 16 bytes, which therefore decodes to its bytes. *)
Lemma decode_line_frame_text (seq : Z) (data : list Z) :
  is_byte seq -> Forall is_byte data -> (List.length data <= 13)%nat ->
  decode_line (frame_text seq data) = Some (0x49 :: 0x02 :: seq :: data).
Proof.
  intros Hseq Hdata Hlen. unfold decode_line, frame_text.
  assert (Hall : Forall is_byte (0x49 :: 0x02 :: seq :: data)).
  { constructor; [unfold is_byte; lia|].
    constructor; [unfold is_byte; lia|].
    constructor; assumption. }
  pose proof (bytes_to_hex_loop_length (0x49 :: 0x02 :: seq :: data)) as Htext.
  cbn [List.length] in Htext.
  rewrite firstn_all2 by (unfold OBD_MAX_RESPONSE_LEN; lia).
  unfold obd_hex_to_bytes.
  rewrite decode_encode_loop; [reflexivity | exact Hall | cbn [List.length]; lia].
Qed.

Lemma frame_chars_frame_text (seq : Z) (data : list Z) :
  is_byte seq -> Forall is_byte data -> (List.length data <= 13)%nat ->
  frame_chars (frame_text seq data)
  = map char_of_code (filter (fun b => negb (b =? 0)) data).
Proof.
  intros Hseq Hdata Hlen. unfold frame_chars, frame_data.
  rewrite (decode_line_frame_text seq data Hseq Hdata Hlen).
  unfold qualifies. cbn [nth List.length skipn].
  change (0x49 =? 0x49) with true. change (0x02 =? 0x02) with true.
  destruct data as [|d data']; reflexivity.
Qed.

Lemma frame_text_line (seq : Z) (data : list Z) :
  is_byte seq -> Forall is_byte data ->
  no_eol (frame_text seq data) /\ frame_text seq data <> [].
Proof.
  intros Hseq Hdata. split.
  - apply bytes_to_hex_loop_no_eol.
    constructor; [unfold is_byte; lia|].
    constructor; [unfold is_byte; lia|].
    constructor; assumption.
  - unfold frame_text. cbn [bytes_to_hex_loop]. discriminate.
Qed.


End VinFrames.

(** C6, as written, fails: the code decodes not the line but its first
    255 characters, and into a frame buffer of 16 bytes.  A line of 257
    characters that ends in [ZZ] does not decode, yet its frame contributes
    the character W; and a line of 17 bytes decodes to a qualifying frame,
    yet contributes nothing, so that the call fails where 17 characters
    would have been accumulated. *)
Lemma vin_parse_response_line_limits :
  List.length test_vin_long_line = 257%nat /\
  VinSpec.decode_line_as_claimed test_vin_long_line = None /\
  VinSpec.parse_as_claimed test_vin_long_line = (OBD_ERROR_PARSE_FAILED, []) /\
  Vin.obd_vin_parse_response test_vin_long_line 18
  = Some (OBD_ERROR_PARSE_FAILED, cstr "W") /\
  VinSpec.decode_line_as_claimed test_vin_wide_line
  = Some [0x49; 0x02; 0x01; 0x57; 0x42; 0x41; 0x33; 0x42; 0x35; 0x46; 0x4B;
          0x37; 0x46; 0x4E; 0x31; 0x32; 0x33] /\
  VinSpec.parse_as_claimed (test_vin_wide_line ++ CR :: cstr "49 02 02 34 35 36")
  = (OBD_OK, cstr "WBA3B5FK7FN123456") /\
  Vin.obd_vin_parse_response
    (test_vin_wide_line ++ CR :: cstr "49 02 02 34 35 36") 18
  = Some (OBD_ERROR_PARSE_FAILED, cstr "456").
Proof. repeat split; vm_compute; reflexivity. Qed.

(** C6, amended.  [obd_vin_parse_response], given a buffer of at least 18
    bytes, splits the response on CR/LF and hex-decodes the first 255
    characters of each line into a frame buffer of 16 bytes; a line adds
    characters only if that decoding succeeds with at least 4 bytes
    starting 0x49 0x02, and what it adds is read from byte index 3 on,
    whatever the sequence number at index 2; other lines are skipped; the
    characters are accumulated in line order up to 17; the call returns OK
    exactly when 17 characters were accumulated and ParseFailed otherwise.
    A response of a single line can never reach 17 characters and gives
    ParseFailed, as the incomplete frame of the test suite does. *)
Theorem vin_parse_response_frames (response : cstring) (vin_size : nat) :
  (OBD_VIN_LENGTH + 1 <= vin_size)%nat ->
  let vin := VinSpec.accumulated response in
  Vin.obd_vin_parse_response response vin_size
  = Some (if (List.length vin =? OBD_VIN_LENGTH)%nat
          then OBD_OK else OBD_ERROR_PARSE_FAILED,
          vin) /\
  (List.length vin <= OBD_VIN_LENGTH)%nat /\
  (forall line,
     VinSpec.frame_chars line <> [] ->
     exists bytes,
       VinSpec.decode_line line = Some bytes /\ (4 <= List.length bytes)%nat /\
       nth 0 bytes 0 = 0x49 /\ nth 1 bytes 0 = 0x02 /\
       VinSpec.frame_chars line
       = map char_of_code (filter (fun b => negb (b =? 0)) (skipn 3 bytes))) /\
  (no_eol response ->
   Vin.obd_vin_parse_response response vin_size = Some (OBD_ERROR_PARSE_FAILED, vin)) /\
  Vin.obd_vin_parse_response (cstr "49 02 01 57 42 41 33") vin_size
  = Some (OBD_ERROR_PARSE_FAILED, cstr "WBA3").
Proof.
  intros Hsize vin.
  pose proof (vin_parse_response_accumulated response vin_size Hsize) as Hcall.
  fold vin in Hcall.
  split; [exact Hcall|]. split; [|split; [|split]].
  - unfold vin, VinSpec.accumulated. rewrite length_firstn. lia.
  - intros line Hchars. unfold VinSpec.frame_chars, VinSpec.frame_data in *.
    destruct (VinSpec.decode_line line) as [bytes|]; [|now elim Hchars].
    destruct (VinSpec.qualifies bytes) eqn:Hq; [|now elim Hchars].
    exists bytes. unfold VinSpec.qualifies in Hq.
    apply andb_true_iff in Hq as [Hq H1]. apply andb_true_iff in Hq as [Hlen H0].
    apply Nat.leb_le in Hlen. apply Z.eqb_eq in H0, H1. auto.
  - intros Hline. rewrite Hcall.
    assert (Hshort : (List.length vin <= 13)%nat).
    { unfold vin, VinSpec.accumulated. rewrite (lines_single _ Hline).
      rewrite length_firstn.
      destruct response as [|c r]; cbn [CleanSpec.cons_nonempty map List.concat];
        [cbn; lia|].
      rewrite app_nil_r.
      pose proof (frame_chars_length (c :: r)). lia. }
    destruct (Nat.eqb_spec (List.length vin) OBD_VIN_LENGTH) as [Heq|_];
      [unfold OBD_VIN_LENGTH in Heq; lia | reflexivity].
  - rewrite (vin_parse_response_accumulated _ vin_size Hsize). reflexivity.
Qed.

Lemma vin_parse_response_frames_witness :
  (OBD_VIN_LENGTH + 1 <= 18)%nat /\
  VinSpec.accumulated test_vin_multiline = cstr "WBA3B5FK7FN123456" /\
  Vin.obd_vin_parse_response test_vin_multiline 18
  = Some (OBD_OK, cstr "WBA3B5FK7FN123456").
Proof.
  assert (Hsize : (OBD_VIN_LENGTH + 1 <= 18)%nat) by (unfold OBD_VIN_LENGTH; lia).
  split; [exact Hsize|]. split; [reflexivity|].
  rewrite (proj1 (vin_parse_response_frames test_vin_multiline 18 Hsize)).
  reflexivity.
Defined.

(** * Further properties *)

(** ** The hex codec, continued *)

Section HexCodecMore.

Lemma strip_whitespace_filter (s : cstring) :
  obd_strip_whitespace s = filter (fun c => negb (is_whitespace c)) s.
Proof.
  induction s as [|c s IH]; [reflexivity|].
  cbn [obd_strip_whitespace filter]. rewrite IH.
  destruct (is_whitespace c); reflexivity.
Qed.

Lemma strip_whitespace_clean (s : cstring) :
  Forall (fun c => is_whitespace c = false) (obd_strip_whitespace s).
Proof.
  induction s as [|c s IH]; cbn [obd_strip_whitespace]; [constructor|].
  destruct (is_whitespace c) eqn:Hc; [exact IH | constructor; assumption].
Qed.

Lemma strip_whitespace_fixed (s : cstring) :
  Forall (fun c => is_whitespace c = false) s -> obd_strip_whitespace s = s.
Proof.
  induction 1 as [|c s Hc Hs IH]; [reflexivity|].
  cbn [obd_strip_whitespace]. rewrite Hc, IH. reflexivity.
Qed.

(** Decoding does not see whitespace: a text that decodes gives the same
    bytes once stripped, and holds two digits per byte. *)
Lemma hex_to_bytes_loop_strip (hex : cstring) (out_size o : nat) :
  forall bytes,
    hex_to_bytes_loop hex out_size o = (OBD_OK, bytes) ->
    hex_to_bytes_loop (obd_strip_whitespace hex) out_size o = (OBD_OK, bytes) /\
    List.length (obd_strip_whitespace hex) = (2 * List.length bytes)%nat.
Proof.
  functional induction (hex_to_bytes_loop hex out_size o);
    intros bytes Hdec; try discriminate.
  - injection Hdec as <-. split; reflexivity.
  - cbn [obd_strip_whitespace].
    match goal with Hws : is_whitespace _ = true |- _ => rewrite Hws end.
    apply IHp, Hdec.
  - injection Hdec as -> <-.
    match goal with
    | Hrec : hex_to_bytes_loop _ _ _ = _ |- _ => destruct (IHp bs Hrec) as [IHdec IHlen]
    end.
    assert (Hc2 : is_whitespace c2 = false).
    { destruct (is_whitespace c2) eqn:Hw; [|reflexivity].
      exfalso. revert Hw.
      match goal with
      | Hn : (hex_char_to_nibble c2 <? 0) = false |- _ => revert Hn
      end.
      unfold is_whitespace.
      destruct (Ascii.eqb_spec c2 SP) as [->|]; [discriminate|].
      destruct (Ascii.eqb_spec c2 TAB) as [->|]; [discriminate|].
      destruct (Ascii.eqb_spec c2 CR) as [->|]; [discriminate|].
      destruct (Ascii.eqb_spec c2 LF) as [->|]; [discriminate|].
      discriminate. }
    cbn [obd_strip_whitespace].
    repeat match goal with
           | Hc : is_whitespace _ = false |- _ => rewrite Hc
           end.
    cbn [hex_to_bytes_loop].
    repeat match goal with
           | Hc : is_whitespace _ = false |- _ => rewrite Hc; clear Hc
           | Hn : (hex_char_to_nibble _ <? 0) = false |- _ => rewrite Hn; clear Hn
           | Hroom : (_ <=? _)%nat = false |- _ => rewrite Hroom; clear Hroom
           end.
    rewrite IHdec. split; [reflexivity|].
    cbn [List.length]. lia.
Qed.


(** What the decoder can return, and when the buffer is reported small. *)
Lemma hex_to_bytes_loop_outcomes (hex : cstring) (out_size o : nat) :
  (o <= out_size)%nat ->
  let r := fst (hex_to_bytes_loop hex out_size o) in
  let bytes := snd (hex_to_bytes_loop hex out_size o) in
  (r = OBD_OK \/ r = OBD_ERROR_INVALID_HEX \/ r = OBD_ERROR_BUFFER_TOO_SMALL) /\
  (r = OBD_ERROR_BUFFER_TOO_SMALL -> (o + List.length bytes)%nat = out_size).
Proof.
  functional induction (hex_to_bytes_loop hex out_size o);
    intros Ho; cbn [fst snd List.length]; try (split; [tauto | discriminate]).
  - apply IHp, Ho.
  - split; [tauto|]. intros _.
    match goal with Hfull : (_ <=? _)%nat = true |- _ => apply Nat.leb_le in Hfull end.
    lia.
  - match goal with
    | Hrec : hex_to_bytes_loop _ _ _ = _, Hroom : (_ <=? _)%nat = false |- _ =>
        rewrite Hrec in IHp; cbn [fst snd] in IHp; apply Nat.leb_gt in Hroom
    end.
    destruct (IHp ltac:(lia)) as [Hcode Hfull].
    split; [exact Hcode|]. intros Hr. specialize (Hfull Hr). lia.
Qed.

(** Decoding a text followed by another: the bytes of the first, then
    the outcome of the second. *)
Lemma hex_to_bytes_loop_app (a : cstring) (out_size o : nat) :
  forall bytes_a,
    hex_to_bytes_loop a out_size o = (OBD_OK, bytes_a) ->
    forall b,
      hex_to_bytes_loop (a ++ b) out_size o
      = (fst (hex_to_bytes_loop b out_size (o + List.length bytes_a)),
         bytes_a ++ snd (hex_to_bytes_loop b out_size (o + List.length bytes_a))).
Proof.
  functional induction (hex_to_bytes_loop a out_size o);
    intros bytes_a Hdec b; try discriminate.
  - injection Hdec as <-. cbn [app List.length]. rewrite Nat.add_0_r.
    destruct (hex_to_bytes_loop b out_size o); reflexivity.
  - cbn [app hex_to_bytes_loop].
    match goal with Hws : is_whitespace _ = true |- _ => rewrite Hws end.
    apply IHp, Hdec.
  - injection Hdec as -> <-.
    cbn [app hex_to_bytes_loop].
    repeat match goal with
           | Hc : is_whitespace _ = false |- _ => rewrite Hc; clear Hc
           | Hn : (hex_char_to_nibble _ <? 0) = false |- _ => rewrite Hn; clear Hn
           | Hroom : (_ <=? _)%nat = false |- _ => rewrite Hroom; clear Hroom
           end.
    match goal with
    | Hrec : hex_to_bytes_loop _ _ _ = _ |- _ => rewrite (IHp bs Hrec b)
    end.
    cbn [List.length]. replace (S o + List.length bs)%nat with (o + S (List.length bs))%nat by lia.
    reflexivity.
Qed.

Lemma to_lower_nibble (c : ascii) :
  hex_char_to_nibble (to_lower c) = hex_char_to_nibble c /\
  is_whitespace (to_lower c) = is_whitespace c.
Proof.
  destruct c as [[] [] [] [] [] [] [] []]; vm_compute; split; reflexivity.
Qed.

Lemma hex_to_bytes_loop_lower (hex : cstring) (out_size o : nat) :
  hex_to_bytes_loop (map to_lower hex) out_size o = hex_to_bytes_loop hex out_size o.
Proof.
  functional induction (hex_to_bytes_loop hex out_size o);
    cbn [map hex_to_bytes_loop];
    repeat match goal with
           | |- context [to_lower ?c] =>
               rewrite (proj1 (to_lower_nibble c)) || rewrite (proj2 (to_lower_nibble c))
           end;
    repeat match goal with
           | H : is_whitespace _ = _ |- _ => rewrite H; clear H
           | H : (hex_char_to_nibble _ <? 0) = _ |- _ => rewrite H; clear H
           | H : (_ <=? _)%nat = _ |- _ => rewrite H; clear H
           end; try reflexivity.
  - exact IHp.
  - rewrite IHp.
    match goal with
    | Hrec : hex_to_bytes_loop _ _ _ = _ |- _ => rewrite Hrec
    end. reflexivity.
Qed.

End HexCodecMore.

(** X1.  [obd_strip_whitespace] keeps the characters that are not space,
    tab, CR or LF, in order; none of those is left; and stripping twice is
    stripping once. *)
Theorem strip_whitespace_idempotent (s : cstring) :
  obd_strip_whitespace s = filter (fun c => negb (is_whitespace c)) s /\
  Forall (fun c => is_whitespace c = false) (obd_strip_whitespace s) /\
  obd_strip_whitespace (obd_strip_whitespace s) = obd_strip_whitespace s.
Proof.
  split; [apply strip_whitespace_filter|].
  split; [apply strip_whitespace_clean|].
  apply strip_whitespace_fixed, strip_whitespace_clean.
Qed.

Lemma hex_to_bytes_result_facts (hex : cstring) (out_size : nat) :
  let r := fst (obd_hex_to_bytes hex out_size) in
  let bytes := snd (obd_hex_to_bytes hex out_size) in
  (r = OBD_OK \/ r = OBD_ERROR_INVALID_HEX \/ r = OBD_ERROR_BUFFER_TOO_SMALL) /\
  (List.length bytes <= out_size)%nat /\
  Forall is_byte bytes /\
  (r = OBD_ERROR_BUFFER_TOO_SMALL -> List.length bytes = out_size).
Proof.
  unfold obd_hex_to_bytes.
  destruct (hex_to_bytes_loop_outcomes hex out_size 0 ltac:(lia)) as [Hcode Hfull].
  pose proof (hex_to_bytes_loop_bound hex out_size 0 ltac:(lia)) as Hbound.
  pose proof (hex_to_bytes_loop_bytes hex out_size 0) as Hbytes.
  cbv zeta. repeat split; auto.
Qed.

(** X2.  Whatever the text and the capacity, [obd_hex_to_bytes] returns
    OK, InvalidHex or BufferTooSmall; it writes at most [out_size] bytes,
    each in [0, 256); and it reports BufferTooSmall only with the buffer
    full. *)
Theorem hex_to_bytes_outcomes (hex : cstring) (out_size : nat) :
  let r := fst (obd_hex_to_bytes hex out_size) in
  let bytes := snd (obd_hex_to_bytes hex out_size) in
  (r = OBD_OK \/ r = OBD_ERROR_INVALID_HEX \/ r = OBD_ERROR_BUFFER_TOO_SMALL) /\
  (List.length bytes <= out_size)%nat /\
  Forall is_byte bytes /\
  (r = OBD_ERROR_BUFFER_TOO_SMALL -> List.length bytes = out_size).
Proof. exact (hex_to_bytes_result_facts hex out_size). Qed.

Lemma hex_to_bytes_outcomes_witness :
  fst (obd_hex_to_bytes (cstr "41 0C 1A F8") 3) = OBD_ERROR_BUFFER_TOO_SMALL /\
  List.length (snd (obd_hex_to_bytes (cstr "41 0C 1A F8") 3)) = 3%nat.
Proof.
  split; [reflexivity|].
  exact (proj2 (proj2 (proj2 (hex_to_bytes_outcomes (cstr "41 0C 1A F8") 3))) eq_refl).
Defined.

(** X3.  A text that [obd_hex_to_bytes] decodes holds exactly two
    non-whitespace characters per byte, and decodes to the same bytes after
    [obd_strip_whitespace]. *)
Theorem hex_to_bytes_after_strip (hex : cstring) (out_size : nat) (bytes : list Z) :
  obd_hex_to_bytes hex out_size = (OBD_OK, bytes) ->
  obd_hex_to_bytes (obd_strip_whitespace hex) out_size = (OBD_OK, bytes) /\
  List.length (obd_strip_whitespace hex) = (2 * List.length bytes)%nat.
Proof. apply hex_to_bytes_loop_strip. Qed.

Lemma hex_to_bytes_after_strip_witness :
  obd_hex_to_bytes (cstr "41 0C 1A F8") 16 = (OBD_OK, [0x41; 0x0C; 0x1A; 0xF8]) /\
  obd_hex_to_bytes (obd_strip_whitespace (cstr "41 0C 1A F8")) 16
    = (OBD_OK, [0x41; 0x0C; 0x1A; 0xF8]) /\
  List.length (obd_strip_whitespace (cstr "41 0C 1A F8")) = 8%nat.
Proof.
  assert (H : obd_hex_to_bytes (cstr "41 0C 1A F8") 16
              = (OBD_OK, [0x41; 0x0C; 0x1A; 0xF8])) by reflexivity.
  split; [exact H|]. exact (hex_to_bytes_after_strip _ _ _ H).
Defined.

(** X4.  The outcome of a successful decoding depends on the capacity only
    through the number of bytes: the same text gives the same bytes in any
    buffer that holds them, and BufferTooSmall in any smaller one. *)
Theorem hex_to_bytes_capacity (hex : cstring) (out_size : nat) (bytes : list Z)
  (out_size' : nat) :
  obd_hex_to_bytes hex out_size = (OBD_OK, bytes) ->
  ((List.length bytes <= out_size')%nat ->
   obd_hex_to_bytes hex out_size' = (OBD_OK, bytes)) /\
  ((out_size' < List.length bytes)%nat ->
   fst (obd_hex_to_bytes hex out_size') = OBD_ERROR_BUFFER_TOO_SMALL).
Proof.
  intros Hdec.
  pose proof (hex_to_bytes_loop_capacity _ _ _ _ Hdec out_size' 0%nat ltac:(lia)) as H.
  change (0 + List.length bytes)%nat with (List.length bytes) in H.
  unfold obd_hex_to_bytes.
  destruct (Nat.leb_spec (List.length bytes) out_size'); split; intros; try lia; exact H.
Qed.

Lemma hex_to_bytes_capacity_witness :
  obd_hex_to_bytes (cstr "41 0C 1A F8") 16 = (OBD_OK, [0x41; 0x0C; 0x1A; 0xF8]) /\
  obd_hex_to_bytes (cstr "41 0C 1A F8") 4 = (OBD_OK, [0x41; 0x0C; 0x1A; 0xF8]).
Proof.
  assert (H : obd_hex_to_bytes (cstr "41 0C 1A F8") 16
              = (OBD_OK, [0x41; 0x0C; 0x1A; 0xF8])) by reflexivity.
  split; [exact H|].
  apply (proj1 (hex_to_bytes_capacity _ _ _ 4%nat H)). cbn. lia.
Defined.

(** X5.  Decoding distributes over concatenation: when two texts decode,
    the first followed by the second decodes, in any buffer that holds
    both, to the bytes of the first followed by those of the second. *)
Theorem hex_to_bytes_concat (a b : cstring) (size_a size_b out_size : nat)
  (bytes_a bytes_b : list Z) :
  obd_hex_to_bytes a size_a = (OBD_OK, bytes_a) ->
  obd_hex_to_bytes b size_b = (OBD_OK, bytes_b) ->
  (List.length bytes_a + List.length bytes_b <= out_size)%nat ->
  obd_hex_to_bytes (a ++ b) out_size = (OBD_OK, bytes_a ++ bytes_b).
Proof.
  intros Ha Hb Hfit. unfold obd_hex_to_bytes in *.
  pose proof (hex_to_bytes_loop_capacity _ _ _ _ Ha out_size 0%nat ltac:(lia)) as Ha'.
  pose proof (hex_to_bytes_loop_capacity _ _ _ _ Hb out_size (List.length bytes_a)
                ltac:(lia)) as Hb'.
  cbn [Nat.add] in Ha'.
  destruct (Nat.leb_spec (List.length bytes_a) out_size); [|lia].
  destruct (Nat.leb_spec (List.length bytes_a + List.length bytes_b) out_size); [|lia].
  rewrite (hex_to_bytes_loop_app _ _ _ _ Ha'). cbn [Nat.add].
  rewrite Hb'. reflexivity.
Qed.

Lemma hex_to_bytes_concat_witness :
  obd_hex_to_bytes (cstr "41 0C ") 2 = (OBD_OK, [0x41; 0x0C]) /\
  obd_hex_to_bytes (cstr "1A F8") 2 = (OBD_OK, [0x1A; 0xF8]) /\
  obd_hex_to_bytes (cstr "41 0C " ++ cstr "1A F8") 4
    = (OBD_OK, [0x41; 0x0C] ++ [0x1A; 0xF8]).
Proof.
  assert (Ha : obd_hex_to_bytes (cstr "41 0C ") 2 = (OBD_OK, [0x41; 0x0C])) by reflexivity.
  assert (Hb : obd_hex_to_bytes (cstr "1A F8") 2 = (OBD_OK, [0x1A; 0xF8])) by reflexivity.
  split; [exact Ha|]. split; [exact Hb|].
  apply (hex_to_bytes_concat _ _ _ _ 4%nat _ _ Ha Hb). cbn. lia.
Defined.

(** X6.  Decoding is case-insensitive: lower-casing a text changes neither
    the result code nor the bytes written, whatever the text. *)
Theorem hex_to_bytes_case_insensitive (hex : cstring) (out_size : nat) :
  obd_hex_to_bytes (map to_lower hex) out_size = obd_hex_to_bytes hex out_size.
Proof. apply hex_to_bytes_loop_lower. Qed.

(** ** The encoder and the classifier *)

Section EncoderShape.

Lemma bytes_to_hex_loop_exact_length (bytes : list Z) :
  bytes <> [] ->
  (List.length (bytes_to_hex_loop bytes) + 1 = 3 * List.length bytes)%nat.
Proof.
  induction bytes as [|b rest IH]; [congruence|]. intros _.
  cbn [bytes_to_hex_loop List.length].
  destruct rest as [|b' rest'].
  - cbn. lia.
  - specialize (IH ltac:(discriminate)).
    cbn [List.length] in *. lia.
Qed.



(** The text of an encoded byte sequence: two digits, then nothing or a
    space. *)
Lemma bytes_to_hex_loop_head (b : Z) (rest : list Z) :
  exists tail,
    bytes_to_hex_loop (b :: rest)
    = hex_digit (Z.land (Z.shiftr b 4) 15) :: hex_digit (Z.land b 15) :: tail /\
    (tail = [] \/ exists more, tail = SP :: more).
Proof.
  cbn [bytes_to_hex_loop]. destruct rest as [|b' rest'].
  - exists []. split; [reflexivity | left; reflexivity].
  - eexists. split; [reflexivity | right; eauto].
Qed.

Lemma nibble_cases (i : Z) :
  0 <= i < 16 -> In i (map Z.of_nat (seq 0 16)).
Proof.
  intros Hi. apply in_map_iff. exists (Z.to_nat i). split; [lia|]. apply in_seq. lia.
Qed.

(** Two upper-case hex digits followed by nothing or by a space are
    classified Data: no token of the adapter starts that way. *)
Lemma classify_two_digits (i j : Z) (tail : cstring) :
  0 <= i < 16 -> 0 <= j < 16 ->
  tail = [] \/ (exists more, tail = SP :: more) ->
  obd_elm327_classify_response (hex_digit i :: hex_digit j :: tail)
  = OBD_ELM_RESPONSE_DATA.
Proof.
  intros Hi Hj Htail.
  pose proof (nibble_cases i Hi) as Ci. pose proof (nibble_cases j Hj) as Cj.
  cbn in Ci, Cj.
  destruct Htail as [->|[more ->]];
    repeat (destruct Ci as [<-|Ci]; [|]);
    try contradiction;
    repeat (destruct Cj as [<-|Cj]; [reflexivity|]);
    contradiction.
Qed.

Lemma skip_leading_ws_app (ws s : cstring) :
  Forall (fun c => is_whitespace c = true) ws ->
  skip_leading_ws (ws ++ s) = skip_leading_ws s.
Proof.
  induction 1 as [|c ws Hc Hws IH]; [reflexivity|].
  cbn [app skip_leading_ws]. unfold is_whitespace in Hc. rewrite Hc. exact IH.
Qed.

End EncoderShape.



(** X8.  The classification of a line does not depend on the spaces, tabs,
    CRs and LFs in front of it. *)
Theorem classify_ignores_leading_whitespace (ws line : cstring) :
  Forall (fun c => is_whitespace c = true) ws ->
  obd_elm327_classify_response (ws ++ line) = obd_elm327_classify_response line.
Proof.
  intros Hws. unfold obd_elm327_classify_response.
  rewrite (skip_leading_ws_app ws line Hws). reflexivity.
Qed.

Lemma classify_ignores_leading_whitespace_witness :
  Forall (fun c => is_whitespace c = true) [SP; TAB; CR; LF] /\
  obd_elm327_classify_response ([SP; TAB; CR; LF] ++ cstr "NO DATA")
  = OBD_ELM_RESPONSE_NO_DATA.
Proof.
  assert (H : Forall (fun c => is_whitespace c = true) [SP; TAB; CR; LF])
    by (repeat constructor).
  split; [exact H|].
  rewrite (classify_ignores_leading_whitespace _ (cstr "NO DATA") H). reflexivity.
Defined.

(** ** The response cleaner, continued *)

Section CleanerMore.

Import CleanSpec.

(** The cleaner as a pass over the lines of the transcript. *)
Lemma clean_response_by_lines (raw : cstring) (out_size : nat) :
  (0 < out_size)%nat ->
  obd_elm327_clean_response raw out_size =
    match process_lines (lines raw) out_size (state_of []) with
    | inl r => Some r
    | inr st =>
        if negb (found_data st) then Some (no_payload_error raw, [])
        else Some (OBD_OK, trim_trailing (out st))
    end.
Proof.
  intros Hsize. unfold obd_elm327_clean_response.
  destruct out_size as [|n]; [lia|]. cbn [Nat.eqb].
  rewrite clean_loop_process_lines by lia.
  change (mk_clean_state [] false) with (state_of []).
  destruct (process_lines (lines raw) (S n) (state_of [])) as [r|st]; [reflexivity|].
  destruct (found_data st); cbn [negb]; [reflexivity|].
  unfold no_payload_error.
  destruct (strstr raw (cstr "NO DATA")); [reflexivity|].
  destruct (strstr raw (cstr "?") || strstr raw (cstr "ERROR")); reflexivity.
Qed.

Lemma plain_line_no_eol (l : cstring) : plain_line l = true -> no_eol l.
Proof.
  unfold plain_line, no_eol. rewrite forallb_forall, Forall_forall.
  intros H c Hc. specialize (H c Hc).
  apply negb_true_iff, orb_false_iff in H. tauto.
Qed.

(** A plain line followed by a CR is the first line of the text. *)
Lemma lines_from_plain_cr (e rest : cstring) :
  plain_line e = true ->
  lines_from (e ++ CR :: rest) = (e, lines rest).
Proof.
  induction e as [|c e IH]; intros Hplain.
  - cbn [app lines_from]. change (is_prompt CR) with false. change (is_eol CR) with true.
    cbn iota. unfold lines. destruct (lines_from rest) as [cur ls]. reflexivity.
  - cbn [plain_line forallb] in Hplain. apply andb_true_iff in Hplain as [Hc He].
    apply negb_true_iff, orb_false_iff in Hc as [Heol Hprompt].
    cbn [app lines_from]. rewrite Hprompt, Heol, (IH He). reflexivity.
Qed.

Lemma lines_plain_cr (e rest : cstring) :
  plain_line e = true ->
  lines (e ++ CR :: rest) = cons_nonempty e (lines rest).
Proof.
  intros H. unfold lines at 1. rewrite (lines_from_plain_cr e rest H). reflexivity.
Qed.

(** Nothing behind the first prompt is a line. *)
Lemma lines_from_prompt (a b b' : cstring) :
  lines_from (a ++ ">"%char :: b) = lines_from (a ++ ">"%char :: b').
Proof.
  induction a as [|c a IH]; [reflexivity|].
  cbn [app lines_from]. rewrite IH. reflexivity.
Qed.

Lemma lines_prompt (a b b' : cstring) :
  lines (a ++ ">"%char :: b) = lines (a ++ ">"%char :: b').
Proof. unfold lines. rewrite (lines_from_prompt a b b'). reflexivity. Qed.

Lemma lines_eols_prompt (eols tail : cstring) :
  Forall (fun c => is_eol c = true) eols ->
  lines (eols ++ ">"%char :: tail) = [].
Proof.
  induction 1 as [|c eols Hc Heols IH]; [reflexivity|].
  rewrite <- lines_skip_eol. cbn [app skip_eol].
  unfold is_eol in Hc. rewrite Hc. rewrite lines_skip_eol. exact IH.
Qed.

Lemma is_prefix_across_cr (needle : cstring) :
  Forall (fun c => c <> CR) needle ->
  forall e rest, is_prefix needle (e ++ CR :: rest) = is_prefix needle e.
Proof.
  induction 1 as [|n ns Hn Hns IH]; intros e rest.
  - destruct e; reflexivity.
  - destruct e as [|c e]; cbn [app is_prefix].
    + destruct (Ascii.eqb_spec n CR) as [Heq|_]; [contradiction | reflexivity].
    + rewrite IH. reflexivity.
Qed.

(** A search for a token without CR does not match across a CR. *)
Lemma strstr_across_cr (needle e rest : cstring) :
  Forall (fun c => c <> CR) needle ->
  strstr (e ++ CR :: rest) needle = strstr e needle || strstr rest needle.
Proof.
  intros Hcr. induction e as [|c e IH].
  - pose proof (is_prefix_across_cr needle Hcr [] rest) as Hp.
    cbn [app] in Hp. cbn [app strstr]. rewrite Hp, orb_false_r. reflexivity.
  - pose proof (is_prefix_across_cr needle Hcr (c :: e) rest) as Hp.
    cbn [app] in Hp. cbn [app strstr]. rewrite Hp, IH, orb_assoc. reflexivity.
Qed.

(** A line that the cleaner drops and that holds none of the error tokens
    can be removed from the front of a transcript. *)
Lemma clean_response_skip_line (e rest : cstring) (out_size : nat) :
  plain_line e = true ->
  payload echo_below_0x40 e = None ->
  strstr e (cstr "NO DATA") = false ->
  strstr e (cstr "?") = false ->
  strstr e (cstr "ERROR") = false ->
  obd_elm327_clean_response (e ++ CR :: rest) out_size
  = obd_elm327_clean_response rest out_size.
Proof.
  intros Hplain Hdrop Hnd Hq Herr.
  destruct out_size as [|n]; [reflexivity|].
  rewrite !clean_response_by_lines by lia.
  rewrite (lines_plain_cr e rest Hplain).
  assert (Hlines : process_lines (cons_nonempty e (lines rest)) (S n) (state_of [])
                   = process_lines (lines rest) (S n) (state_of [])).
  { destruct e as [|c e']; [reflexivity|].
    cbn [cons_nonempty process_lines].
    rewrite (clean_line_payload _ _ _ (plain_line_no_eol _ Hplain)), Hdrop.
    reflexivity. }
  rewrite Hlines.
  assert (Herror : no_payload_error (e ++ CR :: rest) = no_payload_error rest).
  { unfold no_payload_error.
    assert (Hcr : forall tok, forallb (fun c => negb (Ascii.eqb c CR)) (cstr tok) = true ->
                              Forall (fun c => c <> CR) (cstr tok)).
    { intros tok Htok. apply Forall_forall. intros c Hc.
      rewrite forallb_forall in Htok. specialize (Htok c Hc).
      apply negb_true_iff in Htok. destruct (Ascii.eqb_spec c CR); congruence. }
    rewrite (strstr_across_cr (cstr "NO DATA") e rest (Hcr "NO DATA"%string eq_refl)).
    rewrite (strstr_across_cr (cstr "?") e rest (Hcr "?"%string eq_refl)).
    rewrite (strstr_across_cr (cstr "ERROR") e rest (Hcr "ERROR"%string eq_refl)).
    rewrite Hnd, Hq, Herr. reflexivity. }
  rewrite Herror. reflexivity.
Qed.

End CleanerMore.

Section CleanerReplies.

Import CleanSpec.

Lemma lines_from_plain_eol (e : cstring) (c : ascii) (rest : cstring) :
  plain_line e = true -> is_eol c = true ->
  lines_from (e ++ c :: rest) = (e, lines rest).
Proof.
  intros Hplain Hc. induction e as [|a e IH].
  - cbn [app lines_from].
    assert (Hp : is_prompt c = false).
    { unfold is_eol, is_prompt in *.
      destruct (Ascii.eqb_spec c ">") as [->|]; [discriminate Hc | reflexivity]. }
    rewrite Hp, Hc. unfold lines. destruct (lines_from rest) as [cur ls]. reflexivity.
  - cbn [plain_line forallb] in Hplain. apply andb_true_iff in Hplain as [Ha He].
    apply negb_true_iff, orb_false_iff in Ha as [Heol Hprompt].
    cbn [app lines_from]. rewrite Hprompt, Heol, (IH He). reflexivity.
Qed.

Lemma lines_from_plain_prompt (e tail : cstring) :
  plain_line e = true -> lines_from (e ++ ">"%char :: tail) = (e, []).
Proof.
  intros Hplain. induction e as [|a e IH]; [reflexivity|].
  cbn [plain_line forallb] in Hplain. apply andb_true_iff in Hplain as [Ha He].
  apply negb_true_iff, orb_false_iff in Ha as [Heol Hprompt].
  cbn [app lines_from]. rewrite Hprompt, Heol, (IH He). reflexivity.
Qed.

(** A plain line closed by separators and the prompt is the only line. *)
Lemma lines_single_reply (e eols tail : cstring) :
  plain_line e = true -> e <> [] ->
  Forall (fun c => is_eol c = true) eols ->
  lines (e ++ eols ++ ">"%char :: tail) = [e].
Proof.
  intros Hplain Hne Heols. unfold lines.
  destruct Heols as [|c eols Hc Heols].
  - cbn [app]. rewrite (lines_from_plain_prompt e tail Hplain).
    destruct e; [contradiction | reflexivity].
  - cbn [app]. rewrite (lines_from_plain_eol e c _ Hplain Hc).
    rewrite (lines_eols_prompt eols tail Heols).
    destruct e; [contradiction | reflexivity].
Qed.

Lemma hex_digit_plain (i : Z) :
  0 <= i < 16 ->
  negb (is_eol (hex_digit i) || is_prompt (hex_digit i)) = true /\
  (Ascii.eqb (hex_digit i) SP || Ascii.eqb (hex_digit i) TAB) = false.
Proof.
  intros Hi. pose proof (nibble_cases i Hi) as Ci. cbn in Ci.
  repeat (destruct Ci as [<-|Ci]; [split; reflexivity|]). contradiction.
Qed.

Lemma bytes_to_hex_loop_plain (bytes : list Z) :
  Forall is_byte bytes -> plain_line (bytes_to_hex_loop bytes) = true.
Proof.
  induction 1 as [|b rest Hb Hrest IH]; [reflexivity|].
  cbn [bytes_to_hex_loop plain_line forallb].
  rewrite (proj1 (hex_digit_plain _ (high_nibble_range b Hb))).
  rewrite (proj1 (hex_digit_plain _ (low_nibble_range b))).
  destruct rest; [reflexivity|]. exact IH.
Qed.

(** The encoder never ends a text with a blank. *)
Lemma bytes_to_hex_loop_last (bytes : list Z) :
  Forall is_byte bytes -> bytes <> [] ->
  exists s i, bytes_to_hex_loop bytes = s ++ [hex_digit i] /\ 0 <= i < 16.
Proof.
  induction 1 as [|b rest Hb Hrest IH]; [congruence|]. intros _.
  cbn [bytes_to_hex_loop]. destruct rest as [|b' rest'].
  - exists [hex_digit (Z.land (Z.shiftr b 4) 15)], (Z.land b 15).
    split; [reflexivity | apply low_nibble_range].
  - destruct (IH ltac:(discriminate)) as (s & i & Hs & Hi).
    exists (hex_digit (Z.land (Z.shiftr b 4) 15) :: hex_digit (Z.land b 15) :: SP :: s), i.
    rewrite Hs. split; [reflexivity | exact Hi].
Qed.

Lemma trim_trailing_snoc (s : cstring) (c : ascii) :
  (Ascii.eqb c SP || Ascii.eqb c TAB) = false ->
  trim_trailing (s ++ [c]) = s ++ [c].
Proof.
  intros Hc. unfold trim_trailing. rewrite rev_app_distr. cbn [rev app skip_blanks].
  rewrite Hc. cbn [rev]. rewrite rev_involutive. reflexivity.
Qed.

Lemma trim_trailing_encoded (bytes : list Z) :
  Forall is_byte bytes ->
  trim_trailing (bytes_to_hex_loop bytes) = bytes_to_hex_loop bytes.
Proof.
  intros Hb. destruct bytes as [|b rest]; [reflexivity|].
  destruct (bytes_to_hex_loop_last (b :: rest) Hb ltac:(discriminate)) as (s & i & -> & Hi).
  apply trim_trailing_snoc, (proj2 (hex_digit_plain i Hi)).
Qed.

Lemma byte_of_nibbles (b : Z) :
  is_byte b -> 16 * Z.land (Z.shiftr b 4) 15 + Z.land b 15 = b.
Proof.
  intros Hb. pose proof (nibbles_recombine b Hb) as H.
  rewrite nibbles_to_byte in H
    by (apply high_nibble_range, Hb || apply low_nibble_range).
  pose proof (high_nibble_range b Hb). pose proof (low_nibble_range b).
  change 255 with (Z.ones 8) in H. rewrite Z.land_ones in H by lia.
  rewrite Z.mod_small in H by lia. exact H.
Qed.

(** An encoded byte sequence whose first byte is 0x40 or more survives the
    cleaning as it is. *)
Lemma payload_encoded (b : Z) (rest : list Z) :
  Forall is_byte (b :: rest) -> 0x40 <= b ->
  payload echo_below_0x40 (bytes_to_hex_loop (b :: rest))
  = Some (bytes_to_hex_loop (b :: rest)).
Proof.
  intros Hbytes Hb. inversion Hbytes as [|? ? Hbyte _]; subst.
  destruct (bytes_to_hex_loop_head b rest) as (tail & Hhead & Htail).
  pose proof (high_nibble_range b Hbyte) as Hhi.
  pose proof (low_nibble_range b) as Hlo.
  unfold payload. rewrite Hhead.
  cbn [skip_blanks]. rewrite (proj2 (hex_digit_plain _ Hhi)).
  rewrite (classify_two_digits _ _ tail Hhi Hlo Htail).
  unfold first_byte.
  rewrite (nibble_of_hex_digit _ Hhi), (nibble_of_hex_digit _ Hlo).
  destruct (Z.leb_spec 0 (Z.land (Z.shiftr b 4) 15)); [|lia].
  destruct (Z.leb_spec 0 (Z.land b 15)); [|lia].
  cbn [andb]. rewrite (byte_of_nibbles b Hbyte).
  unfold echo_below_0x40. destruct (Z.ltb_spec b 64); [lia | reflexivity].
Qed.

(** The request for a mode below 0x40 is dropped by the cleaner and holds
    no error token; checked on all modes and pids. *)
Lemma pid_request_echo_all :
  forallb
    (fun m =>
       forallb
         (fun p =>
            (0x40 <=? m)
            || (let e := fmt_02X m ++ fmt_02X p in
                plain_line e
                && match payload echo_below_0x40 e with None => true | Some _ => false end
                && negb (strstr e (cstr "NO DATA"))
                && negb (strstr e (cstr "?"))
                && negb (strstr e (cstr "ERROR"))))
         all_bytes)
    all_bytes = true.
Proof. vm_compute. reflexivity. Qed.

Lemma pid_request_echo (m p : Z) :
  is_byte m -> m < 0x40 -> is_byte p ->
  let e := fmt_02X m ++ fmt_02X p in
  plain_line e = true /\ payload echo_below_0x40 e = None /\
  strstr e (cstr "NO DATA") = false /\ strstr e (cstr "?") = false /\
  strstr e (cstr "ERROR") = false.
Proof.
  intros Hm Hlt Hp.
  pose proof (byte_cases _ pid_request_echo_all m Hm) as H. cbv beta in H.
  pose proof (byte_cases _ H p Hp) as H'. cbv beta in H'.
  destruct (Z.leb_spec 0x40 m); [lia|]. cbn [orb] in H'.
  cbv zeta in *.
  apply andb_true_iff in H' as [H' H5]. apply andb_true_iff in H' as [H' H4].
  apply andb_true_iff in H' as [H' H3]. apply andb_true_iff in H' as [H1 H2].
  apply negb_true_iff in H3, H4, H5.
  destruct (payload echo_below_0x40 (fmt_02X m ++ fmt_02X p)); [discriminate|].
  auto.
Qed.

(** A reply printed by the encoder is cleaned to itself when it fits. *)
Lemma encoded_reply_cleaned (b : Z) (rest : list Z) (eols tail : cstring)
  (out_size : nat) :
  Forall is_byte (b :: rest) -> 0x40 <= b ->
  Forall (fun c => is_eol c = true) eols ->
  (3 * List.length (b :: rest) <= out_size)%nat ->
  obd_elm327_clean_response
    (bytes_to_hex_loop (b :: rest) ++ eols ++ ">"%char :: tail) out_size
  = Some (OBD_OK, bytes_to_hex_loop (b :: rest)).
Proof.
  intros Hbytes Hb Heols Hsize.
  pose proof (bytes_to_hex_loop_exact_length (b :: rest) ltac:(discriminate)) as Hlen.
  destruct (clean_response_surviving
              (bytes_to_hex_loop (b :: rest) ++ eols ++ ">"%char :: tail) out_size
              ltac:(cbn [List.length] in Hsize; lia)) as (_ & Hok & _).
  unfold CleanSpec.surviving in Hok.
  assert (Hne : bytes_to_hex_loop (b :: rest) <> [])
    by (cbn [bytes_to_hex_loop]; discriminate).
  rewrite (lines_single_reply _ eols tail (bytes_to_hex_loop_plain _ Hbytes) Hne Heols)
    in Hok.
  cbn [CleanSpec.kept] in Hok. rewrite (payload_encoded b rest Hbytes Hb) in Hok.
  cbn [CleanSpec.join_cr] in Hok.
  rewrite Hok; [|discriminate|lia].
  rewrite (trim_trailing_encoded _ Hbytes). reflexivity.
Qed.

Lemma pid_build_request_text (mode pid : Z) (out_size : nat) (text : cstring) :
  obd_pid_build_request mode pid out_size = (OBD_OK, Some text) ->
  text = (fmt_02X mode ++ fmt_02X pid) ++ [CR].
Proof.
  unfold obd_pid_build_request.
  destruct (out_size =? 0)%nat; [discriminate|].
  destruct (out_size <? 6)%nat; [discriminate|].
  destruct (out_size <=? _)%nat; [discriminate|].
  intros H. injection H as <-. rewrite <- app_assoc. reflexivity.
Qed.

End CleanerReplies.

(** X9.  The echo of a command does not change what the cleaner returns:
    for every command string the library builds (the six AT commands, a
    PID request for a mode below 0x40, the DTC request and the VIN
    request) and every text [rest], cleaning the command followed by
    [rest] gives the result and the payload that cleaning [rest] gives. *)
Theorem clean_response_ignores_request_echo (req rest : cstring) (out_size : nat) :
  built_request req ->
  obd_elm327_clean_response (req ++ rest) out_size
  = obd_elm327_clean_response rest out_size.
Proof.
  intros Hreq.
  assert (Hskip : forall e, req = e ++ [CR] ->
                            plain_line e = true ->
                            CleanSpec.payload CleanSpec.echo_below_0x40 e = None ->
                            strstr e (cstr "NO DATA") = false ->
                            strstr e (cstr "?") = false ->
                            strstr e (cstr "ERROR") = false ->
                            obd_elm327_clean_response (req ++ rest) out_size
                            = obd_elm327_clean_response rest out_size).
  { intros e -> H1 H2 H3 H4 H5. rewrite <- app_assoc. cbn [app].
    apply clean_response_skip_line; assumption. }
  destruct Hreq as [ | | | | | | m p n text Hm Hlt Hp Hbuild | n text Hbuild | n text Hbuild].
  - apply (Hskip (cstr "ATZ")); reflexivity.
  - apply (Hskip (cstr "ATE0")); reflexivity.
  - apply (Hskip (cstr "ATL0")); reflexivity.
  - apply (Hskip (cstr "ATSP0")); reflexivity.
  - apply (Hskip (cstr "ATH1")); reflexivity.
  - apply (Hskip (cstr "ATH0")); reflexivity.
  - unfold obd_pid_build_request in Hbuild.
    destruct (n =? 0)%nat; [discriminate|].
    destruct (n <? 6)%nat; [discriminate|].
    destruct (n <=? _)%nat in Hbuild; [discriminate|].
    injection Hbuild as <-.
    destruct (pid_request_echo m p Hm Hlt Hp) as (H1 & H2 & H3 & H4 & H5).
    apply (Hskip (fmt_02X m ++ fmt_02X p)); try assumption.
    rewrite <- app_assoc. reflexivity.
  - unfold obd_dtc_build_request in Hbuild.
    destruct (n =? 0)%nat; [discriminate|].
    destruct (n <? 4)%nat; [discriminate|].
    injection Hbuild as <-. apply (Hskip (cstr "03")); reflexivity.
  - unfold Vin.obd_vin_build_request in Hbuild.
    destruct (n =? 0)%nat; [discriminate|].
    destruct (n <? 6)%nat; [discriminate|].
    injection Hbuild as <-. apply (Hskip (cstr "0902")); reflexivity.
Qed.

Lemma clean_response_ignores_request_echo_witness :
  built_request (cstr "010C" ++ [CR]) /\
  obd_elm327_clean_response
    ((cstr "010C" ++ [CR]) ++ cstr "41 0C 1A F8" ++ [CR; CR] ++ cstr ">") 256
  = Some (OBD_OK, cstr "41 0C 1A F8").
Proof.
  assert (H : built_request (cstr "010C" ++ [CR])).
  { apply (built_pid 0x01 0x0C 16); try (unfold is_byte; lia). reflexivity. }
  split; [exact H|].
  rewrite (clean_response_ignores_request_echo _ _ 256 H). reflexivity.
Defined.


(** ** PID requests and responses, continued *)

Section PidMore.

Lemma fmt_02X_encoded (v : Z) : fmt_02X v = bytes_to_hex_loop [v].
Proof. reflexivity. Qed.

Lemma pid_request_decodes (mode pid : Z) :
  is_byte mode -> is_byte pid ->
  obd_hex_to_bytes (fmt_02X mode ++ fmt_02X pid ++ [CR]) 2 = (OBD_OK, [mode; pid]).
Proof.
  intros Hm Hp. unfold obd_hex_to_bytes.
  assert (Hdm : hex_to_bytes_loop (fmt_02X mode) 2 0 = (OBD_OK, [mode])).
  { rewrite fmt_02X_encoded. apply decode_encode_loop; [constructor; [assumption | constructor]|].
    cbn. lia. }
  assert (Hdp : hex_to_bytes_loop (fmt_02X pid) 2 1 = (OBD_OK, [pid])).
  { rewrite fmt_02X_encoded. apply decode_encode_loop; [constructor; [assumption | constructor]|].
    cbn. lia. }
  rewrite (hex_to_bytes_loop_app _ _ _ _ Hdm). cbn [List.length Nat.add].
  rewrite (hex_to_bytes_loop_app _ _ _ _ Hdp). reflexivity.
Qed.

Lemma pid_parse_encoded_bytes (mode pid : Z) (data : list Z) :
  Forall is_byte (mode :: pid :: data) ->
  (List.length data <= OBD_MAX_DATA_BYTES)%nat ->
  obd_pid_parse_response (bytes_to_hex_loop (mode :: pid :: data))
  = (OBD_OK,
     Some (mk_pid_response mode pid
             (data ++ repeat 0 (OBD_MAX_DATA_BYTES - List.length data))
             (List.length data))).
Proof.
  intros Hbytes Hlen.
  assert (Hdec : obd_hex_to_bytes (bytes_to_hex_loop (mode :: pid :: data))
                   (2 + List.length data) = (OBD_OK, mode :: pid :: data)).
  { apply decode_encode_loop; [exact Hbytes | cbn [List.length]; lia]. }
  rewrite (pid_parse_response_by_length _ _ _ Hdec) by (cbn [List.length]; lia).
  cbn [List.length nth skipn].
  destruct (Nat.leb_spec (S (S (List.length data))) (2 + OBD_MAX_DATA_BYTES)); [|lia].
  replace (S (S (List.length data)) - 2)%nat with (List.length data) by lia.
  reflexivity.
Qed.

Lemma padded_data (rest : list Z) (n : nat) :
  Forall is_byte rest -> (List.length rest <= n)%nat ->
  Forall is_byte (rest ++ repeat 0 (n - List.length rest)) /\
  List.length (rest ++ repeat 0 (n - List.length rest)) = n /\
  skipn (List.length rest) (rest ++ repeat 0 (n - List.length rest))
  = repeat 0 (n - List.length rest).
Proof.
  intros Hrest Hlen. split; [|split].
  - apply Forall_app. split; [exact Hrest|].
    apply Forall_forall. intros x Hx. apply repeat_spec in Hx. subst x.
    unfold is_byte. lia.
  - rewrite length_app, repeat_length. lia.
  - rewrite skipn_app, skipn_all, Nat.sub_diag. reflexivity.
Qed.

End PidMore.

(** X10.  [obd_pid_build_request] rejects an empty buffer with InvalidArg
    and one of fewer than 6 bytes with BufferTooSmall, writing nothing;
    otherwise it writes 5 characters, which [obd_hex_to_bytes] decodes back
    to the mode and the pid (the closing CR being whitespace to it). *)
Theorem pid_build_request_round_trip (mode pid : Z) (out_size : nat) :
  is_byte mode -> is_byte pid ->
  (out_size = 0%nat ->
   obd_pid_build_request mode pid out_size = (OBD_ERROR_INVALID_ARG, None)) /\
  ((0 < out_size < 6)%nat ->
   obd_pid_build_request mode pid out_size = (OBD_ERROR_BUFFER_TOO_SMALL, None)) /\
  ((6 <= out_size)%nat ->
   exists text,
     obd_pid_build_request mode pid out_size = (OBD_OK, Some text) /\
     List.length text = 5%nat /\
     obd_hex_to_bytes text 2 = (OBD_OK, [mode; pid])).
Proof.
  intros Hm Hp. unfold obd_pid_build_request.
  split; [intros ->; reflexivity|]. split.
  - intros Hsmall. destruct out_size as [|n]; [lia|]. cbn [Nat.eqb].
    destruct (Nat.ltb_spec (S n) 6); [reflexivity | lia].
  - intros Hbig. destruct out_size as [|n]; [lia|]. cbn [Nat.eqb].
    destruct (Nat.ltb_spec (S n) 6); [lia|].
    cbn [fmt_02X app List.length].
    destruct (Nat.leb_spec (S n) 5); [lia|].
    eexists. split; [reflexivity|]. split; [reflexivity|].
    exact (pid_request_decodes mode pid Hm Hp).
Qed.

Lemma pid_build_request_round_trip_witness :
  is_byte 0x01 /\ is_byte 0x0C /\
  obd_pid_build_request 0x01 0x0C 3 = (OBD_ERROR_BUFFER_TOO_SMALL, None) /\
  exists text,
    obd_pid_build_request 0x01 0x0C 16 = (OBD_OK, Some text) /\
    List.length text = 5%nat /\
    obd_hex_to_bytes text 2 = (OBD_OK, [0x01; 0x0C]).
Proof.
  assert (H1 : is_byte 0x01) by (unfold is_byte; lia).
  assert (H2 : is_byte 0x0C) by (unfold is_byte; lia).
  split; [exact H1|]. split; [exact H2|].
  split.
  - apply (proj1 (proj2 (pid_build_request_round_trip 0x01 0x0C 3 H1 H2))). lia.
  - apply (proj2 (proj2 (pid_build_request_round_trip 0x01 0x0C 16 H1 H2))). lia.
Defined.

(** X11.  Parsing undoes encoding: for a mode, a pid and up to 7 data
    bytes, [obd_pid_parse_response] on the text [obd_bytes_to_hex] prints
    for them returns OK with that mode, that pid, [data_len] the number of
    data bytes, and the data bytes followed by zeros in [data]. *)
Theorem pid_parse_response_round_trip (mode pid : Z) (data : list Z) (hex_size : nat) :
  Forall is_byte (mode :: pid :: data) ->
  (List.length data <= OBD_MAX_DATA_BYTES)%nat ->
  (3 * (2 + List.length data) <= hex_size)%nat ->
  exists hex,
    obd_bytes_to_hex (mode :: pid :: data) hex_size = (OBD_OK, Some hex) /\
    obd_pid_parse_response hex
    = (OBD_OK,
       Some (mk_pid_response mode pid
               (data ++ repeat 0 (OBD_MAX_DATA_BYTES - List.length data))
               (List.length data))).
Proof.
  intros Hbytes Hlen Hsize.
  exists (bytes_to_hex_loop (mode :: pid :: data)). split.
  - unfold obd_bytes_to_hex. cbn [List.length Nat.eqb].
    destruct (Nat.ltb_spec hex_size (S (S (List.length data)) * 3)); [lia | reflexivity].
  - apply pid_parse_encoded_bytes; assumption.
Qed.

Lemma pid_parse_response_round_trip_witness :
  Forall is_byte [0x41; 0x0C; 0x1A; 0xF8] /\
  (List.length [0x1A; 0xF8] <= OBD_MAX_DATA_BYTES)%nat /\
  (3 * (2 + List.length [0x1A; 0xF8]) <= 12)%nat /\
  exists hex,
    obd_bytes_to_hex [0x41; 0x0C; 0x1A; 0xF8] 12 = (OBD_OK, Some hex) /\
    obd_pid_parse_response hex
    = (OBD_OK, Some (mk_pid_response 0x41 0x0C [0x1A; 0xF8; 0; 0; 0; 0; 0] 2)).
Proof.
  assert (H1 : Forall is_byte [0x41; 0x0C; 0x1A; 0xF8])
    by (repeat constructor; unfold is_byte; lia).
  assert (H2 : (List.length [0x1A; 0xF8] <= OBD_MAX_DATA_BYTES)%nat)
    by (unfold OBD_MAX_DATA_BYTES; cbn; lia).
  assert (H3 : (3 * (2 + List.length [0x1A; 0xF8]) <= 12)%nat) by (cbn; lia).
  split; [exact H1|]. split; [exact H2|]. split; [exact H3|].
  exact (pid_parse_response_round_trip 0x41 0x0C [0x1A; 0xF8] 12 H1 H2 H3).
Defined.

(** X12.  Whatever the text, [obd_pid_parse_response] returns OK,
    InvalidHex, BufferTooSmall or ParseFailed, and writes a response
    exactly when it returns OK; the response then has mode, pid and data
    bytes in [0, 256), [data_len] at most 7, an array [data] of 7 bytes,
    and zeros from index [data_len] on. *)
Theorem pid_parse_response_outcomes (response : cstring) :
  let r := fst (obd_pid_parse_response response) in
  let out := snd (obd_pid_parse_response response) in
  (r = OBD_OK \/ r = OBD_ERROR_INVALID_HEX \/ r = OBD_ERROR_BUFFER_TOO_SMALL
   \/ r = OBD_ERROR_PARSE_FAILED) /\
  (r = OBD_OK <-> out <> None) /\
  (forall resp,
     out = Some resp ->
     is_byte (mode resp) /\ is_byte (pid resp) /\ Forall is_byte (data resp) /\
     (data_len resp <= OBD_MAX_DATA_BYTES)%nat /\
     List.length (data resp) = OBD_MAX_DATA_BYTES /\
     skipn (data_len resp) (data resp)
     = repeat 0 (OBD_MAX_DATA_BYTES - data_len resp)).
Proof.
  cbv zeta. unfold obd_pid_parse_response.
  pose proof (hex_to_bytes_result_facts response (2 + OBD_MAX_DATA_BYTES)) as Hout.
  cbv zeta in Hout.
  destruct (obd_hex_to_bytes response (2 + OBD_MAX_DATA_BYTES)) as [r bytes].
  cbn [fst snd] in Hout. destruct Hout as (Hcode & Hlen & Hbytes & _).
  destruct r; cbn [fst snd];
    try (split; [tauto|]; split; [split; [discriminate | congruence] | discriminate]);
    try (exfalso; destruct Hcode as [H|[H|H]]; discriminate H).
  destruct (Nat.ltb_spec (List.length bytes) 2) as [Hshort|Hlong]; cbn [fst snd].
  - split; [tauto|]. split; [split; [discriminate | congruence] | discriminate].
  - split; [tauto|]. split; [split; [discriminate | reflexivity]|].
    intros resp Hresp. injection Hresp as <-. cbn [mode pid data data_len].
    assert (Hmax : OBD_MAX_DATA_BYTES = 7%nat) by reflexivity.
    destruct (Nat.ltb_spec OBD_MAX_DATA_BYTES (List.length bytes - 2)); [lia|].
    destruct bytes as [|b0 [|b1 rest]]; cbn [List.length] in *; try lia.
    inversion Hbytes as [|? ? Hb0 Hrest0]; subst.
    inversion Hrest0 as [|? ? Hb1 Hrest]; subst.
    cbn [nth skipn].
    replace (S (S (List.length rest)) - 2)%nat with (List.length rest) by lia.
    rewrite firstn_all.
    destruct (padded_data rest OBD_MAX_DATA_BYTES Hrest ltac:(lia)) as (P1 & P2 & P3).
    split; [exact Hb0|]. split; [exact Hb1|]. split; [exact P1|].
    split; [lia|]. split; [exact P2 | exact P3].
Qed.

Lemma pid_parse_response_outcomes_witness :
  snd (obd_pid_parse_response (cstr "41 0C 1A F8"))
    = Some (mk_pid_response 0x41 0x0C [0x1A; 0xF8; 0; 0; 0; 0; 0] 2) /\
  skipn 2 [0x1A; 0xF8; 0; 0; 0; 0; 0] = repeat 0 (OBD_MAX_DATA_BYTES - 2).
Proof.
  split; [reflexivity|].
  destruct (proj2 (proj2 (pid_parse_response_outcomes (cstr "41 0C 1A F8"))) _ eq_refl)
    as (_ & _ & _ & _ & _ & H).
  exact H.
Defined.

(** X13.  A request and its reply go through the whole chain: for a
    request mode below 0x40, a pid and up to 7 data bytes, the transcript
    made of the request [obd_pid_build_request] builds (echoed by the
    adapter), the reply (mode + 0x40, pid, data) as printed by the encoder,
    CRs or LFs and the prompt is cleaned to a text that
    [obd_pid_parse_response] parses to exactly that mode, pid and data. *)
Theorem pid_transcript_round_trip (req_mode pid : Z) (data : list Z)
  (req_size out_size : nat) (request eols tail : cstring) :
  is_byte req_mode -> req_mode < 0x40 -> Forall is_byte (pid :: data) ->
  (List.length data <= OBD_MAX_DATA_BYTES)%nat ->
  obd_pid_build_request req_mode pid req_size = (OBD_OK, Some request) ->
  Forall (fun c => CleanSpec.is_eol c = true) eols ->
  (3 * (2 + List.length data) <= out_size)%nat ->
  exists hex,
    obd_elm327_clean_response
      (request ++ bytes_to_hex_loop (req_mode + 0x40 :: pid :: data)
       ++ eols ++ ">"%char :: tail) out_size
    = Some (OBD_OK, hex) /\
    obd_pid_parse_response hex
    = (OBD_OK,
       Some (mk_pid_response (req_mode + 0x40) pid
               (data ++ repeat 0 (OBD_MAX_DATA_BYTES - List.length data))
               (List.length data))).
Proof.
  intros Hmode Hlt Hrest Hlen Hreq Heols Hsize.
  inversion Hrest as [|? ? Hpid Hdata]; subst.
  assert (Hreply : Forall is_byte (req_mode + 0x40 :: pid :: data)).
  { constructor; [unfold is_byte in *; lia | exact Hrest]. }
  exists (bytes_to_hex_loop (req_mode + 0x40 :: pid :: data)). split.
  - rewrite (pid_build_request_text _ _ _ _ Hreq), <- app_assoc. cbn [app].
    destruct (pid_request_echo req_mode pid Hmode Hlt Hpid) as (E1 & E2 & E3 & E4 & E5).
    rewrite (clean_response_skip_line _ _ out_size E1 E2 E3 E4 E5).
    apply encoded_reply_cleaned; try assumption.
    unfold is_byte in Hmode. lia.
  - apply pid_parse_encoded_bytes; assumption.
Qed.

Lemma pid_transcript_round_trip_witness :
  is_byte 0x01 /\ 0x01 < 0x40 /\ Forall is_byte [0x0C; 0x1A; 0xF8] /\
  (List.length [0x1A; 0xF8] <= OBD_MAX_DATA_BYTES)%nat /\
  obd_pid_build_request 0x01 0x0C 16 = (OBD_OK, Some (cstr "010C" ++ [CR])) /\
  Forall (fun c => CleanSpec.is_eol c = true) [CR; CR] /\
  (3 * (2 + List.length [0x1A; 0xF8]) <= 256)%nat /\
  exists hex,
    obd_elm327_clean_response test_raw_rpm_response 256 = Some (OBD_OK, hex) /\
    obd_pid_parse_response hex
    = (OBD_OK, Some (mk_pid_response 0x41 0x0C [0x1A; 0xF8; 0; 0; 0; 0; 0] 2)).
Proof.
  assert (H1 : is_byte 0x01) by (unfold is_byte; lia).
  assert (H2 : 0x01 < 0x40) by lia.
  assert (H3 : Forall is_byte [0x0C; 0x1A; 0xF8])
    by (repeat constructor; unfold is_byte; lia).
  assert (H4 : (List.length [0x1A; 0xF8] <= OBD_MAX_DATA_BYTES)%nat)
    by (unfold OBD_MAX_DATA_BYTES; cbn; lia).
  assert (H5 : obd_pid_build_request 0x01 0x0C 16 = (OBD_OK, Some (cstr "010C" ++ [CR])))
    by reflexivity.
  assert (H6 : Forall (fun c => CleanSpec.is_eol c = true) [CR; CR])
    by (repeat constructor).
  assert (H7 : (3 * (2 + List.length [0x1A; 0xF8]) <= 256)%nat) by (cbn; lia).
  split; [exact H1|]. split; [exact H2|]. split; [exact H3|]. split; [exact H4|].
  split; [exact H5|]. split; [exact H6|]. split; [exact H7|].
  exact (pid_transcript_round_trip 0x01 0x0C [0x1A; 0xF8] 16 256 _ [CR; CR] [] 
           H1 H2 H3 H4 H5 H6 H7).
Defined.

(** ** The sensor table, continued *)

Section SensorMore.

(** The formulas read [data[0]], and [data[1]] for the two-byte ones. *)
Lemma formulas_read_two_bytes (data : list Z) (data_len : nat) :
  let d := [nth 0 data 0; nth 1 data 0] in
  formula_percent data data_len = formula_percent d 2 /\
  formula_temp_offset40 data data_len = formula_temp_offset40 d 2 /\
  formula_rpm data data_len = formula_rpm d 2 /\
  formula_direct data data_len = formula_direct d 2 /\
  formula_timing_advance data data_len = formula_timing_advance d 2 /\
  formula_maf data data_len = formula_maf d 2 /\
  formula_fuel_pressure data data_len = formula_fuel_pressure d 2 /\
  formula_o2_voltage data data_len = formula_o2_voltage d 2 /\
  formula_runtime data data_len = formula_runtime d 2 /\
  formula_dtc_count data data_len = formula_dtc_count d 2 /\
  formula_fuel_trim data data_len = formula_fuel_trim d 2.
Proof. repeat split. Qed.

Lemma exact_formulas_one_byte :
  forallb
    (fun a =>
       let d := [a] in
       float_is (formula_temp_offset40 d 1) (a - 40) 1
       && float_is (formula_direct d 1) a 1
       && float_is (formula_timing_advance d 1) (a - 128) 2
       && float_is (formula_fuel_pressure d 1) (a * 3) 1
       && float_is (formula_dtc_count d 1) (a mod 128) 1
       && float_is (formula_fuel_trim d 1) ((a - 128) * 100) 128
       && float_near (formula_percent d 1) (a * 100) 255 24
       && float_near (formula_o2_voltage d 1) a 200 24)
    all_bytes = true.
Proof. vm_compute. reflexivity. Qed.

Lemma exact_formulas_two_bytes :
  forallb
    (fun a =>
       forallb
         (fun b =>
            let d := [a; b] in
            float_is (formula_rpm d 2) (a * 256 + b) 4
            && float_is (formula_runtime d 2) (a * 256 + b) 1
            && float_near (formula_maf d 2) (a * 256 + b) 100 24)
         all_bytes)
    all_bytes = true.
Proof. vm_compute. reflexivity. Qed.

(** The one-byte formulas read [data[0]] only. *)
Lemma formulas_read_one_byte (data : list Z) (data_len : nat) :
  let d := [nth 0 data 0] in
  formula_percent data data_len = formula_percent d 1 /\
  formula_temp_offset40 data data_len = formula_temp_offset40 d 1 /\
  formula_direct data data_len = formula_direct d 1 /\
  formula_timing_advance data data_len = formula_timing_advance d 1 /\
  formula_fuel_pressure data data_len = formula_fuel_pressure d 1 /\
  formula_o2_voltage data data_len = formula_o2_voltage d 1 /\
  formula_dtc_count data data_len = formula_dtc_count d 1 /\
  formula_fuel_trim data data_len = formula_fuel_trim d 1.
Proof. repeat split. Qed.

(** No name or unit of the table is cut by the copy into the 32-byte and
    8-byte fields of [obd_sensor_value_t]. *)
Lemma sensor_table_fits :
  forallb
    (fun e =>
       (List.length (e_name e) <? 32)%nat && (List.length (e_unit e) <? 8)%nat
       && (1 <=? byte_count e)%nat && (byte_count e <=? 4)%nat)
    sensor_table = true.
Proof. reflexivity. Qed.

Lemma sensor_entry_fits (e : sensor_entry_t) :
  In e sensor_table ->
  (List.length (e_name e) < 32)%nat /\ (List.length (e_unit e) < 8)%nat /\
  (1 <= byte_count e <= 4)%nat.
Proof.
  intros Hin. pose proof sensor_table_fits as H.
  rewrite forallb_forall in H. specialize (H e Hin).
  apply andb_true_iff in H as [H H4]. apply andb_true_iff in H as [H H3].
  apply andb_true_iff in H as [H1 H2].
  apply Nat.ltb_lt in H1, H2. apply Nat.leb_le in H3, H4. lia.
Qed.

End SensorMore.

(** X14.  Eight of the formulas are computed without rounding: with A and
    B the first two data bytes, the float returned is exactly A - 40
    (temperature), (256 A + B) / 4 (rpm), A (direct), A / 2 - 64 (timing
    advance), 3 A (fuel pressure), 256 A + B (run time), A mod 128 (DTC
    count) and 100 (A - 128) / 128 (fuel trim). *)
Theorem sensor_formulas_exact (data : list Z) (data_len : nat) :
  let A := nth 0 data 0 in
  let B := nth 1 data 0 in
  is_byte A -> is_byte B ->
  float_is (formula_temp_offset40 data data_len) (A - 40) 1 = true /\
  float_is (formula_rpm data data_len) (256 * A + B) 4 = true /\
  float_is (formula_direct data data_len) A 1 = true /\
  float_is (formula_timing_advance data data_len) (A - 128) 2 = true /\
  float_is (formula_fuel_pressure data data_len) (3 * A) 1 = true /\
  float_is (formula_runtime data data_len) (256 * A + B) 1 = true /\
  float_is (formula_dtc_count data data_len) (A mod 128) 1 = true /\
  float_is (formula_fuel_trim data data_len) (100 * (A - 128)) 128 = true.
Proof.
  intros A B HA HB.
  pose proof (byte_cases _ exact_formulas_one_byte A HA) as H1. cbv beta zeta in H1.
  pose proof (byte_cases _ exact_formulas_two_bytes A HA) as H2. cbv beta in H2.
  pose proof (byte_cases _ H2 B HB) as H2'. cbv beta zeta in H2'.
  destruct (formulas_read_two_bytes data data_len)
    as (_ & _ & -> & _ & _ & _ & _ & _ & -> & _).
  destruct (formulas_read_one_byte data data_len)
    as (_ & -> & -> & -> & -> & _ & -> & ->).
  fold A B.
  replace (256 * A + B) with (A * 256 + B) by lia.
  replace (3 * A) with (A * 3) by lia.
  replace (100 * (A - 128)) with ((A - 128) * 100) by lia.
  repeat (apply andb_true_iff in H1 as [H1 ?]).
  repeat (apply andb_true_iff in H2' as [H2' ?]).
  repeat split; assumption.
Qed.

Lemma sensor_formulas_exact_witness :
  is_byte 0x1A /\ is_byte 0xF8 /\
  float_is (formula_rpm [0x1A; 0xF8] 2) 6904 4 = true /\
  formula_rpm [0x1A; 0xF8] 2 = f_of_int 1726.
Proof.
  assert (HA : is_byte 0x1A) by (unfold is_byte; lia).
  assert (HB : is_byte 0xF8) by (unfold is_byte; lia).
  split; [exact HA|]. split; [exact HB|]. split; [|reflexivity].
  exact (proj1 (proj2 (sensor_formulas_exact [0x1A; 0xF8] 2 HA HB))).
Defined.

(** X15.  The three formulas that divide by a number that is not a power
    of two, A * 100 / 255 (percent), (256 A + B) / 100 (air flow) and
    A / 200 (oxygen sensor voltage), return a finite float within a
    relative error of 2^-24 of the exact quotient. *)
Theorem sensor_formulas_rounded (data : list Z) (data_len : nat) :
  let A := nth 0 data 0 in
  let B := nth 1 data 0 in
  is_byte A -> is_byte B ->
  float_near (formula_percent data data_len) (100 * A) 255 24 = true /\
  float_near (formula_maf data data_len) (256 * A + B) 100 24 = true /\
  float_near (formula_o2_voltage data data_len) A 200 24 = true.
Proof.
  intros A B HA HB.
  pose proof (byte_cases _ exact_formulas_one_byte A HA) as H1. cbv beta zeta in H1.
  pose proof (byte_cases _ exact_formulas_two_bytes A HA) as H2. cbv beta in H2.
  pose proof (byte_cases _ H2 B HB) as H2'. cbv beta zeta in H2'.
  destruct (formulas_read_two_bytes data data_len)
    as (_ & _ & _ & _ & _ & -> & _).
  destruct (formulas_read_one_byte data data_len)
    as (-> & _ & _ & _ & _ & -> & _).
  fold A B.
  replace (256 * A + B) with (A * 256 + B) by lia.
  replace (100 * A) with (A * 100) by lia.
  repeat (apply andb_true_iff in H1 as [H1 ?]).
  repeat (apply andb_true_iff in H2' as [H2' ?]).
  repeat split; assumption.
Qed.

Lemma sensor_formulas_rounded_witness :
  is_byte 0x33 /\ is_byte 0 /\
  float_near (formula_percent [0x33] 1) 5100 255 24 = true.
Proof.
  assert (HA : is_byte 0x33) by (unfold is_byte; lia).
  assert (HB : is_byte 0) by (unfold is_byte; lia).
  split; [exact HA|]. split; [exact HB|].
  exact (proj1 (sensor_formulas_rounded [0x33] 1 HA HB)).
Defined.

(** X16.  For a pid of the table and a response with at least the entry's
    byte count of data, [obd_sensor_decode] returns OK with the pid, the
    value of the entry's formula on the data, and the entry's name and
    unit in full: no name or unit of the table is cut by the bounded
    copy. *)
Theorem sensor_decode_known_pid (response : obd_pid_response_t) (entry : sensor_entry_t) :
  In entry sensor_table -> e_pid entry = pid response ->
  (byte_count entry <= data_len response)%nat ->
  obd_sensor_decode response
  = (OBD_OK,
     Some (mk_sensor_value (pid response)
             (formula entry (data response) (data_len response))
             (e_name entry) (e_unit entry))).
Proof.
  intros Hin Hpid Hlen. unfold obd_sensor_decode, find_sensor_entry.
  rewrite <- Hpid, (find_in_present _ _ sensor_table_pids_distinct Hin).
  destruct (Nat.ltb_spec (data_len response) (byte_count entry)); [lia|].
  destruct (sensor_entry_fits entry Hin) as (Hname & Hunit & _).
  unfold strncpy_term. rewrite !firstn_all2 by lia. reflexivity.
Qed.

Lemma sensor_decode_known_pid_witness :
  obd_sensor_decode (mk_pid_response 0x41 0x0D [0x3C; 0; 0; 0; 0; 0; 0] 1)
  = (OBD_OK,
     Some (mk_sensor_value 0x0D (f_of_int 60) (cstr "Vehicle Speed") (cstr "km/h"))).
Proof.
  apply (sensor_decode_known_pid (mk_pid_response 0x41 0x0D [0x3C; 0; 0; 0; 0; 0; 0] 1)
           (mk_entry 0x0D (cstr "Vehicle Speed") (cstr "km/h") 1 formula_direct)).
  - cbn. tauto.
  - reflexivity.
  - cbn. lia.
Defined.

(** X17.  For a pid of the table and a buffer of at least one byte,
    [obd_sensor_get_name] returns OK and writes the first [name_size - 1]
    characters of the entry's name, which always fit with the terminator;
    a buffer of 32 bytes receives every name in full. *)
Theorem sensor_get_name_known_pid (entry : sensor_entry_t) (name_size : nat) :
  In entry sensor_table -> (0 < name_size)%nat ->
  exists name,
    obd_sensor_get_name (e_pid entry) name_size = (OBD_OK, Some name) /\
    name = firstn (name_size - 1) (e_name entry) /\
    (List.length name < name_size)%nat /\
    ((32 <= name_size)%nat -> name = e_name entry).
Proof.
  intros Hin Hsize. unfold obd_sensor_get_name, find_sensor_entry.
  destruct name_size as [|n]; [lia|]. cbn [Nat.eqb].
  rewrite (find_in_present _ _ sensor_table_pids_distinct Hin).
  unfold strncpy_term. eexists. split; [reflexivity|]. split; [reflexivity|].
  split.
  - rewrite length_firstn. lia.
  - intros Hbig. destruct (sensor_entry_fits entry Hin) as (Hname & _).
    apply firstn_all2. lia.
Qed.

Lemma sensor_get_name_known_pid_witness :
  exists name,
    obd_sensor_get_name 0x0C 5 = (OBD_OK, Some name) /\
    name = cstr "Engi" /\ (List.length name < 5)%nat.
Proof.
  destruct (sensor_get_name_known_pid
              (mk_entry 0x0C (cstr "Engine RPM") (cstr "rpm") 2 formula_rpm) 5)
    as (name & Hcall & Hname & Hlen & _).
  - cbn. tauto.
  - lia.
  - exists name. split; [exact Hcall|]. split; [exact Hname | exact Hlen].
Defined.

(** X18.  The formula of a table entry reads only the bytes that
    [obd_sensor_decode] has checked to be there: two lists of data that
    agree on the first [byte_count] bytes get the same value. *)
Theorem sensor_formula_reads_checked_bytes (entry : sensor_entry_t)
  (data data' : list Z) (data_len data_len' : nat) :
  In entry sensor_table ->
  firstn (byte_count entry) data = firstn (byte_count entry) data' ->
  formula entry data data_len = formula entry data' data_len'.
Proof.
  intros Hin Hsame.
  assert (H0 : (1 <= byte_count entry)%nat -> nth 0 data 0 = nth 0 data' 0).
  { intros Hn. destruct (byte_count entry) as [|n]; [lia|].
    destruct data, data'; cbn in Hsame; try discriminate; try reflexivity.
    injection Hsame as -> _. reflexivity. }
  assert (H1 : (2 <= byte_count entry)%nat -> nth 1 data 0 = nth 1 data' 0).
  { intros Hn. destruct (byte_count entry) as [|[|n]]; try lia.
    destruct data as [|a [|b data]], data' as [|a' [|b' data']];
      cbn in Hsame; try discriminate; try reflexivity.
    injection Hsame as _ -> _. reflexivity. }
  cbn in Hin.
  repeat (destruct Hin as [<-|Hin];
          [cbn [formula byte_count] in *;
           unfold formula_dtc_count, formula_percent, formula_temp_offset40,
             formula_fuel_trim, formula_fuel_pressure, formula_direct, formula_rpm,
             formula_timing_advance, formula_maf, formula_o2_voltage, formula_runtime, at_;
           try rewrite (H0 ltac:(lia)); try rewrite (H1 ltac:(lia)); reflexivity|]).
  contradiction.
Qed.

Lemma sensor_formula_reads_checked_bytes_witness :
  formula_rpm [0x1A; 0xF8; 1; 2; 3] 5 = formula_rpm [0x1A; 0xF8] 2.
Proof.
  apply (sensor_formula_reads_checked_bytes
           (mk_entry 0x0C (cstr "Engine RPM") (cstr "rpm") 2 formula_rpm)).
  - cbn. tauto.
  - reflexivity.
Defined.

(** ** Trouble codes, continued *)

Section TroubleCodesMore.

Lemma dtc_text_all_pairs :
  forallb
    (fun b1 =>
       forallb
         (fun b2 =>
            let dtc := parse_single_dtc b1 b2 in
            match dtc_word_of_text (formatted dtc) with
            | Some w => w =? b1 * 256 + b2
            | None => false
            end
            && (category_number (category dtc) * 16384 + code dtc =? b1 * 256 + b2)
            && (0 <=? code dtc) && (code dtc <? 16384))
         all_bytes)
    all_bytes = true.
Proof. vm_compute. reflexivity. Qed.

Lemma dtc_text_word (b1 b2 : Z) :
  is_byte b1 -> is_byte b2 ->
  dtc_word_of_text (formatted (parse_single_dtc b1 b2)) = Some (b1 * 256 + b2) /\
  category_number (category (parse_single_dtc b1 b2)) * 16384
  + code (parse_single_dtc b1 b2) = b1 * 256 + b2 /\
  0 <= code (parse_single_dtc b1 b2) < 16384.
Proof.
  intros H1 H2.
  pose proof (byte_cases _ dtc_text_all_pairs b1 H1) as H. cbv beta in H.
  pose proof (byte_cases _ H b2 H2) as H'. cbv beta zeta in H'.
  apply andb_true_iff in H' as [H' Hhi]. apply andb_true_iff in H' as [H' Hlo].
  apply andb_true_iff in H' as [Hword Hcat].
  destruct (dtc_word_of_text (formatted (parse_single_dtc b1 b2))) as [w|];
    [|discriminate].
  apply Z.eqb_eq in Hword, Hcat. apply Z.leb_le in Hlo. apply Z.ltb_lt in Hhi.
  subst w. auto.
Qed.

(** Every entry the loop stores comes from a pair of bytes that is not the
    padding pair. *)
Lemma entries_from_pairs (rest : list Z) :
  Forall is_byte rest ->
  Forall (fun dtc => exists b1 b2,
              is_byte b1 /\ is_byte b2 /\ ~ (b1 = 0 /\ b2 = 0) /\
              dtc = parse_single_dtc b1 b2)
         (DtcSpec.entries rest).
Proof.
  induction rest as [| b | b1 b2 rest IH] using pair_induction; intros Hbytes;
    try constructor.
  inversion Hbytes as [|? ? H1 Hrest1]; subst.
  inversion Hrest1 as [|? ? H2 Hrest]; subst.
  unfold DtcSpec.entries. cbn [DtcSpec.byte_pairs filter].
  unfold DtcSpec.is_padding at 1. cbn [fst snd].
  destruct (Z.eqb_spec b1 0) as [->|Hn1]; cbn [andb negb].
  - destruct (Z.eqb_spec b2 0) as [->|Hn2]; cbn [negb map fst snd].
    + apply IH, Hrest.
    + constructor; [|apply IH, Hrest].
      exists 0, b2. split; [exact H1|]. split; [exact H2|]. split; [lia | reflexivity].
  - cbn [map fst snd]. constructor; [|apply IH, Hrest].
    exists b1, b2. split; [exact H1|]. split; [exact H2|]. split; [lia | reflexivity].
Qed.

Lemma entries_length (rest : list Z) :
  (2 * List.length (DtcSpec.entries rest) <= List.length rest)%nat.
Proof.
  unfold DtcSpec.entries. rewrite length_map.
  pose proof (filter_length_le (fun p => negb (DtcSpec.is_padding p))
                (DtcSpec.byte_pairs rest)).
  pose proof (byte_pairs_length rest). lia.
Qed.

(** The list the parser returns: empty, or the entries of the bytes that
    follow a header 0x43. *)
Lemma dtc_parse_response_list (response : cstring) :
  snd (obd_dtc_parse_response response) = []
  \/ exists rest,
       obd_hex_to_bytes response 64 = (OBD_OK, 0x43 :: rest) /\
       obd_dtc_parse_response response = (OBD_OK, DtcSpec.entries rest).
Proof.
  unfold obd_dtc_parse_response.
  destruct (obd_hex_to_bytes response 64) as [r bytes] eqn:Hdec.
  destruct r; try (left; reflexivity).
  destruct bytes as [|b0 rest]; [left; reflexivity|].
  destruct (Z.eqb_spec b0 0x43) as [->|Hne]; [|left; reflexivity].
  right. exists rest. split; [reflexivity|]. cbn [negb].
  rewrite (dtc_loop_entries rest 0); [reflexivity|].
  pose proof (obd_hex_to_bytes_bound _ _ _ _ Hdec) as Hlen.
  pose proof (byte_pairs_length rest). cbn [List.length] in Hlen.
  unfold OBD_MAX_DTCS. lia.
Qed.

End TroubleCodesMore.

(** X19.  The text of a trouble code identifies the two raw bytes: reading
    the category letter and the four digits of the formatted string back
    gives the 16-bit word [256 * byte1 + byte2], which is also
    [16384 * category + code], the code being below 2^14; so two pairs of
    bytes with the same formatted string are the same pair. *)
Theorem dtc_text_identifies_bytes (b1 b2 b1' b2' : Z) :
  is_byte b1 -> is_byte b2 -> is_byte b1' -> is_byte b2' ->
  dtc_word_of_text (formatted (parse_single_dtc b1 b2)) = Some (256 * b1 + b2) /\
  16384 * category_number (category (parse_single_dtc b1 b2))
  + code (parse_single_dtc b1 b2) = 256 * b1 + b2 /\
  0 <= code (parse_single_dtc b1 b2) < 16384 /\
  (formatted (parse_single_dtc b1 b2) = formatted (parse_single_dtc b1' b2') ->
   b1 = b1' /\ b2 = b2').
Proof.
  intros H1 H2 H1' H2'.
  destruct (dtc_text_word b1 b2 H1 H2) as (Hword & Hcat & Hcode).
  destruct (dtc_text_word b1' b2' H1' H2') as (Hword' & _ & _).
  split; [rewrite Hword; f_equal; lia|]. split; [lia|]. split; [exact Hcode|].
  intros Hsame. rewrite Hsame, Hword' in Hword. injection Hword as Heq.
  unfold is_byte in *. lia.
Qed.

Lemma dtc_text_identifies_bytes_witness :
  is_byte 0xC1 /\ is_byte 0x23 /\
  dtc_word_of_text (cstr "U0123") = Some 0xC123 /\
  formatted (parse_single_dtc 0xC1 0x23) = cstr "U0123".
Proof.
  assert (H1 : is_byte 0xC1) by (unfold is_byte; lia).
  assert (H2 : is_byte 0x23) by (unfold is_byte; lia).
  split; [exact H1|]. split; [exact H2|]. split; [|reflexivity].
  exact (proj1 (dtc_text_identifies_bytes 0xC1 0x23 0xC1 0x23 H1 H2 H1 H2)).
Defined.

(** X20.  Whatever the text, [obd_dtc_parse_response] returns OK,
    InvalidHex, BufferTooSmall or ParseFailed, and an empty list unless it
    returns OK.  The list never has more than 31 entries, so the capacity
    of 32 is never reached; every entry has a code below 2^14 and a text of
    5 characters, which is never P0000 and which [obd_dtc_format] copies
    out unchanged into any buffer of 6 bytes or more. *)
Theorem dtc_parse_response_bounds (response : cstring) :
  let r := fst (obd_dtc_parse_response response) in
  let dtcs := snd (obd_dtc_parse_response response) in
  (r = OBD_OK \/ r = OBD_ERROR_INVALID_HEX \/ r = OBD_ERROR_BUFFER_TOO_SMALL
   \/ r = OBD_ERROR_PARSE_FAILED) /\
  (r <> OBD_OK -> dtcs = []) /\
  (List.length dtcs < OBD_MAX_DTCS)%nat /\
  Forall (fun dtc =>
            0 <= code dtc < 16384 /\
            List.length (formatted dtc) = 5%nat /\
            formatted dtc <> cstr "P0000" /\
            forall out_size, (OBD_DTC_CODE_LENGTH <= out_size)%nat ->
                             obd_dtc_format dtc out_size = (OBD_OK, Some (formatted dtc)))
         dtcs.
Proof.
  cbv zeta. split; [|split; [|split]].
  - unfold obd_dtc_parse_response.
    pose proof (hex_to_bytes_loop_outcomes response 64 0 ltac:(lia)) as [Hcode _].
    fold (obd_hex_to_bytes response 64) in Hcode.
    destruct (obd_hex_to_bytes response 64) as [r bytes]. cbn [fst] in Hcode.
    destruct r; cbn [fst]; try tauto;
      try (exfalso; destruct Hcode as [H|[H|H]]; discriminate H).
    destruct bytes as [|b0 rest]; cbn [fst]; [tauto|].
    destruct (negb (b0 =? 67)); cbn [fst]; tauto.
  - intros Hr. destruct (dtc_parse_response_list response) as [Hnil|(rest & _ & Hok)];
      [exact Hnil|]. rewrite Hok in Hr. now elim Hr.
  - destruct (dtc_parse_response_list response) as [->|(rest & Hdec & ->)];
      [unfold OBD_MAX_DTCS; cbn; lia|].
    cbn [snd]. pose proof (entries_length rest).
    pose proof (obd_hex_to_bytes_bound _ _ _ _ Hdec) as Hlen. cbn [List.length] in Hlen.
    unfold OBD_MAX_DTCS. lia.
  - destruct (dtc_parse_response_list response) as [->|(rest & Hdec & ->)];
      [constructor|].
    cbn [snd].
    assert (Hbytes : Forall is_byte rest).
    { pose proof (hex_to_bytes_loop_bytes response 64 0) as Hb.
      unfold obd_hex_to_bytes in Hdec. rewrite Hdec in Hb. cbn [snd] in Hb.
      inversion Hb; assumption. }
    eapply Forall_impl; [|apply (entries_from_pairs rest Hbytes)].
    intros dtc (b1 & b2 & H1 & H2 & Hpad & ->).
    destruct (dtc_text_word b1 b2 H1 H2) as (Hword & _ & Hcode).
    split; [exact Hcode|]. split; [reflexivity|]. split.
    + intros Hzero. rewrite Hzero in Hword. cbn in Hword. injection Hword as Hw.
      unfold is_byte in *. lia.
    + intros out_size Hsize. unfold obd_dtc_format.
      unfold OBD_DTC_CODE_LENGTH in *.
      destruct out_size as [|n]; [lia|]. cbn [Nat.eqb].
      destruct (Nat.ltb_spec (S n) 6); [lia | reflexivity].
Qed.

Lemma dtc_parse_response_bounds_witness :
  fst (obd_dtc_parse_response (cstr "43 0G")) <> OBD_OK /\
  snd (obd_dtc_parse_response (cstr "43 0G")) = [].
Proof.
  assert (H : fst (obd_dtc_parse_response (cstr "43 0G")) <> OBD_OK)
    by (vm_compute; discriminate).
  split; [exact H|].
  exact (proj1 (proj2 (dtc_parse_response_bounds (cstr "43 0G"))) H).
Defined.

(** X21.  A trouble-code request and its reply go through the whole
    chain: the transcript made of the request [obd_dtc_build_request]
    builds, a reply of header 0x43 and up to 63 further bytes as printed by
    the encoder, CRs or LFs and the prompt is cleaned to a text that
    [obd_dtc_parse_response] parses to one entry per non-padding pair of
    those bytes, in order. *)
Theorem dtc_transcript_round_trip (body : list Z) (req_size out_size : nat)
  (request eols tail : cstring) :
  Forall is_byte body -> (List.length body <= 63)%nat ->
  obd_dtc_build_request req_size = (OBD_OK, Some request) ->
  Forall (fun c => CleanSpec.is_eol c = true) eols ->
  (3 * (1 + List.length body) <= out_size)%nat ->
  exists hex,
    obd_elm327_clean_response
      (request ++ bytes_to_hex_loop (0x43 :: body) ++ eols ++ ">"%char :: tail) out_size
    = Some (OBD_OK, hex) /\
    obd_dtc_parse_response hex = (OBD_OK, DtcSpec.entries body).
Proof.
  intros Hbody Hlen Hreq Heols Hsize.
  assert (Hreply : Forall is_byte (0x43 :: body))
    by (constructor; [unfold is_byte; lia | exact Hbody]).
  exists (bytes_to_hex_loop (0x43 :: body)). split.
  - unfold obd_dtc_build_request in Hreq.
    destruct (req_size =? 0)%nat; [discriminate|].
    destruct (req_size <? 4)%nat; [discriminate|].
    injection Hreq as <-.
    change (["0"%char; "3"%char; CR] ++ ?r) with (cstr "03" ++ CR :: r).
    rewrite (clean_response_skip_line (cstr "03") _ out_size eq_refl eq_refl eq_refl
               eq_refl eq_refl).
    apply encoded_reply_cleaned; try assumption. lia.
  - unfold obd_dtc_parse_response.
    replace (obd_hex_to_bytes (bytes_to_hex_loop (0x43 :: body)) 64)
      with (OBD_OK, 0x43 :: body)
      by (symmetry; apply decode_encode_loop; [exact Hreply | cbn [List.length]; lia]).
    change (0x43 =? 0x43) with true. cbn [negb].
    rewrite (dtc_loop_entries body 0); [reflexivity|].
    pose proof (byte_pairs_length body). unfold OBD_MAX_DTCS. lia.
Qed.

Lemma dtc_transcript_round_trip_witness :
  Forall is_byte [0x01; 0x03; 0x01; 0x04; 0x00; 0x00] /\
  (List.length [0x01; 0x03; 0x01; 0x04; 0x00; 0x00] <= 63)%nat /\
  obd_dtc_build_request 16 = (OBD_OK, Some (cstr "03" ++ [CR])) /\
  Forall (fun c => CleanSpec.is_eol c = true) [CR; CR] /\
  (3 * (1 + List.length [0x01; 0x03; 0x01; 0x04; 0x00; 0x00]) <= 256)%nat /\
  exists hex,
    obd_elm327_clean_response
      ((cstr "03" ++ [CR]) ++ cstr "43 01 03 01 04 00 00" ++ [CR; CR] ++ cstr ">") 256
    = Some (OBD_OK, hex) /\
    map formatted (snd (obd_dtc_parse_response hex)) = [cstr "P0103"; cstr "P0104"].
Proof.
  assert (H1 : Forall is_byte [0x01; 0x03; 0x01; 0x04; 0x00; 0x00])
    by (repeat constructor; unfold is_byte; lia).
  assert (H2 : (List.length [0x01; 0x03; 0x01; 0x04; 0x00; 0x00] <= 63)%nat)
    by (cbn; lia).
  assert (H3 : obd_dtc_build_request 16 = (OBD_OK, Some (cstr "03" ++ [CR])))
    by reflexivity.
  assert (H4 : Forall (fun c => CleanSpec.is_eol c = true) [CR; CR])
    by (repeat constructor).
  assert (H5 : (3 * (1 + List.length [0x01; 0x03; 0x01; 0x04; 0x00; 0x00]) <= 256)%nat)
    by (cbn; lia).
  split; [exact H1|]. split; [exact H2|]. split; [exact H3|]. split; [exact H4|].
  split; [exact H5|].
  destruct (dtc_transcript_round_trip _ 16 256 _ [CR; CR] [] H1 H2 H3 H4 H5)
    as (hex & Hclean & Hparse).
  exists hex. split; [exact Hclean|]. rewrite Hparse. reflexivity.
Defined.

(** ** VIN reassembly, continued *)

Section VinMore.

Import VinSpec.

Lemma frame_text_plain (f : Z * list Z) :
  frame_ok f ->
  no_eol (frame_text (fst f) (snd f)) /\ frame_text (fst f) (snd f) <> [] /\
  plain_line (frame_text (fst f) (snd f)) = true.
Proof.
  intros (Hseq & Hdata & _).
  destruct (frame_text_line _ _ Hseq Hdata) as [Hne Hnil].
  split; [exact Hne|]. split; [exact Hnil|].
  apply bytes_to_hex_loop_plain.
  constructor; [unfold is_byte; lia|].
  constructor; [unfold is_byte; lia|].
  constructor; assumption.
Qed.

(** The lines of printed frames joined by CRs are the frames. *)
Lemma vin_lines_join (frames : list (Z * list Z)) :
  Forall frame_ok frames ->
  lines (CleanSpec.join_cr (frame_texts frames)) = frame_texts frames.
Proof.
  induction 1 as [|f frames Hf Hframes IH]; [reflexivity|].
  destruct (frame_text_plain f Hf) as (Hne & Hnil & _).
  cbn [frame_texts map CleanSpec.join_cr]. fold (frame_texts frames).
  destruct (frame_texts frames) as [|t ts] eqn:Hts.
  - rewrite (lines_single _ Hne).
    destruct (frame_text (fst f) (snd f)); [contradiction | reflexivity].
  - rewrite lines_app_cr, (lines_single _ Hne), IH.
    destruct (frame_text (fst f) (snd f)); [contradiction | reflexivity].
Qed.

Lemma frame_chars_concat (frames : list (Z * list Z)) :
  Forall frame_ok frames ->
  List.concat (map frame_chars (frame_texts frames))
  = vin_chars_of (List.concat (map snd frames)).
Proof.
  induction 1 as [|f frames (Hseq & Hdata & Hlen) Hframes IH]; [reflexivity|].
  cbn [frame_texts map List.concat]. fold (frame_texts frames).
  rewrite IH, (frame_chars_frame_text _ _ Hseq Hdata Hlen).
  unfold vin_chars_of. rewrite filter_app, map_app. reflexivity.
Qed.

Lemma accumulated_frames (frames : list (Z * list Z)) :
  Forall frame_ok frames ->
  accumulated (CleanSpec.join_cr (frame_texts frames))
  = firstn OBD_VIN_LENGTH (vin_chars_of (List.concat (map snd frames))).
Proof.
  intros Hframes. unfold accumulated.
  rewrite (vin_lines_join frames Hframes), (frame_chars_concat frames Hframes).
  reflexivity.
Qed.

End VinMore.


Lemma vin_chars_of_app (a b : list Z) :
  vin_chars_of (a ++ b) = vin_chars_of a ++ vin_chars_of b.
Proof. unfold vin_chars_of. rewrite filter_app, map_app. reflexivity. Qed.

Lemma vin_chars_of_zero (pre post : list Z) :
  vin_chars_of (pre ++ 0 :: post) = vin_chars_of pre ++ vin_chars_of post.
Proof. rewrite vin_chars_of_app. reflexivity. Qed.





(** X22.  The sequence number of a frame plays no part: changing it, in
    any frame of any transcript, changes neither the result nor the VIN
    that [obd_vin_parse_response] returns.  Frames are taken in the order
    of arrival. *)
Theorem vin_parse_response_ignores_sequence_numbers
  (before after : cstring) (seq seq' : Z) (data : list Z) (vin_size : nat) :
  is_byte seq -> is_byte seq' -> Forall is_byte data ->
  (List.length data <= 13)%nat ->
  Vin.obd_vin_parse_response
    (before ++ CR :: VinSpec.frame_text seq data ++ CR :: after) vin_size
  = Vin.obd_vin_parse_response
      (before ++ CR :: VinSpec.frame_text seq' data ++ CR :: after) vin_size.
Proof.
  intros Hseq Hseq' Hdata Hlen.
  destruct (Nat.le_gt_cases (OBD_VIN_LENGTH + 1) vin_size) as [Hsize|Hsmall].
  - rewrite !(vin_parse_response_accumulated _ _ Hsize).
    destruct (frame_text_line seq _ Hseq Hdata) as [L1 N1].
    destruct (frame_text_line seq' _ Hseq' Hdata) as [L2 N2].
    unfold VinSpec.accumulated.
    rewrite (lines_around _ _ _ L1 N1), (lines_around _ _ _ L2 N2).
    rewrite !map_app. cbn [map].
    rewrite !frame_chars_frame_text by assumption. reflexivity.
  - unfold Vin.obd_vin_parse_response.
    destruct (vin_size =? 0)%nat; [reflexivity|].
    destruct (Nat.ltb_spec vin_size (OBD_VIN_LENGTH + 1)); [reflexivity | lia].
Qed.

Lemma vin_parse_response_ignores_sequence_numbers_witness :
  is_byte 0x01 /\ is_byte 0x07 /\ Forall is_byte [0x57; 0x42; 0x41; 0x33] /\
  (List.length [0x57; 0x42; 0x41; 0x33] <= 13)%nat /\
  Vin.obd_vin_parse_response
    ([] ++ CR :: cstr "49 02 07 57 42 41 33" ++ CR :: cstr "49 02 02 42 35 46 4B") 18
  = Some (OBD_ERROR_PARSE_FAILED, cstr "WBA3B5FK").
Proof.
  assert (H1 : is_byte 0x01) by (unfold is_byte; lia).
  assert (H2 : is_byte 0x07) by (unfold is_byte; lia).
  assert (H3 : Forall is_byte [0x57; 0x42; 0x41; 0x33])
    by (repeat constructor; unfold is_byte; lia).
  assert (H4 : (List.length [0x57; 0x42; 0x41; 0x33] <= 13)%nat) by (cbn; lia).
  split; [exact H1|]. split; [exact H2|]. split; [exact H3|]. split; [exact H4|].
  etransitivity;
    [symmetry; exact (vin_parse_response_ignores_sequence_numbers
                        [] (cstr "49 02 02 42 35 46 4B") 0x01 0x07 _ 18 H1 H2 H3 H4)|].
  reflexivity.
Defined.

(** X23.  Reassembly undoes framing: for any sequence of frames, each with
    a sequence number and up to 13 data bytes, printed one per line, the
    parser returns the first 17 non-zero data bytes, in order, as the VIN,
    with OK when there are at least 17 of them and ParseFailed
    otherwise. *)
Theorem vin_parse_response_round_trip (frames : list (Z * list Z)) (vin_size : nat) :
  Forall frame_ok frames -> (OBD_VIN_LENGTH + 1 <= vin_size)%nat ->
  let chars := vin_chars_of (List.concat (map snd frames)) in
  Vin.obd_vin_parse_response (CleanSpec.join_cr (frame_texts frames)) vin_size
  = Some (if (OBD_VIN_LENGTH <=? List.length chars)%nat
          then OBD_OK else OBD_ERROR_PARSE_FAILED,
          firstn OBD_VIN_LENGTH chars).
Proof.
  intros Hframes Hsize chars.
  rewrite (vin_parse_response_accumulated _ _ Hsize).
  rewrite (accumulated_frames frames Hframes). fold chars.
  rewrite length_firstn.
  destruct (Nat.leb_spec OBD_VIN_LENGTH (List.length chars)).
  - rewrite Nat.min_l by lia. rewrite Nat.eqb_refl. reflexivity.
  - rewrite Nat.min_r by lia.
    destruct (Nat.eqb_spec (List.length chars) OBD_VIN_LENGTH); [lia | reflexivity].
Qed.

(** ** Multi-frame replies *)

Section MultiFrame.

Import CleanSpec.

Lemma reply_text_facts (bytes : list Z) :
  reply_ok bytes ->
  plain_line (bytes_to_hex_loop bytes) = true /\
  bytes_to_hex_loop bytes <> [] /\
  payload echo_below_0x40 (bytes_to_hex_loop bytes) = Some (bytes_to_hex_loop bytes) /\
  exists s i, bytes_to_hex_loop bytes = s ++ [hex_digit i] /\ 0 <= i < 16.
Proof.
  intros (Hbytes & b & rest & -> & Hb).
  split; [apply bytes_to_hex_loop_plain, Hbytes|].
  split; [cbn [bytes_to_hex_loop]; discriminate|].
  split; [apply payload_encoded; assumption|].
  apply bytes_to_hex_loop_last; [exact Hbytes | discriminate].
Qed.

(** The lines of printed frames joined by CRs and closed by the prompt are
    the frames, and all of them survive. *)
Lemma clean_lines_join (replies : list (list Z)) (eols tail : cstring) :
  Forall reply_ok replies -> replies <> [] ->
  Forall (fun c => is_eol c = true) eols ->
  lines (join_cr (reply_texts replies) ++ eols ++ ">"%char :: tail)
  = reply_texts replies.
Proof.
  intros Hall Hne Heols. induction Hall as [|r rs Hr Hrs IH]; [congruence|].
  destruct (reply_text_facts r Hr) as (Hplain & Hnil & _).
  cbn [reply_texts map join_cr]. fold (reply_texts rs).
  destruct rs as [|r' rs'].
  - cbn [reply_texts map]. apply lines_single_reply; assumption.
  - specialize (IH ltac:(discriminate)).
    cbn [reply_texts map] in *. fold (reply_texts rs') in *.
    rewrite <- app_assoc. cbn [app].
    rewrite (lines_plain_cr _ _ Hplain), IH.
    destruct (bytes_to_hex_loop r); [contradiction | reflexivity].
Qed.

Lemma kept_reply_texts (replies : list (list Z)) :
  Forall reply_ok replies ->
  kept echo_below_0x40 (reply_texts replies) = reply_texts replies.
Proof.
  induction 1 as [|r rs Hr Hrs IH]; [reflexivity|].
  destruct (reply_text_facts r Hr) as (_ & _ & Hpay & _).
  cbn [reply_texts map kept]. fold (reply_texts rs). rewrite Hpay, IH. reflexivity.
Qed.

Lemma join_cr_reply_last (replies : list (list Z)) :
  Forall reply_ok replies -> replies <> [] ->
  exists s i, join_cr (reply_texts replies) = s ++ [hex_digit i] /\ 0 <= i < 16.
Proof.
  induction 1 as [|r rs Hr Hrs IH]; [congruence|]. intros _.
  cbn [reply_texts map join_cr]. fold (reply_texts rs).
  destruct rs as [|r' rs'].
  - destruct (reply_text_facts r Hr) as (_ & _ & _ & Hlast). exact Hlast.
  - destruct (IH ltac:(discriminate)) as (s & i & Hs & Hi).
    cbn [reply_texts map] in *. fold (reply_texts rs') in *.
    exists (bytes_to_hex_loop r ++ CR :: s), i. rewrite Hs.
    split; [rewrite <- app_assoc; reflexivity | exact Hi].
Qed.

(** What the cleaner does with a printed multi-frame reply. *)
Lemma encoded_replies_cleaned (replies : list (list Z)) (eols tail : cstring)
  (out_size : nat) :
  Forall reply_ok replies -> replies <> [] ->
  Forall (fun c => is_eol c = true) eols ->
  (0 < out_size)%nat ->
  let text := join_cr (reply_texts replies) in
  ((List.length text < out_size)%nat ->
   obd_elm327_clean_response (text ++ eols ++ ">"%char :: tail) out_size
   = Some (OBD_OK, text)) /\
  ((out_size <= List.length text)%nat ->
   exists partial,
     obd_elm327_clean_response (text ++ eols ++ ">"%char :: tail) out_size
     = Some (OBD_ERROR_BUFFER_TOO_SMALL, partial)).
Proof.
  intros Hall Hne Heols Hpos text.
  destruct (clean_response_surviving (text ++ eols ++ ">"%char :: tail) out_size Hpos)
    as (_ & Hok & Hover).
  unfold surviving, text in Hok, Hover.
  rewrite (clean_lines_join replies eols tail Hall Hne Heols) in Hok, Hover.
  rewrite (kept_reply_texts replies Hall) in Hok, Hover.
  assert (Hnonempty : reply_texts replies <> []).
  { destruct replies; [congruence | discriminate]. }
  split.
  - intros Hfit. unfold text. rewrite (Hok Hnonempty Hfit).
    destruct (join_cr_reply_last replies Hall Hne) as (s & i & -> & Hi).
    rewrite (trim_trailing_snoc s _ (proj2 (hex_digit_plain i Hi))). reflexivity.
  - intros Hbig. exact (Hover Hnonempty Hbig).
Qed.

End MultiFrame.

Section MultiFrameDecode.

Import CleanSpec.

(** A printed multi-frame reply decodes to the bytes of its frames, the
    CRs between the frames being whitespace to the decoder. *)
Lemma decode_join_cr (replies : list (list Z)) :
  Forall (Forall is_byte) replies ->
  forall out_size o,
    (o + List.length (List.concat replies) <= out_size)%nat ->
    hex_to_bytes_loop (join_cr (reply_texts replies)) out_size o
    = (OBD_OK, List.concat replies).
Proof.
  induction 1 as [|r rs Hr Hrs IH]; intros out_size o Hfit; [reflexivity|].
  cbn [List.concat] in *. rewrite length_app in Hfit.
  cbn [reply_texts map join_cr]. fold (reply_texts rs).
  assert (Hdec : hex_to_bytes_loop (bytes_to_hex_loop r) out_size o = (OBD_OK, r))
    by (apply decode_encode_loop; [exact Hr | lia]).
  destruct rs as [|r' rs'].
  - cbn [reply_texts map List.concat]. rewrite app_nil_r. exact Hdec.
  - cbn [reply_texts map] in *. fold (reply_texts rs') in *.
    rewrite (hex_to_bytes_loop_app _ _ _ _ Hdec).
    change (hex_to_bytes_loop (CR :: ?x) ?n ?k) with (hex_to_bytes_loop x n k).
    rewrite (IH out_size (o + List.length r)%nat) by lia. reflexivity.
Qed.

End MultiFrameDecode.

(** X24.  A reply printed by the encoder comes back unchanged.  For one
    or more frames of bytes, each starting with a byte of 0x40 or more,
    printed one per line and followed by any number of CRs and LFs, the
    prompt and anything after it, the cleaner returns OK and the printed
    frames joined by single CRs whenever that text is shorter than the
    buffer, and BufferTooSmall otherwise; and [obd_hex_to_bytes] decodes
    the cleaned text to the bytes of the frames, in order. *)
Theorem clean_response_encoded_reply (replies : list (list Z)) (eols tail : cstring)
  (out_size byte_size : nat) :
  Forall reply_ok replies -> replies <> [] ->
  Forall (fun c => CleanSpec.is_eol c = true) eols ->
  (0 < out_size)%nat ->
  (List.length (List.concat replies) <= byte_size)%nat ->
  let text := CleanSpec.join_cr (reply_texts replies) in
  let raw := text ++ eols ++ ">"%char :: tail in
  ((List.length text < out_size)%nat ->
   obd_elm327_clean_response raw out_size = Some (OBD_OK, text)) /\
  ((out_size <= List.length text)%nat ->
   exists partial,
     obd_elm327_clean_response raw out_size
     = Some (OBD_ERROR_BUFFER_TOO_SMALL, partial)) /\
  obd_hex_to_bytes text byte_size = (OBD_OK, List.concat replies).
Proof.
  intros Hall Hne Heols Hpos Hbytes text raw.
  destruct (encoded_replies_cleaned replies eols tail out_size Hall Hne Heols Hpos)
    as [Hok Hover].
  split; [exact Hok|]. split; [exact Hover|].
  unfold obd_hex_to_bytes, text. apply decode_join_cr; [|lia].
  eapply Forall_impl; [|exact Hall]. intros r [Hr _]. exact Hr.
Qed.

Lemma clean_response_encoded_reply_witness :
  Forall reply_ok [[0x49; 0x02; 0x01; 0x57]; [0x49; 0x02; 0x02; 0x42]] /\
  Forall (fun c => CleanSpec.is_eol c = true) [CR; CR] /\
  obd_elm327_clean_response
    (cstr "49 02 01 57" ++ [CR] ++ cstr "49 02 02 42" ++ [CR; CR] ++ cstr ">") 24
  = Some (OBD_OK, cstr "49 02 01 57" ++ [CR] ++ cstr "49 02 02 42") /\
  obd_hex_to_bytes (cstr "49 02 01 57" ++ [CR] ++ cstr "49 02 02 42") 8
  = (OBD_OK, [0x49; 0x02; 0x01; 0x57; 0x49; 0x02; 0x02; 0x42]).
Proof.
  assert (H1 : Forall reply_ok [[0x49; 0x02; 0x01; 0x57]; [0x49; 0x02; 0x02; 0x42]]).
  { repeat constructor; try (unfold is_byte; lia);
      eexists _, _; (split; [reflexivity | lia]). }
  assert (H2 : Forall (fun c => CleanSpec.is_eol c = true) [CR; CR])
    by (repeat constructor).
  split; [exact H1|]. split; [exact H2|].
  destruct (clean_response_encoded_reply
              [[0x49; 0x02; 0x01; 0x57]; [0x49; 0x02; 0x02; 0x42]] [CR; CR] [] 24 8
              H1 ltac:(discriminate) H2 ltac:(lia) ltac:(cbn; lia))
    as (Hok & _ & Hdec).
  split; [apply Hok; cbn; lia | exact Hdec].
Defined.

(** X25.  A VIN request and its reply go through the whole chain: the
    transcript made of the request [obd_vin_build_request] builds, one or
    more frames 49 02 (each with a sequence number and up to 13 data
    bytes) as printed by the encoder, CRs or LFs and the prompt is cleaned
    to a text from which [obd_vin_parse_response] returns the first 17
    non-zero data bytes as the VIN, with OK when there are at least 17 of
    them and ParseFailed otherwise. *)
Theorem vin_transcript_round_trip (frames : list (Z * list Z))
  (req_size out_size vin_size : nat) (request eols tail : cstring) :
  Forall frame_ok frames -> frames <> [] ->
  Vin.obd_vin_build_request req_size = (OBD_OK, Some request) ->
  Forall (fun c => CleanSpec.is_eol c = true) eols ->
  (List.length (CleanSpec.join_cr (frame_texts frames)) < out_size)%nat ->
  (OBD_VIN_LENGTH + 1 <= vin_size)%nat ->
  let chars := vin_chars_of (List.concat (map snd frames)) in
  exists hex,
    obd_elm327_clean_response
      (request ++ CleanSpec.join_cr (frame_texts frames) ++ eols ++ ">"%char :: tail)
      out_size
    = Some (OBD_OK, hex) /\
    Vin.obd_vin_parse_response hex vin_size
    = Some (if (OBD_VIN_LENGTH <=? List.length chars)%nat
            then OBD_OK else OBD_ERROR_PARSE_FAILED,
            firstn OBD_VIN_LENGTH chars).
Proof.
  intros Hframes Hne Hreq Heols Hfit Hsize chars.
  exists (CleanSpec.join_cr (frame_texts frames)). split.
  - unfold Vin.obd_vin_build_request in Hreq.
    destruct (req_size =? 0)%nat; [discriminate|].
    destruct (req_size <? 6)%nat; [discriminate|].
    injection Hreq as <-.
    change (["0"%char; "9"%char; "0"%char; "2"%char; CR] ++ ?r)
      with (cstr "0902" ++ CR :: r).
    rewrite (clean_response_skip_line (cstr "0902") _ out_size eq_refl eq_refl eq_refl
               eq_refl eq_refl).
    assert (Htexts : frame_texts frames
                     = reply_texts (map (fun f => 0x49 :: 0x02 :: fst f :: snd f) frames)).
    { unfold frame_texts, reply_texts. rewrite map_map. reflexivity. }
    rewrite Htexts in *.
    apply encoded_replies_cleaned; try assumption.
    + apply Forall_map. eapply Forall_impl; [|exact Hframes].
      intros f (Hseq & Hdata & _). split.
      * constructor; [unfold is_byte; lia|].
        constructor; [unfold is_byte; lia|].
        constructor; assumption.
      * eexists _, _. split; [reflexivity | lia].
    + destruct frames; [congruence | discriminate].
    + lia.
  - rewrite (vin_parse_response_accumulated _ _ Hsize).
    rewrite (accumulated_frames frames Hframes). fold chars.
    rewrite length_firstn.
    destruct (Nat.leb_spec OBD_VIN_LENGTH (List.length chars)).
    + rewrite Nat.min_l by lia. rewrite Nat.eqb_refl. reflexivity.
    + rewrite Nat.min_r by lia.
      destruct (Nat.eqb_spec (List.length chars) OBD_VIN_LENGTH); [lia | reflexivity].
Qed.

Lemma test_vin_frames_ok : Forall frame_ok test_vin_frames.
Proof.
  repeat constructor; cbn; try (unfold is_byte; lia); try lia.
Qed.

Lemma vin_transcript_round_trip_witness :
  Forall frame_ok test_vin_frames /\
  Vin.obd_vin_build_request 16 = (OBD_OK, Some (cstr "0902" ++ [CR])) /\
  exists hex,
    obd_elm327_clean_response
      ((cstr "0902" ++ [CR]) ++ test_vin_multiline ++ [CR; CR] ++ cstr ">") 256
    = Some (OBD_OK, hex) /\
    Vin.obd_vin_parse_response hex 18 = Some (OBD_OK, cstr "WBA3B5FK7FN123456").
Proof.
  assert (H3 : Vin.obd_vin_build_request 16 = (OBD_OK, Some (cstr "0902" ++ [CR])))
    by reflexivity.
  assert (H4 : Forall (fun c => CleanSpec.is_eol c = true) [CR; CR])
    by (repeat constructor).
  split; [exact test_vin_frames_ok|]. split; [exact H3|].
  destruct (vin_transcript_round_trip test_vin_frames 16 256 18 _ [CR; CR] []
              test_vin_frames_ok ltac:(discriminate) H3 H4
              ltac:(cbn; lia) ltac:(unfold OBD_VIN_LENGTH; lia))
    as (hex & Hclean & Hparse).
  exists hex. split; [exact Hclean | exact Hparse].
Defined.

Lemma vin_parse_response_round_trip_witness :
  Forall frame_ok test_vin_frames /\ (OBD_VIN_LENGTH + 1 <= 18)%nat /\
  Vin.obd_vin_parse_response test_vin_multiline 18
  = Some (OBD_OK, cstr "WBA3B5FK7FN123456").
Proof.
  assert (H2 : (OBD_VIN_LENGTH + 1 <= 18)%nat) by (unfold OBD_VIN_LENGTH; lia).
  split; [exact test_vin_frames_ok|]. split; [exact H2|].
  exact (vin_parse_response_round_trip test_vin_frames 18 test_vin_frames_ok H2).
Defined.

(** ** The cleaned payload *)

Section CleanedPayload.

Import CleanSpec.

Lemma skip_blanks_suffix (l : cstring) :
  exists blanks, l = blanks ++ skip_blanks l /\ Forall (fun c => is_blank c = true) blanks.
Proof.
  induction l as [|c l (blanks & Hl & Hb)].
  - exists []. split; [reflexivity | constructor].
  - cbn [skip_blanks]. fold (is_blank c). destruct (is_blank c) eqn:Hc.
    + exists (c :: blanks). split; [cbn [app]; f_equal; exact Hl|].
      constructor; assumption.
    + exists []. split; [reflexivity | constructor].
Qed.

Lemma skip_blanks_fixed (c : ascii) (l : cstring) :
  is_blank c = false -> skip_blanks (c :: l) = c :: l.
Proof. intros H. cbn [skip_blanks]. fold (is_blank c). rewrite H. reflexivity. Qed.

Lemma skip_blanks_snoc (x : cstring) (c : ascii) :
  skip_blanks (x ++ [c]) =
    match skip_blanks x with
    | [] => skip_blanks [c]
    | y => y ++ [c]
    end.
Proof.
  induction x as [|a x IH]; [reflexivity|].
  cbn [app skip_blanks]. destruct (Ascii.eqb a SP || Ascii.eqb a TAB); [exact IH|].
  reflexivity.
Qed.

Lemma trim_trailing_cons (c : ascii) (s : cstring) :
  trim_trailing (c :: s) =
    match trim_trailing s with
    | [] => if is_blank c then [] else [c]
    | t => c :: t
    end.
Proof.
  unfold trim_trailing. cbn [rev]. rewrite skip_blanks_snoc.
  destruct (skip_blanks (rev s)) as [|a y] eqn:Hy.
  - cbn [rev skip_blanks]. fold (is_blank c). destruct (is_blank c); reflexivity.
  - rewrite rev_app_distr. cbn [rev app].
    destruct (rev y ++ [a]) eqn:Hr; [|reflexivity].
    apply app_eq_nil in Hr as [_ Hr]. discriminate.
Qed.

Lemma trim_trailing_cons_nonblank (c : ascii) (s : cstring) :
  is_blank c = false -> trim_trailing (c :: s) = c :: trim_trailing s.
Proof.
  intros Hc. rewrite trim_trailing_cons, Hc. destruct (trim_trailing s); reflexivity.
Qed.

Lemma trim_trailing_app (x y : cstring) :
  trim_trailing y <> [] -> trim_trailing (x ++ y) = x ++ trim_trailing y.
Proof.
  intros Hy. induction x as [|c x IH]; [reflexivity|].
  cbn [app]. rewrite trim_trailing_cons, IH.
  destruct (x ++ trim_trailing y) eqn:Hx; [|reflexivity].
  apply app_eq_nil in Hx as [_ Hx]. contradiction.
Qed.

Lemma trim_trailing_prefix (s : cstring) :
  exists blanks, s = trim_trailing s ++ blanks.
Proof.
  destruct (skip_blanks_suffix (rev s)) as (blanks & Hs & _).
  exists (rev blanks). unfold trim_trailing.
  rewrite <- rev_app_distr, <- Hs, rev_involutive. reflexivity.
Qed.

Lemma trim_trailing_idempotent (s : cstring) :
  trim_trailing (trim_trailing s) = trim_trailing s.
Proof.
  unfold trim_trailing. rewrite rev_involutive. f_equal.
  destruct (skip_blanks (rev s)) as [|c l] eqn:Hs; [reflexivity|].
  pose proof (skip_blanks_head _ _ _ Hs) as Hc.
  apply skip_blanks_fixed. exact Hc.
Qed.

Lemma is_prefix_app (lit p x : cstring) :
  is_prefix lit p = true -> is_prefix lit (p ++ x) = true.
Proof.
  revert p. induction lit as [|a lit IH]; intros p H; [reflexivity|].
  destruct p as [|b p]; [discriminate|].
  cbn [app is_prefix] in *. apply andb_true_iff in H as [Hab Hp].
  rewrite Hab, (IH p Hp). reflexivity.
Qed.

Lemma is_prefix_shorter (lit p x : cstring) :
  is_prefix lit (p ++ x) = false -> is_prefix lit p = false.
Proof.
  intros H. destruct (is_prefix lit p) eqn:Hp; [|reflexivity].
  rewrite (is_prefix_app lit p x Hp) in H. discriminate.
Qed.

(** A line that is Data stays Data when cut short. *)
Lemma classify_data_prefix (c : ascii) (tl x : cstring) :
  is_whitespace c = false ->
  obd_elm327_classify_response (c :: tl ++ x) = OBD_ELM_RESPONSE_DATA ->
  obd_elm327_classify_response (c :: tl) = OBD_ELM_RESPONSE_DATA.
Proof.
  intros Hc. unfold obd_elm327_classify_response.
  rewrite !(skip_leading_ws_fixed _ _ Hc).
  strncmp_to_prefix.
  change (c :: tl ++ x) with ((c :: tl) ++ x).
  destruct (Ascii.eqb c ">"); [discriminate|].
  repeat match goal with
         | |- context [is_prefix ?lit ((c :: tl) ++ x)] =>
             let E := fresh "E" in
             destruct (is_prefix lit ((c :: tl) ++ x)) eqn:E;
             [try discriminate | rewrite (is_prefix_shorter lit (c :: tl) x E)]
         end;
    cbn [orb]; try discriminate;
    destruct (Ascii.eqb c "?"); try discriminate; auto.
Qed.

Lemma plain_line_app (a b : cstring) :
  plain_line (a ++ b) = plain_line a && plain_line b.
Proof. unfold plain_line. apply forallb_app. Qed.

(** The shape of a line that is its own payload. *)
Lemma payload_line_shape (k : cstring) :
  payload_line k ->
  exists c0 c1 tl b,
    k = c0 :: c1 :: tl /\ is_blank c0 = false /\ is_blank c1 = false /\
    is_whitespace c0 = false /\
    obd_elm327_classify_response k = OBD_ELM_RESPONSE_DATA /\
    first_byte k = Some b /\ 0x40 <= b.
Proof.
  intros [Hplain Hpay]. unfold payload in Hpay.
  destruct (skip_blanks_suffix k) as (blanks & Hk & Hblanks).
  destruct (obd_elm327_classify_response (skip_blanks k)) eqn:Hclass; try discriminate.
  destruct (first_byte (skip_blanks k)) as [b|] eqn:Hbyte; [|discriminate].
  destruct (echo_below_0x40 b) eqn:Hecho; [discriminate|].
  injection Hpay as Hfix. rewrite Hfix in *.
  unfold first_byte in Hbyte.
  destruct k as [|c0 [|c1 tl]]; try discriminate.
  destruct ((0 <=? hex_char_to_nibble c0) && (0 <=? hex_char_to_nibble c1)) eqn:Hhex;
    [|discriminate].
  apply andb_true_iff in Hhex as [H0 H1].
  assert (Hnb : forall c, (0 <=? hex_char_to_nibble c) = true ->
                          is_blank c = false /\ is_whitespace c = false).
  { intros c. destruct c as [[] [] [] [] [] [] [] []]; vm_compute;
      intros; try discriminate; split; reflexivity. }
  exists c0, c1, tl, b.
  split; [reflexivity|]. split; [apply (Hnb c0 H0)|]. split; [apply (Hnb c1 H1)|].
  split; [apply (Hnb c0 H0)|]. split; [exact Hclass|].
  split; [unfold first_byte; rewrite H0, H1; exact Hbyte|].
  unfold echo_below_0x40 in Hecho. apply Z.ltb_ge in Hecho. exact Hecho.
Qed.

Lemma payload_line_of_shape (c0 c1 : ascii) (tl : cstring) (b : Z) :
  plain_line (c0 :: c1 :: tl) = true -> is_blank c0 = false ->
  obd_elm327_classify_response (c0 :: c1 :: tl) = OBD_ELM_RESPONSE_DATA ->
  first_byte (c0 :: c1 :: tl) = Some b -> 0x40 <= b ->
  payload_line (c0 :: c1 :: tl).
Proof.
  intros Hplain Hc0 Hclass Hbyte Hb. split; [exact Hplain|].
  unfold payload. rewrite (skip_blanks_fixed c0 _ Hc0), Hclass, Hbyte.
  unfold echo_below_0x40. destruct (Z.ltb_spec b 64); [lia | reflexivity].
Qed.

(** What survives of a line is a payload line. *)
Lemma payload_is_payload_line (l k : cstring) :
  plain_line l = true -> payload echo_below_0x40 l = Some k -> payload_line k.
Proof.
  intros Hplain Hpay.
  destruct (skip_blanks_suffix l) as (blanks & Hl & _).
  assert (Hk : k = skip_blanks l).
  { unfold payload in Hpay.
    destruct (obd_elm327_classify_response (skip_blanks l)); try discriminate.
    destruct (first_byte (skip_blanks l)); [|discriminate].
    destruct (echo_below_0x40 z); [discriminate|]. injection Hpay as <-. reflexivity. }
  subst k. split.
  - rewrite Hl, plain_line_app in Hplain. apply andb_true_iff in Hplain. tauto.
  - unfold payload in *.
    destruct (skip_blanks l) as [|c s] eqn:Hs; [discriminate Hpay|].
    rewrite (skip_blanks_fixed c s (skip_blanks_head _ _ _ Hs)). exact Hpay.
Qed.

Lemma lines_from_plain (p : cstring) :
  plain_line (fst (lines_from p)) = true /\
  Forall (fun l => plain_line l = true) (snd (lines_from p)).
Proof.
  induction p as [|c rest [IHc IHl]]; cbn [lines_from].
  - split; [reflexivity | constructor].
  - destruct (is_prompt c) eqn:Hp; [split; [reflexivity | constructor]|].
    destruct (lines_from rest) as [cur ls]. cbn [fst snd] in *.
    destruct (is_eol c) eqn:He; cbn [fst snd].
    + split; [reflexivity|]. destruct cur; cbn [cons_nonempty]; auto.
    + split; [|assumption]. cbn [plain_line forallb]. rewrite He, Hp. exact IHc.
Qed.

Lemma lines_plain (raw : cstring) : Forall (fun l => plain_line l = true) (lines raw).
Proof.
  unfold lines. pose proof (lines_from_plain raw) as [Hc Hl].
  destruct (lines_from raw) as [cur ls]. cbn [fst snd] in *.
  destruct cur; cbn [cons_nonempty]; auto.
Qed.

Lemma kept_payload_lines (ls : list cstring) :
  Forall (fun l => plain_line l = true) ls ->
  Forall payload_line (kept echo_below_0x40 ls).
Proof.
  induction 1 as [|l ls Hl Hls IH]; cbn [kept]; [constructor|].
  destruct (payload echo_below_0x40 l) as [k|] eqn:Hpay; [|exact IH].
  constructor; [exact (payload_is_payload_line l k Hl Hpay) | exact IH].
Qed.

Lemma surviving_payload_lines (raw : cstring) :
  Forall payload_line (surviving echo_below_0x40 raw).
Proof. apply kept_payload_lines, lines_plain. Qed.

(** A successful cleaning, read backwards. *)
Lemma clean_response_ok_inv (raw : cstring) (out_size : nat) (p : cstring) :
  obd_elm327_clean_response raw out_size = Some (OBD_OK, p) ->
  let ks := surviving echo_below_0x40 raw in
  ks <> [] /\ (List.length (join_cr ks) < out_size)%nat /\
  p = trim_trailing (join_cr ks).
Proof.
  intros Hcall ks.
  destruct out_size as [|n]; [discriminate Hcall|].
  destruct (clean_response_surviving raw (S n) ltac:(lia)) as (Hnil & Hok & Hover).
  fold ks in Hnil, Hok, Hover.
  destruct ks as [|k ks'] eqn:Hks.
  - rewrite (Hnil eq_refl) in Hcall. unfold no_payload_error in Hcall.
    destruct (strstr raw (cstr "NO DATA")); [discriminate|].
    destruct (strstr raw (cstr "?") || strstr raw (cstr "ERROR")); discriminate.
  - destruct (Nat.lt_ge_cases (List.length (join_cr (k :: ks'))) (S n)) as [Hlt|Hge].
    + rewrite (Hok ltac:(discriminate) Hlt) in Hcall. injection Hcall as <-.
      split; [discriminate|]. split; [exact Hlt | reflexivity].
    + destruct (Hover ltac:(discriminate) Hge) as [partial Hp].
      rewrite Hp in Hcall. discriminate.
Qed.


End CleanedPayload.

Section CleanedPayloadFacts.

Import CleanSpec.

Lemma join_cr_head (k : cstring) (ks : list cstring) :
  exists rest, join_cr (k :: ks) = k ++ rest.
Proof.
  cbn [join_cr]. destruct ks as [|k' ks'].
  - exists []. rewrite app_nil_r. reflexivity.
  - eexists. reflexivity.
Qed.

Lemma payload_line_trimmed (k : cstring) :
  payload_line k -> payload_line (trim_trailing k).
Proof.
  intros Hk. pose proof Hk as [Hplain _].
  destruct (payload_line_shape k Hk) as (c0 & c1 & tl & b & -> & H0 & H1 & Hws & Hclass & Hbyte & Hb).
  destruct (trim_trailing_prefix (c0 :: c1 :: tl)) as [blanks Hpre].
  rewrite (trim_trailing_cons_nonblank c0 _ H0), (trim_trailing_cons_nonblank c1 _ H1) in *.
  apply (payload_line_of_shape c0 c1 (trim_trailing tl) b).
  - rewrite Hpre, plain_line_app in Hplain. apply andb_true_iff in Hplain. tauto.
  - exact H0.
  - apply (classify_data_prefix c0 (c1 :: trim_trailing tl) blanks Hws).
    cbn [app] in Hpre |- *. rewrite <- Hpre. exact Hclass.
  - exact Hbyte.
  - exact Hb.
Qed.


Lemma payload_line_nonempty (k : cstring) : payload_line k -> k <> [].
Proof.
  intros Hk. destruct (payload_line_shape k Hk) as (c0 & c1 & tl & b & -> & _).
  discriminate.
Qed.

Lemma join_cr_nonempty (ks : list cstring) :
  Forall payload_line ks -> ks <> [] -> join_cr ks <> [].
Proof.
  intros Hall Hne. destruct Hall as [|k ks Hk Hks]; [congruence|].
  destruct (join_cr_head k ks) as [rest ->].
  pose proof (payload_line_nonempty k Hk). destruct k; [congruence | discriminate].
Qed.

(** Trimming the joined payload only shortens its last line. *)
Lemma trim_trailing_join (ks : list cstring) :
  Forall payload_line ks -> ks <> [] ->
  exists ks', Forall payload_line ks' /\ ks' <> [] /\
              trim_trailing (join_cr ks) = join_cr ks'.
Proof.
  intros Hall Hne. induction Hall as [|k ks Hk Hks IH]; [congruence|].
  destruct ks as [|k2 rest].
  - exists [trim_trailing k]. split; [constructor; [apply payload_line_trimmed, Hk | constructor]|].
    split; [discriminate | reflexivity].
  - destruct (IH ltac:(discriminate)) as (ks' & Hall' & Hne' & Htrim).
    exists (k :: ks'). split; [constructor; assumption|]. split; [discriminate|].
    change (join_cr (k :: k2 :: rest)) with (k ++ CR :: join_cr (k2 :: rest)).
    change (k ++ CR :: join_cr (k2 :: rest)) with (k ++ [CR] ++ join_cr (k2 :: rest)).
    rewrite app_assoc, trim_trailing_app.
    + rewrite Htrim, <- app_assoc. cbn [join_cr app].
      destruct ks'; [congruence | reflexivity].
    + rewrite Htrim. apply join_cr_nonempty; assumption.
Qed.

Lemma lines_from_plain_end (e : cstring) :
  plain_line e = true -> lines_from e = (e, []).
Proof.
  induction e as [|a e IH]; intros Hplain; [reflexivity|].
  cbn [plain_line forallb] in Hplain. apply andb_true_iff in Hplain as [Ha He].
  apply negb_true_iff, orb_false_iff in Ha as [Heol Hprompt].
  cbn [lines_from]. rewrite Hprompt, Heol, (IH He). reflexivity.
Qed.

(** Payload lines joined by carriage returns split into themselves. *)
Lemma lines_join_cr (ks : list cstring) :
  Forall payload_line ks -> lines (join_cr ks) = ks.
Proof.
  induction 1 as [|k ks Hk Hks IH]; [reflexivity|].
  pose proof (payload_line_nonempty k Hk) as Hne. pose proof Hk as [Hplain _].
  destruct ks as [|k2 rest].
  - cbn [join_cr]. unfold lines. rewrite (lines_from_plain_end k Hplain).
    destruct k; [congruence | reflexivity].
  - change (join_cr (k :: k2 :: rest)) with (k ++ CR :: join_cr (k2 :: rest)).
    rewrite (lines_plain_cr k _ Hplain), IH. destruct k; [congruence | reflexivity].
Qed.

Lemma kept_payload_fixed (ks : list cstring) :
  Forall payload_line ks -> kept echo_below_0x40 ks = ks.
Proof.
  induction 1 as [|k ks [_ Hk] Hks IH]; [reflexivity|].
  cbn [kept]. rewrite Hk, IH. reflexivity.
Qed.

End CleanedPayloadFacts.



(** X27.  Cleaning is idempotent: the text a successful cleaning returns is
    returned unchanged when it is cleaned again, with any buffer it fits. *)
Theorem clean_response_idempotent (raw : cstring) (out_size : nat) (p : cstring)
    (again_size : nat) :
  obd_elm327_clean_response raw out_size = Some (OBD_OK, p) ->
  (List.length p < again_size)%nat ->
  obd_elm327_clean_response p again_size = Some (OBD_OK, p).
Proof.
  intros Hcall Hfit.
  destruct (clean_response_ok_inv raw out_size p Hcall) as (Hne & _ & ->).
  destruct (trim_trailing_join _ (surviving_payload_lines raw) Hne)
    as (ks' & Hall' & Hne' & Htrim).
  rewrite Htrim in *.
  destruct (clean_response_surviving (CleanSpec.join_cr ks') again_size ltac:(lia))
    as (_ & Hok & _).
  unfold CleanSpec.surviving in Hok.
  rewrite (lines_join_cr ks' Hall'), (kept_payload_fixed ks' Hall') in Hok.
  rewrite (Hok Hne' Hfit). rewrite <- Htrim, trim_trailing_idempotent. reflexivity.
Qed.

Lemma clean_response_idempotent_witness :
  obd_elm327_clean_response test_raw_rpm_response 256
    = Some (OBD_OK, cstr "41 0C 1A F8") /\
  (List.length (cstr "41 0C 1A F8") < 12)%nat /\
  obd_elm327_clean_response (cstr "41 0C 1A F8") 12
    = Some (OBD_OK, cstr "41 0C 1A F8").
Proof.
  split; [reflexivity|]. split; [cbn; lia|].
  exact (clean_response_idempotent test_raw_rpm_response 256 (cstr "41 0C 1A F8") 12
           eq_refl ltac:(cbn; lia)).
Defined.

(** X28.  Nothing behind the first prompt character changes a cleaning
    that succeeds or runs out of buffer: the result and the text written
    are the same whatever follows the prompt. *)
Theorem clean_response_ignores_text_after_prompt (before after after' : cstring)
    (out_size : nat) (r : obd_result_t) (p : cstring) :
  obd_elm327_clean_response (before ++ ">"%char :: after) out_size = Some (r, p) ->
  r = OBD_OK \/ r = OBD_ERROR_BUFFER_TOO_SMALL ->
  obd_elm327_clean_response (before ++ ">"%char :: after') out_size = Some (r, p).
Proof.
  intros Hcall Hr.
  destruct out_size as [|n]; [exact Hcall|].
  rewrite clean_response_by_lines in Hcall |- * by lia.
  rewrite (lines_prompt before after' after).
  destruct (process_lines _ (S n) (state_of [])) as [res|st]; [exact Hcall|].
  destruct (negb (found_data st)); [|exact Hcall].
  injection Hcall as Herr _. exfalso. unfold CleanSpec.no_payload_error in Herr.
  destruct (strstr _ (cstr "NO DATA")); [destruct Hr; congruence|].
  destruct (strstr _ (cstr "?") || strstr _ (cstr "ERROR")); destruct Hr; congruence.
Qed.

Lemma clean_response_ignores_text_after_prompt_witness :
  obd_elm327_clean_response (cstr "41 0C 1A F8" ++ CR :: ">"%char :: cstr "NO DATA") 32
    = Some (OBD_OK, cstr "41 0C 1A F8").
Proof.
  exact (clean_response_ignores_text_after_prompt
           (cstr "41 0C 1A F8" ++ [CR]) [] (cstr "NO DATA") 32 OBD_OK
           (cstr "41 0C 1A F8") eq_refl (or_introl eq_refl)).
Defined.
